(** * Hostal MAGIC reservation handler: a shallow embedding and its properties

    The development follows [Lambda_reservas_handler.py]: the Python values the
    handler manipulates, the three DynamoDB tables and the two messaging
    clients it talks to, and every function of the module written in a small
    state-and-exception monad.  The theorems at the end relate the handler to
    the reservation-consistency specification.  Module [Pipeline] adds the
    two functions of [ml_bi_pipeline.py] that work on plain dictionaries. *)

From Stdlib Require Import ZArith List String Bool Lia.
From Stdlib Require Import DecimalString.
From Stdlib Require Import Floats.PrimFloat Floats.FloatOps Floats.SpecFloat.
Import ListNotations.

Local Open Scope string_scope.
Local Open Scope Z_scope.
Set Warnings "-register-all".

(** ** Python values *)

(** The values that reach the handler: what [json.loads] produces for a request
    and what boto3 returns for an item.  A DynamoDB number is a [Decimal] on
    the Python side: inside an item of a table [PInt] and [PFloat] both stand
    for such a [Decimal], carried as the integer it is or as the binary64
    value [float()] gives it. *)
Inductive PyVal : Type :=
| PNone
| PBool (b : bool)
| PInt (z : Z)
| PFloat (f : float)
| PStr (s : string)
| PList (l : list PyVal)
| PDict (d : list (string * PyVal)).

(** A [dict] with string keys.  Lookup takes the first binding of a key. *)
Definition Dict : Type := list (string * PyVal).

Fixpoint dict_get (k : string) (d : Dict) : option PyVal :=
  match d with
  | [] => None
  | (k', v) :: rest => if String.eqb k k' then Some v else dict_get k rest
  end.

(** [k in d] *)
Definition dict_in (k : string) (d : Dict) : bool :=
  match dict_get k d with Some _ => true | None => false end.

(** [d.get(k, default)] *)
Definition dict_get_default (k : string) (default : PyVal) (d : Dict) : PyVal :=
  match dict_get k d with Some v => v | None => default end.

(** The exceptions the handler can meet.  Every one of them is an instance of
    [Exception], so every [except Exception] clause catches it. *)
Inductive PyExc : Type :=
| KeyError (key : string)
| NameError (name : string)
| TypeError
| ValueError
| AttributeError
| OverflowError
| JSONDecodeError
| ClientError (service : string).

Inductive Res (A : Type) : Type :=
| Ok (a : A)
| Raised (e : PyExc).
Arguments Ok {A} a.
Arguments Raised {A} e.

Definition res_of_option {A : Type} (e : PyExc) (o : option A) : Res A :=
  match o with Some a => Ok a | None => Raised e end.

(** [d[k]] *)
Definition dict_item (k : string) (d : Dict) : Res PyVal :=
  match dict_get k d with Some v => Ok v | None => Raised (KeyError k) end.

(** ** Numbers *)

Module Num.

(** [int] to [float]: correctly rounded (ties to even); [OverflowError] when
    the rounded value is not finite. *)
Definition float_of_int (z : Z) : option float :=
  let f := SF2Prim (binary_normalize prec emax z 0 false) in
  if PrimFloat.is_infinity f then None else Some f.

(** [float] to [int]: truncation toward zero; [None] on nan and infinities. *)
Definition trunc (f : float) : option Z :=
  match Prim2SF f with
  | S754_zero _ => Some 0
  | S754_finite s m e =>
      let v := if 0 <=? e then Z.pos m * 2 ^ e else Z.pos m / 2 ^ (- e) in
      Some (if s then - v else v)
  | S754_infinity _ | S754_nan => None
  end.

(** A Python number after the usual coercion of [bool] to [int]. *)
Inductive t : Type :=
| I (z : Z)
| F (f : float).

Definition of_val (v : PyVal) : option t :=
  match v with
  | PBool b => Some (I (if b then 1 else 0))
  | PInt z => Some (I z)
  | PFloat f => Some (F f)
  | _ => None
  end.

Definition to_val (n : t) : PyVal :=
  match n with I z => PInt z | F f => PFloat f end.

Definition to_float (n : t) : option float :=
  match n with I z => float_of_int z | F f => Some f end.

(** A binary arithmetic operator: exact on two ints, binary64 as soon as one
    operand is a float; [None] is the [OverflowError] of the int conversion. *)
Definition arith (zop : Z -> Z -> Z) (fop : float -> float -> float)
           (a b : t) : option t :=
  match a, b with
  | I x, I y => Some (I (zop x y))
  | _, _ =>
      match to_float a, to_float b with
      | Some x, Some y => Some (F (fop x y))
      | _, _ => None
      end
  end.

Definition add := arith Z.add PrimFloat.add.
Definition sub := arith Z.sub PrimFloat.sub.
Definition mul := arith Z.mul PrimFloat.mul.

(** Exact comparison of an int with a float, as Python does it. *)
Definition int_float_cmp (z : Z) (f : float) : option comparison :=
  match Prim2SF f with
  | S754_zero _ => Some (z ?= 0)
  | S754_finite s m e =>
      let mz := if s then Z.neg m else Z.pos m in
      Some (if 0 <=? e then z ?= mz * 2 ^ e else z * 2 ^ (- e) ?= mz)
  | S754_infinity s => Some (if s then Gt else Lt)
  | S754_nan => None
  end.

Definition cmp (a b : t) : option comparison :=
  match a, b with
  | I x, I y => Some (x ?= y)
  | I x, F g => int_float_cmp x g
  | F f, I y => option_map CompOpp (int_float_cmp y f)
  | F f, F g =>
      match PrimFloat.compare f g with
      | FEq => Some Eq | FLt => Some Lt | FGt => Some Gt | FNotComparable => None
      end
  end.

Definition gtb (a b : t) : bool :=
  match cmp a b with Some Gt => true | _ => false end.

Definition eqb (a b : t) : bool :=
  match cmp a b with Some Eq => true | _ => false end.

End Num.

(** ** Equality of values *)

(** Python's [==] on the values above: numbers compare numerically across
    [bool], [int] and [float]; strings, lists and dicts structurally. *)
Fixpoint py_eq (a b : PyVal) {struct a} : bool :=
  match a, b with
  | PNone, PNone => true
  | PStr s, PStr t => String.eqb s t
  | PList l, PList l' =>
      (fix go (xs ys : list PyVal) {struct xs} : bool :=
         match xs, ys with
         | [], [] => true
         | x :: xs', y :: ys' => py_eq x y && go xs' ys'
         | _, _ => false
         end) l l'
  | PDict d, PDict d' =>
      (fix go (seen : list string) (xs : list (string * PyVal)) {struct xs} : bool :=
         match xs with
         | [] => true
         | (k, v) :: xs' =>
             (if existsb (String.eqb k) seen then true
              else match dict_get k d' with
                   | Some v' => py_eq v v'
                   | None => false
                   end)
             && go (k :: seen) xs'
         end) [] d
      && forallb (fun kv => dict_in (fst kv) d) d'
  | _, _ =>
      match Num.of_val a, Num.of_val b with
      | Some x, Some y => Num.eqb x y
      | _, _ => false
      end
  end.

Definition py_ne (a b : PyVal) : bool := negb (py_eq a b).

(** Truth value of an object, for [not x] and [if x]. *)
Definition truthy (v : PyVal) : bool :=
  match v with
  | PNone => false
  | PBool b => b
  | PInt z => negb (z =? 0)
  | PFloat f => negb (PrimFloat.eqb f 0%float)
  | PStr s => match s with EmptyString => false | _ => true end
  | PList l => match l with [] => false | _ => true end
  | PDict d => match d with [] => false | _ => true end
  end.

(** ** The world outside the module *)

(** What the module-level clients reach: the three DynamoDB tables, the mail
    sent through SES, the messages put on the BI queue, and what [print] wrote.
    An item is a [Dict] of attributes, as boto3 hands it over. *)
Record World : Type := mkWorld {
  quartos_table : list Dict;
  reservas_table : list Dict;
  clientes_table : list Dict;
  ses_outbox : list (PyVal * Dict);
  sqs_queue : list Dict;
  stdout : list (string * PyExc)
}.

(** What one invocation cannot decide by itself: the identifier [uuid.uuid4()]
    draws, the clock, and which of the collaborators' calls raise. *)
Record Env : Type := mkEnv {
  uuid4 : string;
  now_isoformat : string;
  falha_quartos_query : bool;
  falha_quartos_scan : bool;
  falha_reservas_query : bool;
  falha_reservas_put : bool;
  falha_clientes_put : bool;
  falha_ses : bool;
  falha_sqs : bool
}.

(** A [datetime].  A naive one is its wall clock, in microseconds since the
    start of year 1; an offset-aware one is its UTC instant on the same scale,
    which is what Python orders and subtracts once the offsets are taken out. *)
Record DateTime : Type := mkDateTime {
  instante : Z;
  aware : bool
}.

(** [x < y], [x > y] and [x - y] (a [timedelta], in microseconds) on two
    datetimes: [TypeError] between a naive and an offset-aware one. *)
Definition datetime_lt (x y : DateTime) : Res bool :=
  if Bool.eqb (aware x) (aware y) then Ok (instante x <? instante y)
  else Raised TypeError.

Definition datetime_gt (x y : DateTime) : Res bool :=
  if Bool.eqb (aware x) (aware y) then Ok (instante x >? instante y)
  else Raised TypeError.

Definition datetime_sub (x y : DateTime) : Res Z :=
  if Bool.eqb (aware x) (aware y) then Ok (instante x - instante y)
  else Raised TypeError.

(** Library functions the module calls on strings; their parsers are not part
    of the handler.  [None] stands for the [ValueError] of the parser. *)
Record Biblioteca : Type := mkBiblioteca {
  fromisoformat : string -> option DateTime;
  json_loads : string -> option PyVal;
  float_of_str : string -> option float;
  int_of_str : string -> option Z
}.

(** ** State and exceptions *)

Definition M (A : Type) : Type := World -> Res A * World.

Definition ret {A : Type} (a : A) : M A := fun w => (Ok a, w).

Definition raise {A : Type} (e : PyExc) : M A := fun w => (Raised e, w).

Definition bind {A B : Type} (m : M A) (f : A -> M B) : M B :=
  fun w =>
    match m w with
    | (Ok a, w') => f a w'
    | (Raised e, w') => (Raised e, w')
    end.

(** [try: m  except Exception as e: h e].  What [m] did to the world before it
    raised stays done. *)
Definition try_except {A : Type} (m : M A) (h : PyExc -> M A) : M A :=
  fun w =>
    match m w with
    | (Ok a, w') => (Ok a, w')
    | (Raised e, w') => h e w'
    end.

Definition lift {A : Type} (r : Res A) : M A := fun w => (r, w).

Declare Scope py_scope.
Delimit Scope py_scope with py.
Notation "x <- m ;; k" := (bind m (fun x => k))
  (at level 61, m at next level, right associativity) : py_scope.
Notation "x <~ r ;; k" := (bind (lift r) (fun x => k))
  (at level 61, r at next level, right associativity) : py_scope.
Notation "m ;;; k" := (bind m (fun _ => k))
  (at level 61, right associativity) : py_scope.
Local Open Scope py_scope.

(** [print(f"<prefix>: {str(e)}")] *)
Definition print (prefix : string) (e : PyExc) : M unit :=
  fun w =>
    (Ok tt, mkWorld (quartos_table w) (reservas_table w) (clientes_table w)
                    (ses_outbox w) (sqs_queue w) (stdout w ++ [(prefix, e)])).

(** ** DynamoDB, SES and SQS *)

(** The [=] condition of DynamoDB on scalar attributes: same type, same value
    (all numbers are one type). *)
Definition dynamo_eq (a b : PyVal) : bool :=
  match a, b with
  | PStr s, PStr t => String.eqb s t
  | PBool x, PBool y => Bool.eqb x y
  | PNone, PNone => true
  | PInt x, PInt y => Num.eqb (Num.I x) (Num.I y)
  | PInt x, PFloat g => Num.eqb (Num.I x) (Num.F g)
  | PFloat f, PInt y => Num.eqb (Num.F f) (Num.I y)
  | PFloat f, PFloat g => Num.eqb (Num.F f) (Num.F g)
  | _, _ => false
  end.

Definition attr_is (k : string) (v : PyVal) (item : Dict) : bool :=
  match dict_get k item with Some x => dynamo_eq x v | None => false end.

(** [quartos_table.query(IndexName='tipo-index',
      KeyConditionExpression=Key('tipo').eq(tipo_quarto))]: the items carrying
    the index key with that value. *)
Definition quartos_query_tipo (env : Env) (tipo_quarto : PyVal) : M (list Dict) :=
  fun w =>
    if falha_quartos_query env then (Raised (ClientError "dynamodb"), w)
    else (Ok (filter (attr_is "tipo" tipo_quarto) (quartos_table w)), w).

(** [quartos_table.scan()] *)
Definition quartos_scan (env : Env) : M (list Dict) :=
  fun w =>
    if falha_quartos_scan env then (Raised (ClientError "dynamodb"), w)
    else (Ok (quartos_table w), w).

(** The items of [reservas_table] that the index [quarto-data-index] holds
    under [quarto_id] and that pass the filter [status = 'confirmada'].  An
    item without a [quarto_id] attribute is not in the index. *)
Definition confirmadas_do_quarto (quarto_id : PyVal) (w : World) : list Dict :=
  filter (fun r => attr_is "quarto_id" quarto_id r && attr_is "status" (PStr "confirmada") r)
         (reservas_table w).

(** [reservas_table.query(IndexName='quarto-data-index',
      KeyConditionExpression=Key('quarto_id').eq(quarto_id),
      FilterExpression=Attr('status').eq('confirmada'))] *)
Definition reservas_query_quarto (env : Env) (quarto_id : PyVal) : M (list Dict) :=
  fun w =>
    if falha_reservas_query env then (Raised (ClientError "dynamodb"), w)
    else (Ok (confirmadas_do_quarto quarto_id w), w).

(** [put_item]: the new item takes the place of the item with the same key.
    The tables are keyed by the identifiers the module generates for them:
    [reserva_id] for reservations, [email] for customers. *)
Definition put (key : string) (item : Dict) (table : list Dict) : list Dict :=
  match dict_get key item with
  | Some k => filter (fun old => negb (attr_is key k old)) table ++ [item]
  | None => table ++ [item]
  end.

Definition reservas_put_item (env : Env) (item : Dict) : M unit :=
  fun w =>
    if falha_reservas_put env then (Raised (ClientError "dynamodb"), w)
    else (Ok tt, mkWorld (quartos_table w) (put "reserva_id" item (reservas_table w))
                         (clientes_table w) (ses_outbox w) (sqs_queue w) (stdout w)).

Definition clientes_put_item (env : Env) (item : Dict) : M unit :=
  fun w =>
    if falha_clientes_put env then (Raised (ClientError "dynamodb"), w)
    else (Ok tt, mkWorld (quartos_table w) (reservas_table w)
                         (put "email" item (clientes_table w))
                         (ses_outbox w) (sqs_queue w) (stdout w)).

(** [ses.send_email(...)]: the message is kept as the destination address and
    the reservation its body renders. *)
Definition ses_send_email (env : Env) (destino : PyVal) (reserva : Dict) : M unit :=
  fun w =>
    if falha_ses env then (Raised (ClientError "ses"), w)
    else (Ok tt, mkWorld (quartos_table w) (reservas_table w) (clientes_table w)
                         (ses_outbox w ++ [(destino, reserva)]) (sqs_queue w) (stdout w)).

(** [sqs.send_message(...)] *)
Definition sqs_send_message (env : Env) (message : Dict) : M unit :=
  fun w =>
    if falha_sqs env then (Raised (ClientError "sqs"), w)
    else (Ok tt, mkWorld (quartos_table w) (reservas_table w) (clientes_table w)
                         (ses_outbox w) (sqs_queue w ++ [message]) (stdout w)).

(** ** The module *)

Record Resposta : Type := mkResposta {
  statusCode : Z;
  headers : list (string * string);
  body : Dict   (* the object handed to [json.dumps] *)
}.

Definition headers_cors : list (string * string) :=
  [("Access-Control-Allow-Origin", "*");
   ("Access-Control-Allow-Headers",
    "Content-Type,X-Amz-Date,Authorization,X-Api-Key,X-Amz-Security-Token");
   ("Access-Control-Allow-Methods", "GET,POST,OPTIONS,PUT,DELETE")].

Definition erro_response (mensagem : string) : Resposta :=
  mkResposta 400 headers_cors [("error", PStr mensagem)].

(** The names the module binds with [def].  A call to any other global name
    that no import provides raises [NameError] when it is reached. *)
Definition nomes_definidos : list string :=
  ["lambda_handler"; "criar_reserva"; "consultar_disponibilidade";
   "verificar_disponibilidade"; "verificar_quarto_disponivel";
   "calcular_valor_reserva"; "criar_ou_atualizar_cliente";
   "enviar_email_confirmacao"; "enviar_para_fila_bi"; "headers_cors";
   "erro_response"].

Definition definido (nome : string) : bool :=
  existsb (String.eqb nome) nomes_definidos.

(** A call [nome(...)] of a global name the module never binds: the lookup of
    the name fails before any argument is evaluated. *)
Definition nao_definida {A : Type} (nome : string) : M A :=
  raise (NameError nome).

Definition microssegundos_por_dia : Z := 86400000000.

(** Whether a value read from a DynamoDB item holds a number.  boto3 hands
    every number of an item over as a [Decimal], also inside lists and maps. *)
Fixpoint tem_decimal (v : PyVal) : bool :=
  match v with
  | PInt _ | PFloat _ => true
  | PList l => existsb tem_decimal l
  | PDict d => existsb (fun kv => match kv with (_, x) => tem_decimal x end) d
  | _ => false
  end.

(** [json.dumps] on the body of [consultar_disponibilidade].  In an entry of
    [quartos_disponiveis] the id, the type, the capacity and the amenities
    are the values of the item as boto3 returned them, and [preco_diaria]
    went through [float()]; the encoder raises [TypeError] on a [Decimal]. *)
Definition entrada_serializavel (entrada : PyVal) : bool :=
  match entrada with
  | PDict d =>
      forallb (fun kv => String.eqb (fst kv) "preco_diaria"
                         || negb (tem_decimal (snd kv))) d
  | _ => true
  end.

Definition json_dumps_quartos (quartos_disponiveis : list PyVal) : Res unit :=
  if forallb entrada_serializavel quartos_disponiveis then Ok tt
  else Raised TypeError.

Definition campos_obrigatorios : list string :=
  ["cliente_email"; "checkin"; "checkout"; "tipo_quarto"; "num_hospedes"].

(** The [for campo in campos_obrigatorios] loop: the first field that is
    [not in data], if any. *)
Fixpoint campo_ausente (campos : list string) (data : Dict) : option string :=
  match campos with
  | [] => None
  | campo :: rest =>
      if dict_in campo data then campo_ausente rest data else Some campo
  end.

Section Handler.

Variable lib : Biblioteca.

(** [datetime.fromisoformat(v)] *)
Definition datetime_fromisoformat (v : PyVal) : Res DateTime :=
  match v with
  | PStr s => res_of_option ValueError (fromisoformat lib s)
  | _ => Raised TypeError
  end.

(** [json.loads(v)] *)
Definition py_json_loads (v : PyVal) : Res PyVal :=
  match v with
  | PStr s => res_of_option JSONDecodeError (json_loads lib s)
  | _ => Raised TypeError
  end.

(** [float(v)] *)
Definition py_float (v : PyVal) : Res float :=
  match v with
  | PFloat f => Ok f
  | PInt z => res_of_option OverflowError (Num.float_of_int z)
  | PBool b => Ok (if b then 1%float else 0%float)
  | PStr s => res_of_option ValueError (float_of_str lib s)
  | _ => Raised TypeError
  end.

(** [int(v)] *)
Definition py_int (v : PyVal) : Res Z :=
  match v with
  | PInt z => Ok z
  | PBool b => Ok (if b then 1 else 0)
  | PFloat f =>
      match Num.trunc f with
      | Some z => Ok z
      | None => Raised (if PrimFloat.is_nan f then ValueError else OverflowError)
      end
  | PStr s => res_of_option ValueError (int_of_str lib s)
  | _ => Raised TypeError
  end.

(** [a > b], [a - b], [a * b], [a + b] on numbers; [TypeError] otherwise. *)
Definition py_gt (a b : PyVal) : Res bool :=
  match Num.of_val a, Num.of_val b with
  | Some x, Some y => Ok (Num.gtb x y)
  | _, _ => Raised TypeError
  end.

Definition py_arith (op : Num.t -> Num.t -> option Num.t) (a b : PyVal) : Res PyVal :=
  match Num.of_val a, Num.of_val b with
  | Some x, Some y =>
      match op x y with
      | Some r => Ok (Num.to_val r)
      | None => Raised OverflowError
      end
  | _, _ => Raised TypeError
  end.

Definition py_add := py_arith Num.add.
Definition py_sub := py_arith Num.sub.
Definition py_mul := py_arith Num.mul.

(** The [for reserva in response['Items']] loop of
    [verificar_quarto_disponivel]. *)
Fixpoint sem_sobreposicao (checkin_date checkout_date : DateTime)
         (items : list Dict) : M bool :=
  match items with
  | [] => ret true
  | reserva :: rest =>
      ci <~ dict_item "checkin" reserva ;;
      reserva_checkin <~ datetime_fromisoformat ci ;;
      co <~ dict_item "checkout" reserva ;;
      reserva_checkout <~ datetime_fromisoformat co ;;
      antes <~ datetime_lt checkin_date reserva_checkout ;;
      sobreposta <~ (if antes : bool    (* [and]: the right side only then *)
                     then datetime_gt checkout_date reserva_checkin
                     else Ok false) ;;
      if sobreposta : bool
      then ret false
      else sem_sobreposicao checkin_date checkout_date rest
  end.

Definition verificar_quarto_disponivel (env : Env) (quarto_id checkin checkout : PyVal)
  : M bool :=
  try_except
    (items <- reservas_query_quarto env quarto_id ;;
     checkin_date <~ datetime_fromisoformat checkin ;;
     checkout_date <~ datetime_fromisoformat checkout ;;
     sem_sobreposicao checkin_date checkout_date items)
    (fun e => print "Erro ao verificar quarto" e ;;; ret false).

(** The [for quarto in response['Items']] loop of
    [verificar_disponibilidade]. *)
Fixpoint primeiro_quarto_livre (env : Env) (checkin checkout : PyVal)
         (items : list Dict) : M Dict :=
  match items with
  | [] => ret [("disponivel", PBool false)]
  | quarto :: rest =>
      quarto_id <~ dict_item "quarto_id" quarto ;;
      livre <- verificar_quarto_disponivel env quarto_id checkin checkout ;;
      if livre
      then ret [("disponivel", PBool true); ("quarto_id", quarto_id)]
      else primeiro_quarto_livre env checkin checkout rest
  end.

Definition verificar_disponibilidade (env : Env) (checkin checkout tipo_quarto : PyVal)
  : M Dict :=
  try_except
    (items <- quartos_query_tipo env tipo_quarto ;;
     primeiro_quarto_livre env checkin checkout items)
    (fun e => print "Erro ao verificar disponibilidade" e ;;;
              ret [("disponivel", PBool false)]).

Definition calcular_valor_reserva (env : Env)
           (checkin checkout tipo_quarto num_hospedes : PyVal) : M PyVal :=
  try_except
    (items <- quartos_query_tipo env tipo_quarto ;;
     match firstn 1 items with          (* Limit=1 *)
     | [] => ret (PInt 0)
     | quarto :: _ =>
         p <~ dict_item "preco_diaria" quarto ;;
         preco_diaria <~ py_float p ;;
         checkin_date <~ datetime_fromisoformat checkin ;;
         checkout_date <~ datetime_fromisoformat checkout ;;
         delta <~ datetime_sub checkout_date checkin_date ;;
         let noites := delta / microssegundos_por_dia in      (* [.days] *)
         extra <~ py_gt num_hospedes (PInt 2) ;;
         taxa_extra_hospede <-
           (if extra
            then (h <~ py_sub num_hospedes (PInt 2) ;; lift (py_mul h (PInt 15)))
            else ret (PInt 0)) ;;
         diaria <~ py_add (PFloat preco_diaria) taxa_extra_hospede ;;
         lift (py_mul diaria (PInt noites))
     end)
    (fun e => print "Erro ao calcular valor" e ;;; ret (PInt 0)).

Definition criar_ou_atualizar_cliente (env : Env) (data : Dict) : M unit :=
  try_except
    (email <~ dict_item "cliente_email" data ;;
     let cliente :=
       [("email", email);
        ("nome", dict_get_default "cliente_nome" (PStr EmptyString) data);
        ("telefone", dict_get_default "cliente_telefone" (PStr EmptyString) data);
        ("ultima_atualizacao", PStr (now_isoformat env))] in
     clientes_put_item env cliente)
    (fun e => print "Erro ao salvar cliente" e).

(** The f-string reads seven attributes of the reservation before the
    message goes out. *)
Definition enviar_email_confirmacao (env : Env) (reserva : Dict) : M unit :=
  try_except
    (_ <~ dict_item "cliente_nome" reserva ;;
     _ <~ dict_item "reserva_id" reserva ;;
     _ <~ dict_item "checkin" reserva ;;
     _ <~ dict_item "checkout" reserva ;;
     _ <~ dict_item "tipo_quarto" reserva ;;
     _ <~ dict_item "num_hospedes" reserva ;;
     _ <~ dict_item "valor_total" reserva ;;
     destino <~ dict_item "cliente_email" reserva ;;
     ses_send_email env destino reserva)
    (fun e => print "Erro ao enviar email" e).

Definition enviar_para_fila_bi (env : Env) (reserva : Dict) : M unit :=
  try_except
    (let message :=
       [("tipo", PStr "nova_reserva");
        ("data", PDict reserva);
        ("timestamp", PStr (now_isoformat env))] in
     sqs_send_message env message)
    (fun e => print "Erro ao enviar para fila BI" e).

(** [criar_reserva] calls [atualizar_disponibilidade_quarto] and
    [lambda_handler] calls [listar_reservas] and [cancelar_reserva]; the
    module has no [def] for any of the three and imports none of them. *)
Definition atualizar_disponibilidade_quarto (tipo_quarto checkin checkout : PyVal)
  : M unit :=
  nao_definida "atualizar_disponibilidade_quarto".

Definition listar_reservas (data : Dict) : M Resposta :=
  nao_definida "listar_reservas".

Definition cancelar_reserva (data : Dict) : M Resposta :=
  nao_definida "cancelar_reserva".

Definition reserva_criada (reserva_id : string) (valor_total : float) : Resposta :=
  mkResposta 200 headers_cors
    [("success", PBool true);
     ("reserva_id", PStr reserva_id);
     ("valor_total", PFloat valor_total);
     ("message", PStr "Reserva criada com sucesso!")].

Definition criar_reserva (env : Env) (data : Dict) : M Resposta :=
  try_except
    (match campo_ausente campos_obrigatorios data with
     | Some campo => ret (erro_response ("Campo obrigatório: " ++ campo))
     | None =>
         checkin <~ dict_item "checkin" data ;;
         checkout <~ dict_item "checkout" data ;;
         tipo_quarto <~ dict_item "tipo_quarto" data ;;
         disponibilidade <- verificar_disponibilidade env checkin checkout tipo_quarto ;;
         disponivel <~ dict_item "disponivel" disponibilidade ;;
         if negb (truthy disponivel)
         then ret (erro_response "Quarto não disponível para as datas selecionadas")
         else
           let reserva_id := uuid4 env in
           num_hospedes <~ dict_item "num_hospedes" data ;;
           valor_total <-
             calcular_valor_reserva env checkin checkout tipo_quarto num_hospedes ;;
           criar_ou_atualizar_cliente env data ;;;
           cliente_email <~ dict_item "cliente_email" data ;;
           hospedes <~ py_int num_hospedes ;;
           valor_decimal <~ py_float valor_total ;;   (* Decimal(str(valor_total)) *)
           let reserva :=
             [("reserva_id", PStr reserva_id);
              ("cliente_email", cliente_email);
              ("cliente_nome", dict_get_default "cliente_nome" (PStr EmptyString) data);
              ("cliente_telefone",
               dict_get_default "cliente_telefone" (PStr EmptyString) data);
              ("checkin", checkin);
              ("checkout", checkout);
              ("tipo_quarto", tipo_quarto);
              ("num_hospedes", PInt hospedes);
              ("valor_total", PFloat valor_decimal);
              ("status", PStr "confirmada");
              ("data_criacao", PStr (now_isoformat env));
              ("servicos_extras", dict_get_default "servicos_extras" (PList []) data);
              ("observacoes", dict_get_default "observacoes" (PStr EmptyString) data)] in
           reservas_put_item env reserva ;;;
           atualizar_disponibilidade_quarto tipo_quarto checkin checkout ;;;
           enviar_email_confirmacao env reserva ;;;
           enviar_para_fila_bi env reserva ;;;
           valor <~ py_float valor_total ;;
           ret (reserva_criada reserva_id valor)
     end)
    (fun e => print "Erro ao criar reserva" e ;;;
              ret (erro_response "Erro ao processar reserva")).

(** The [for quarto in response['Items']] loop of
    [consultar_disponibilidade]; [acc] is [quartos_disponiveis]. *)
Fixpoint quartos_livres (env : Env) (checkin checkout tipo_quarto : PyVal)
         (items : list Dict) (acc : list PyVal) : M (list PyVal) :=
  match items with
  | [] => ret acc
  | quarto :: rest =>
      pular <-
        (if py_ne tipo_quarto (PStr "todos")
         then (t <~ dict_item "tipo" quarto ;; ret (py_ne t tipo_quarto))
         else ret false) ;;
      if (pular : bool)
      then quartos_livres env checkin checkout tipo_quarto rest acc
      else
        quarto_id <~ dict_item "quarto_id" quarto ;;
        livre <- verificar_quarto_disponivel env quarto_id checkin checkout ;;
        if livre
        then
          tipo <~ dict_item "tipo" quarto ;;
          capacidade <~ dict_item "capacidade" quarto ;;
          p <~ dict_item "preco_diaria" quarto ;;
          preco_diaria <~ py_float p ;;
          quartos_livres env checkin checkout tipo_quarto rest
            (acc ++ [PDict [("quarto_id", quarto_id);
                            ("tipo", tipo);
                            ("capacidade", capacidade);
                            ("preco_diaria", PFloat preco_diaria);
                            ("amenidades",
                             dict_get_default "amenidades" (PList []) quarto)]])
        else quartos_livres env checkin checkout tipo_quarto rest acc
  end.

Definition consultar_disponibilidade (env : Env) (data : Dict) : M Resposta :=
  try_except
    (checkin <~ dict_item "checkin" data ;;
     checkout <~ dict_item "checkout" data ;;
     let tipo_quarto := dict_get_default "tipo_quarto" (PStr "todos") data in
     items <- quartos_scan env ;;
     quartos_disponiveis <- quartos_livres env checkin checkout tipo_quarto items [] ;;
     _ <~ json_dumps_quartos quartos_disponiveis ;;
     ret (mkResposta 200 headers_cors
            [("quartos_disponiveis", PList quartos_disponiveis);
             ("total_encontrados", PInt (Z.of_nat (List.length quartos_disponiveis)))]))
    (fun e => print "Erro ao consultar disponibilidade" e ;;;
              ret (erro_response "Erro ao consultar disponibilidade")).

Definition lambda_handler (env : Env) (event : Dict) : M Resposta :=
  try_except
    (body <-
       (if dict_in "body" event
        then (raw <~ dict_item "body" event ;; lift (py_json_loads raw))
        else ret (PDict event)) ;;
     match body with
     | PDict data =>
         let action := dict_get_default "action" (PStr EmptyString) data in
         if py_eq action (PStr "criar_reserva") then criar_reserva env data
         else if py_eq action (PStr "consultar_disponibilidade")
         then consultar_disponibilidade env data
         else if py_eq action (PStr "listar_reservas") then listar_reservas data
         else if py_eq action (PStr "cancelar_reserva") then cancelar_reserva data
         else ret (mkResposta 400 headers_cors
                     [("error", PStr "Ação não reconhecida")])
     | _ => raise AttributeError          (* [body.get] on a non-dict *)
     end)
    (fun e => print "Erro no handler" e ;;;
              ret (mkResposta 500 headers_cors
                     [("error", PStr "Erro interno do servidor")])).

End Handler.

(** ** A concrete library instance and a small hostel

    The calendar dates [YYYY-MM-DD] are the strings the examples use; on them
    [datetime.fromisoformat] yields midnight of that day of the proleptic
    Gregorian calendar. *)
Module Exemplo.

Definition digito (c : Ascii.ascii) : option Z :=
  let n := Z.of_nat (Ascii.nat_of_ascii c) in
  if (48 <=? n) && (n <=? 57) then Some (n - 48) else None.

Fixpoint numero (acc : Z) (s : string) : option Z :=
  match s with
  | EmptyString => Some acc
  | String c rest =>
      match digito c with
      | Some d => numero (10 * acc + d) rest
      | None => None
      end
  end.

Definition bissexto (y : Z) : bool :=
  ((y mod 4 =? 0) && negb (y mod 100 =? 0)) || (y mod 400 =? 0).

Definition dias_no_mes (y m : Z) : Z :=
  if m =? 2 then (if bissexto y then 29 else 28)
  else if (m =? 4) || (m =? 6) || (m =? 9) || (m =? 11) then 30 else 31.

Definition dias_antes_do_ano (y : Z) : Z :=
  let p := y - 1 in p * 365 + p / 4 - p / 100 + p / 400.

Definition dias_antes_do_mes (y m : Z) : Z :=
  fold_left (fun acc k => acc + dias_no_mes y (Z.of_nat k))
            (seq 1 (Z.to_nat (m - 1))) 0.

(** [date(y, m, d).toordinal()] *)
Definition ordinal (y m d : Z) : Z :=
  dias_antes_do_ano y + dias_antes_do_mes y m + d.

Definition data_iso (s : string) : option Z :=
  if (String.length s =? 10)%nat
     && String.eqb (substring 4 1 s) "-" && String.eqb (substring 7 1 s) "-"
  then
    match numero 0 (substring 0 4 s), numero 0 (substring 5 2 s),
          numero 0 (substring 8 2 s) with
    | Some y, Some m, Some d =>
        if (1 <=? y) && (1 <=? m) && (m <=? 12) && (1 <=? d) && (d <=? dias_no_mes y m)
        then Some (ordinal y m d * microssegundos_por_dia)
        else None
    | _, _, _ => None
    end
  else None.

(** ["YYYY-MM-DDT00:00:00+00:00"]: midnight of that day in UTC. *)
Definition data_iso_utc (s : string) : option Z :=
  if (String.length s =? 25)%nat
     && String.eqb (substring 10 15 s) "T00:00:00+00:00"
  then data_iso (substring 0 10 s)
  else None.

(** A [datetime.fromisoformat] for the two shapes above: a calendar date
    gives a naive midnight, a UTC midnight an offset-aware one. *)
Definition fromisoformat_exemplo (s : string) : option DateTime :=
  match data_iso s with
  | Some z => Some (mkDateTime z false)
  | None =>
      match data_iso_utc s with
      | Some z => Some (mkDateTime z true)
      | None => None
      end
  end.

Definition lib : Biblioteca :=
  mkBiblioteca fromisoformat_exemplo (fun _ => None) (fun _ => None) (fun _ => None).

(** The same library with a [json.loads] that knows the two shortest JSON
    texts, the empty object and the empty array. *)
Definition lib_json : Biblioteca :=
  mkBiblioteca fromisoformat_exemplo
    (fun s => if String.eqb s "{}" then Some (PDict [])
              else if String.eqb s "[]" then Some (PList [])
              else None)
    (fun _ => None) (fun _ => None).

(** The same library with an [int()] that reads a non-empty run of decimal
    digits. *)
Definition lib_numeros : Biblioteca :=
  mkBiblioteca fromisoformat_exemplo (fun _ => None) (fun _ => None)
    (fun s => match s with EmptyString => None | _ => numero 0 s end).

(** Midnight of a calendar day, in microseconds, and the naive [datetime]
    of that midnight. *)
Definition dia (s : string) : Z :=
  match data_iso s with Some z => z | None => 0 end.

Definition meia_noite (s : string) : DateTime := mkDateTime (dia s) false.

(** An invocation in which the mail and the queue clients both fail. *)
Definition env_sem_avisos (id : string) : Env :=
  mkEnv id "2024-01-01T09:00:00" false false false false false true true.

(** Every collaborator answers; the identifier and the clock are given. *)
Definition env (id : string) : Env :=
  mkEnv id "2024-01-01T09:00:00" false false false false false false false.

(** One dormitory, nightly rate 50, and nothing booked yet. *)
Definition quarto_Q1 : Dict :=
  [("quarto_id", PStr "Q1"); ("tipo", PStr "dormitorio");
   ("capacidade", PInt 4); ("preco_diaria", PFloat 50)].

Definition hostal : World := mkWorld [quarto_Q1] [] [] [] [] [].

(** The same hostel with the dormitory taken from the 10th to the 15th of
    January by a booking that the ledger holds under the room's identifier. *)
Definition reserva_Q1 : Dict :=
  [("reserva_id", PStr "r-0"); ("quarto_id", PStr "Q1");
   ("cliente_email", PStr "eva@example.org");
   ("checkin", PStr "2024-01-10"); ("checkout", PStr "2024-01-15");
   ("tipo_quarto", PStr "dormitorio"); ("num_hospedes", PInt 2);
   ("valor_total", PFloat 250); ("status", PStr "confirmada")].

Definition hostal_ocupado : World := mkWorld [quarto_Q1] [reserva_Q1] [] [] [] [].

(** A second dormitory, a room item without an id, and hostels that have
    them after the taken dormitory. *)
Definition quarto_Q2 : Dict :=
  [("quarto_id", PStr "Q2"); ("tipo", PStr "dormitorio");
   ("capacidade", PInt 6); ("preco_diaria", PFloat 40)].

Definition quarto_sem_id : Dict :=
  [("tipo", PStr "dormitorio"); ("capacidade", PInt 2); ("preco_diaria", PFloat 30)].

Definition hostal_dois_quartos : World :=
  mkWorld [quarto_Q1; quarto_Q2] [reserva_Q1] [] [] [] [].

Definition hostal_quarto_sem_id : World :=
  mkWorld [quarto_Q1; quarto_sem_id; quarto_Q2] [reserva_Q1] [] [] [] [].

(** A ledger item of the dormitory whose check-in is not a date. *)
Definition reserva_ilegivel : Dict :=
  [("reserva_id", PStr "r-1"); ("quarto_id", PStr "Q1");
   ("checkin", PStr "amanha"); ("checkout", PStr "2024-03-02");
   ("tipo_quarto", PStr "dormitorio"); ("status", PStr "confirmada")].

Definition hostal_ilegivel : World :=
  mkWorld [quarto_Q1] [reserva_ilegivel] [] [] [] [].

(** A ledger item of the dormitory, from the 1st to the 5th of January, with
    its dates written with a UTC offset; the hostel that has it. *)
Definition reserva_utc : Dict :=
  [("reserva_id", PStr "r-2"); ("quarto_id", PStr "Q1");
   ("checkin", PStr "2024-01-01T00:00:00+00:00");
   ("checkout", PStr "2024-01-05T00:00:00+00:00");
   ("tipo_quarto", PStr "dormitorio"); ("status", PStr "confirmada")].

Definition hostal_utc : World := mkWorld [quarto_Q1] [reserva_utc] [] [] [] [].

(** A suite whose capacity is kept as a text, and a hostel with that one
    room. *)
Definition quarto_Q3 : Dict :=
  [("quarto_id", PStr "Q3"); ("tipo", PStr "suite");
   ("capacidade", PStr "2"); ("preco_diaria", PFloat 120);
   ("amenidades", PList [PStr "wifi"])].

Definition hostal_suite : World := mkWorld [quarto_Q3] [] [] [] [] [].

(** An invocation during which the ledger cannot be queried. *)
Definition env_ledger_fora (id : string) : Env :=
  mkEnv id "2024-01-01T09:00:00" false false true false false false false.

(** An invocation during which the customers table refuses the write. *)
Definition env_clientes_fora (id : string) : Env :=
  mkEnv id "2024-01-01T09:00:00" false false false false true false false.

Definition pedido_de (tipo_quarto email checkin checkout : string) (num_hospedes : Z)
  : Dict :=
  [("action", PStr "criar_reserva");
   ("cliente_email", PStr email);
   ("checkin", PStr checkin);
   ("checkout", PStr checkout);
   ("tipo_quarto", PStr tipo_quarto);
   ("num_hospedes", PInt num_hospedes)].

Definition pedido : string -> string -> string -> Z -> Dict := pedido_de "dormitorio".

Definition cancelamento (reserva_id : string) : Dict :=
  [("action", PStr "cancelar_reserva"); ("reserva_id", PStr reserva_id)].

End Exemplo.

(** ** The notions of the specification *)

(** The interval [[checkin, checkout)] of two date values, when both parse. *)
Definition intervalo (lib : Biblioteca) (checkin checkout : PyVal)
  : option (DateTime * DateTime) :=
  match datetime_fromisoformat lib checkin, datetime_fromisoformat lib checkout with
  | Ok a, Ok b => Some (a, b)
  | _, _ => None
  end.

(** The interval a ledger item carries. *)
Definition intervalo_de (lib : Biblioteca) (reserva : Dict)
  : option (DateTime * DateTime) :=
  match dict_get "checkin" reserva, dict_get "checkout" reserva with
  | Some ci, Some co => intervalo lib ci co
  | _, _ => None
  end.

(** Half-open intervals [[a,b)] and [[c,d)] overlap. *)
Definition sobrepoe (a b c d : Z) : Prop := a < d /\ b > c.

Definition sobrepoe_b (a b c d : Z) : bool := (a <? d) && (b >? c).

(** Four datetimes on one time line: all naive or all offset-aware. *)
Definition mesma_linha (a b c d : DateTime) : bool :=
  Bool.eqb (aware b) (aware a) && Bool.eqb (aware c) (aware a)
  && Bool.eqb (aware d) (aware a).

(** The item carries an interval on the time line of [a] and [b]. *)
Definition na_linha (lib : Biblioteca) (a b : DateTime) (reserva : Dict) : bool :=
  match intervalo_de lib reserva with
  | Some (c, d) => mesma_linha a b c d
  | None => false
  end.

(** A confirmed booking that the ledger holds under the room [id]. *)
Definition reserva_do_quarto (id : string) (w : World) (reserva : Dict) : Prop :=
  In reserva (reservas_table w) /\
  dict_get "quarto_id" reserva = Some (PStr id) /\
  dict_get "status" reserva = Some (PStr "confirmada").

(** The ledger item overlaps the requested interval [[a,b)]. *)
Definition reserva_sobrepoe (lib : Biblioteca) (a b : DateTime) (reserva : Dict)
  : bool :=
  match intervalo_de lib reserva with
  | Some (c, d) => sobrepoe_b (instante a) (instante b) (instante c) (instante d)
  | None => false
  end.

Definition confirmada (reserva : Dict) : bool :=
  attr_is "status" (PStr "confirmada") reserva.

(** What [criar_reserva] reads off the availability check: the truth value of
    [disponibilidade['disponivel']]. *)
Definition disponivel (lib : Biblioteca) (env : Env)
           (checkin checkout tipo_quarto : PyVal) (w : World) : bool :=
  match verificar_disponibilidade lib env checkin checkout tipo_quarto w with
  | (Ok disponibilidade, _) =>
      match dict_get "disponivel" disponibilidade with
      | Some v => truthy v
      | None => false
      end
  | (Raised _, _) => false
  end.

(** The answer of the check of one room, read off a run in [w]. *)
Definition quarto_livre (lib : Biblioteca) (env : Env) (checkin checkout : PyVal)
           (w : World) (quarto : Dict) : bool :=
  match dict_get "quarto_id" quarto with
  | Some quarto_id =>
      match fst (verificar_quarto_disponivel lib env quarto_id checkin checkout w) with
      | Ok livre => livre
      | Raised _ => false
      end
  | None => false
  end.

(** The price rule in the specification's words:
    [total = (nightlyRate + max(0, guestCount - 2) * 15) * nights], in the
    arithmetic of Python floats; [None] when an integer does not fit a float. *)
Definition preco_spec (nightlyRate : float) (guestCount nights : Z) : option float :=
  match Num.float_of_int (Z.max 0 (guestCount - 2) * 15), Num.float_of_int nights with
  | Some extraGuestFee, Some n =>
      Some (PrimFloat.mul (PrimFloat.add nightlyRate extraGuestFee) n)
  | _, _ => None
  end.

(** The error kinds of the specification.  A response of the handler has no
    field for the kind: a rejection is told apart by its reason alone, the
    missing-field reason for invalid input, the no-room reason for an
    unavailable room, the processing reason for a failure of a collaborator. *)
Inductive ErrorKind : Type :=
| InvalidInput
| RoomUnavailable
| NotFound
| DependencyFailure.

Definition error_kind (r : Resposta) : option ErrorKind :=
  match dict_get "error" (body r) with
  | Some (PStr m) =>
      if String.prefix "Campo obrigatório: " m then Some InvalidInput
      else if String.eqb m "Quarto não disponível para as datas selecionadas"
      then Some RoomUnavailable
      else if String.eqb m "Erro ao processar reserva" then Some DependencyFailure
      else None
  | _ => None
  end.

(** The physical unit a booking is for: the room it names or, for a booking
    that names a room type only, the one unit of that type when the catalogue
    has exactly one. *)
Definition unidade (w : World) (reserva : Dict) : option PyVal :=
  match dict_get "quarto_id" reserva with
  | Some q => Some q
  | None =>
      match dict_get "tipo_quarto" reserva with
      | Some t =>
          match filter (attr_is "tipo" t) (quartos_table w) with
          | [quarto] => dict_get "quarto_id" quarto
          | _ => None
          end
      | None => None
      end
  end.

Definition mesma_unidade (w : World) (r1 r2 : Dict) : bool :=
  match unidade w r1, unidade w r2 with
  | Some q1, Some q2 => dynamo_eq q1 q2
  | _, _ => false
  end.

(** Two ledger items are confirmed bookings of one unit with overlapping
    intervals. *)
Definition em_conflito (lib : Biblioteca) (w : World) (r1 r2 : Dict) : bool :=
  confirmada r1 && confirmada r2 && mesma_unidade w r1 r2
  && match intervalo_de lib r1, intervalo_de lib r2 with
     | Some (a, b), Some (c, d) =>
         mesma_linha a b c d
         && sobrepoe_b (instante a) (instante b) (instante c) (instante d)
     | _, _ => false
     end.

(** Invariant I1: no two distinct items of the ledger are in conflict. *)
Definition I1 (lib : Biblioteca) (w : World) : Prop :=
  forall i j r1 r2,
    i <> j ->
    nth_error (reservas_table w) i = Some r1 ->
    nth_error (reservas_table w) j = Some r2 ->
    em_conflito lib w r1 r2 = false.

(** Requests served one at a time, each to completion before the next. *)
Fixpoint em_sequencia (lib : Biblioteca) (eventos : list (Env * Dict)) (w : World)
  : list (Res Resposta) * World :=
  match eventos with
  | [] => ([], w)
  | (env, event) :: rest =>
      let (r, w1) := lambda_handler lib env event w in
      let (rs, w2) := em_sequencia lib rest w1 in
      (r :: rs, w2)
  end.

(** The booking record [criar_reserva] builds for a request: the [reserva]
    dictionary of lines 91-105, with the guest count after [int()] and the
    price after [Decimal(str())]. *)
Definition registro_reserva (env : Env) (data : Dict)
           (cliente_email checkin checkout tipo_quarto : PyVal)
           (hospedes : Z) (valor : float) : Dict :=
  [("reserva_id", PStr (uuid4 env));
   ("cliente_email", cliente_email);
   ("cliente_nome", dict_get_default "cliente_nome" (PStr EmptyString) data);
   ("cliente_telefone", dict_get_default "cliente_telefone" (PStr EmptyString) data);
   ("checkin", checkin);
   ("checkout", checkout);
   ("tipo_quarto", tipo_quarto);
   ("num_hospedes", PInt hospedes);
   ("valor_total", PFloat valor);
   ("status", PStr "confirmada");
   ("data_criacao", PStr (now_isoformat env));
   ("servicos_extras", dict_get_default "servicos_extras" (PList []) data);
   ("observacoes", dict_get_default "observacoes" (PStr EmptyString) data)].

(** The world after the booking was written and the step that follows the
    write failed: the ledger has the record, the log has the failure. *)
Definition gravada_e_interrompida (w : World) (reserva : Dict) : World :=
  mkWorld (quartos_table w) (put "reserva_id" reserva (reservas_table w))
          (clientes_table w) (ses_outbox w) (sqs_queue w)
          (stdout w ++ [("Erro ao criar reserva",
                         NameError "atualizar_disponibilidade_quarto")]).

(** ** The check and the write as two steps

    [criar_reserva] reads the ledger in [verificar_disponibilidade] and writes
    it in [reservas_table.put_item]; each is one request to DynamoDB, and
    nothing ties the two together.  The function is cut between them: up to
    the booking record (lines 60-105), and from the write on (lines 107-136). *)
Record Preparada : Type := mkPreparada {
  p_tipo_quarto : PyVal;
  p_checkin : PyVal;
  p_checkout : PyVal;
  p_reserva : Dict;
  p_valor_total : PyVal
}.

Definition criar_reserva_ate_registro (lib : Biblioteca) (env : Env) (data : Dict)
  : M (Resposta + Preparada) :=
  try_except
    (match campo_ausente campos_obrigatorios data with
     | Some campo => ret (inl (erro_response ("Campo obrigatório: " ++ campo)))
     | None =>
         checkin <~ dict_item "checkin" data ;;
         checkout <~ dict_item "checkout" data ;;
         tipo_quarto <~ dict_item "tipo_quarto" data ;;
         disponibilidade <- verificar_disponibilidade lib env checkin checkout tipo_quarto ;;
         disponivel <~ dict_item "disponivel" disponibilidade ;;
         if negb (truthy disponivel)
         then ret (inl (erro_response "Quarto não disponível para as datas selecionadas"))
         else
           let reserva_id := uuid4 env in
           num_hospedes <~ dict_item "num_hospedes" data ;;
           valor_total <-
             calcular_valor_reserva lib env checkin checkout tipo_quarto num_hospedes ;;
           criar_ou_atualizar_cliente env data ;;;
           cliente_email <~ dict_item "cliente_email" data ;;
           hospedes <~ py_int lib num_hospedes ;;
           valor_decimal <~ py_float lib valor_total ;;
           ret (inr (mkPreparada tipo_quarto checkin checkout
             [("reserva_id", PStr reserva_id);
              ("cliente_email", cliente_email);
              ("cliente_nome", dict_get_default "cliente_nome" (PStr EmptyString) data);
              ("cliente_telefone",
               dict_get_default "cliente_telefone" (PStr EmptyString) data);
              ("checkin", checkin);
              ("checkout", checkout);
              ("tipo_quarto", tipo_quarto);
              ("num_hospedes", PInt hospedes);
              ("valor_total", PFloat valor_decimal);
              ("status", PStr "confirmada");
              ("data_criacao", PStr (now_isoformat env));
              ("servicos_extras", dict_get_default "servicos_extras" (PList []) data);
              ("observacoes", dict_get_default "observacoes" (PStr EmptyString) data)]
             valor_total))
     end)
    (fun e => print "Erro ao criar reserva" e ;;;
              ret (inl (erro_response "Erro ao processar reserva"))).

Definition criar_reserva_do_registro (lib : Biblioteca) (env : Env) (p : Preparada)
  : M Resposta :=
  try_except
    (reservas_put_item env (p_reserva p) ;;;
     atualizar_disponibilidade_quarto (p_tipo_quarto p) (p_checkin p) (p_checkout p) ;;;
     enviar_email_confirmacao env (p_reserva p) ;;;
     enviar_para_fila_bi env (p_reserva p) ;;;
     valor <~ py_float lib (p_valor_total p) ;;
     ret (reserva_criada (uuid4 env) valor))
    (fun e => print "Erro ao criar reserva" e ;;;
              ret (erro_response "Erro ao processar reserva")).

Definition concluir (lib : Biblioteca) (env : Env) (x : Resposta + Preparada)
  : M Resposta :=
  match x with
  | inl resposta => ret resposta
  | inr p => criar_reserva_do_registro lib env p
  end.

(** Two requests in flight: both availability checks are answered before
    either booking is written. *)
Definition duas_em_corrida (lib : Biblioteca) (env1 : Env) (data1 : Dict)
           (env2 : Env) (data2 : Dict) : M (Resposta * Resposta) :=
  x1 <- criar_reserva_ate_registro lib env1 data1 ;;
  x2 <- criar_reserva_ate_registro lib env2 data2 ;;
  r1 <- concluir lib env1 x1 ;;
  r2 <- concluir lib env2 x2 ;;
  ret (r1, r2).

(** ** Notions for the rest of the module *)

(** The entry [consultar_disponibilidade] lists for a room (lines 158-164);
    [None] when the room lacks an attribute the entry reads or its rate does
    not convert. *)
Definition resumo_quarto (lib : Biblioteca) (quarto : Dict) : option PyVal :=
  match dict_get "quarto_id" quarto, dict_get "tipo" quarto,
        dict_get "capacidade" quarto, dict_get "preco_diaria" quarto with
  | Some quarto_id, Some tipo, Some capacidade, Some p =>
      match py_float lib p with
      | Ok preco_diaria =>
          Some (PDict [("quarto_id", quarto_id);
                       ("tipo", tipo);
                       ("capacidade", capacidade);
                       ("preco_diaria", PFloat preco_diaria);
                       ("amenidades", dict_get_default "amenidades" (PList []) quarto)])
      | Raised _ => None
      end
  | _, _, _, _ => None
  end.

(** The room passes the type filter of [consultar_disponibilidade]:
    [tipo_quarto] is ['todos'] or equals the room's type. *)
Definition tipo_corresponde (tipo_quarto : PyVal) (quarto : Dict) : bool :=
  if py_ne tipo_quarto (PStr "todos")
  then match dict_get "tipo" quarto with
       | Some t => py_eq t tipo_quarto
       | None => false
       end
  else true.

(** The rooms [consultar_disponibilidade] is to list: right type, and free. *)
Definition selecionado (lib : Biblioteca) (env : Env)
           (checkin checkout tipo_quarto : PyVal) (w : World) (quarto : Dict) : bool :=
  tipo_corresponde tipo_quarto quarto && quarto_livre lib env checkin checkout w quarto.

(** The values of a room item that go into the listing as they are (the id,
    the type, the capacity and the amenities) hold no number, that is, no
    [Decimal]. *)
Definition sem_decimal (quarto : Dict) : bool :=
  forallb (fun k => match dict_get k quarto with
                    | Some v => negb (tem_decimal v)
                    | None => true
                    end)
          ["quarto_id"; "tipo"; "capacidade"; "amenidades"].

(** The world with one more item in the ledger. *)
Definition com_reserva (w : World) (reserva : Dict) : World :=
  mkWorld (quartos_table w) (reservas_table w ++ [reserva]) (clientes_table w)
          (ses_outbox w) (sqs_queue w) (stdout w).

(** Nothing was sent: the mail outbox and the BI queue are those of [w]. *)
Definition mesmos_avisos (w w' : World) : Prop :=
  ses_outbox w' = ses_outbox w /\ sqs_queue w' = sqs_queue w.

(** The customer record [criar_ou_atualizar_cliente] builds (lines 269-274). *)
Definition registro_cliente (env : Env) (data : Dict) (email : PyVal) : Dict :=
  [("email", email);
   ("nome", dict_get_default "cliente_nome" (PStr EmptyString) data);
   ("telefone", dict_get_default "cliente_telefone" (PStr EmptyString) data);
   ("ultima_atualizacao", PStr (now_isoformat env))].

(** The world with one more line printed. *)
Definition com_log (w : World) (prefix : string) (e : PyExc) : World :=
  mkWorld (quartos_table w) (reservas_table w) (clientes_table w)
          (ses_outbox w) (sqs_queue w) (stdout w ++ [(prefix, e)]).

(** The attributes of the reservation that [enviar_email_confirmacao] reads,
    in the order it reads them: the seven of the template (lines 290-300),
    then the address (line 311). *)
Definition campos_do_email : list string :=
  ["cliente_nome"; "reserva_id"; "checkin"; "checkout"; "tipo_quarto";
   "num_hospedes"; "valor_total"; "cliente_email"].

(** ** What a computation may change *)

(** [w'] differs from [w] in what was printed at most. *)
Definition so_log (w w' : World) : Prop :=
  quartos_table w' = quartos_table w /\
  reservas_table w' = reservas_table w /\
  clientes_table w' = clientes_table w /\
  ses_outbox w' = ses_outbox w /\
  sqs_queue w' = sqs_queue w.

(** [w'] has the room catalogue and the booking ledger of [w]. *)
Definition mesmo_ledger (w w' : World) : Prop :=
  quartos_table w' = quartos_table w /\ reservas_table w' = reservas_table w.

(** Whatever [m] returns or raises, the world it leaves is [R]-related to
    the world it found. *)
Definition preserva (R : World -> World -> Prop) {A : Type} (m : M A) : Prop :=
  forall w, R w (snd (m w)).

(** [m] returns: no exception leaves it. *)
Definition retorna {A : Type} (m : M A) : Prop :=
  forall w, exists a, fst (m w) = Ok a.

(** * The ML/BI pipeline

    [ml_bi_pipeline.py].  Two functions of that module work on plain
    dictionaries: [lambda_validar_dados], the first step of the state machine,
    and [gerar_alertas_gestao], which turns the occupancy metrics of the
    consolidated report into alerts.  They are written here in a state and
    exception monad of their own: the state is what [logger] received, or the
    list a function is filling. *)
Module Pipeline.

(** An exception instance: its class and what [str(e)] gives. *)
Record Excecao : Type := mkExcecao {
  classe : string;
  str : string
}.

Definition ValueError (mensagem : string) : Excecao :=
  mkExcecao "ValueError" mensagem.

Definition TypeError (mensagem : string) : Excecao :=
  mkExcecao "TypeError" mensagem.

(** [str(KeyError(k))] is the [repr] of the key. *)
Definition KeyError (chave : string) : Excecao :=
  mkExcecao "KeyError" ("'" ++ chave ++ "'").

(** The records [logger] takes at the level the module sets ([INFO]). *)
Inductive Nivel : Type := INFO | ERROR.

Definition Registro : Type := (Nivel * string)%type.

Definition StE (S A : Type) : Type := S -> (Excecao + A) * S.

Definition ret {S A : Type} (a : A) : StE S A := fun s => (inr a, s).

Definition raise {S A : Type} (e : Excecao) : StE S A := fun s => (inl e, s).

Definition bind {S A B : Type} (m : StE S A) (f : A -> StE S B) : StE S B :=
  fun s =>
    match m s with
    | (inr a, s') => f a s'
    | (inl e, s') => (inl e, s')
    end.

Definition lift {S A : Type} (r : Excecao + A) : StE S A := fun s => (r, s).

(** [try: m  except Exception as e: h e] *)
Definition try_except {S A : Type} (m : StE S A) (h : Excecao -> StE S A)
  : StE S A :=
  fun s =>
    match m s with
    | (inr a, s') => (inr a, s')
    | (inl e, s') => h e s'
    end.

Declare Scope pipe_scope.
Delimit Scope pipe_scope with pipe.
Notation "x <- m ;; k" := (bind m (fun x => k))
  (at level 61, m at next level, right associativity) : pipe_scope.
Notation "x <~ r ;; k" := (bind (lift r) (fun x => k))
  (at level 61, r at next level, right associativity) : pipe_scope.
Notation "m ;;; k" := (bind m (fun _ => k))
  (at level 61, right associativity) : pipe_scope.
Local Open Scope pipe_scope.

Definition logger_info (msg : string) : StE (list Registro) unit :=
  fun registros => (inr tt, (registros ++ [(INFO, msg)])%list).

Definition logger_error (msg : string) : StE (list Registro) unit :=
  fun registros => (inr tt, (registros ++ [(ERROR, msg)])%list).

(** [d[k]] *)
Definition item (k : string) (d : Dict) : Excecao + PyVal :=
  match dict_get k d with Some v => inr v | None => inl (KeyError k) end.

(** [d[k] = v] on a dictionary: a key that is there keeps its place and takes
    the new value, a new key goes to the end.  [{**d, k1: v1, k2: v2}] is [d]
    after the two assignments. *)
Fixpoint dict_set (k : string) (v : PyVal) (d : Dict) : Dict :=
  match d with
  | [] => [(k, v)]
  | (k', v') :: rest =>
      if String.eqb k k' then (k, v) :: rest else (k', v') :: dict_set k v rest
  end.

Definition type_name (v : PyVal) : string :=
  match v with
  | PNone => "NoneType"
  | PBool _ => "bool"
  | PInt _ => "int"
  | PFloat _ => "float"
  | PStr _ => "str"
  | PList _ => "list"
  | PDict _ => "dict"
  end.

(** [x < n] on two numbers; a nan is below nothing. *)
Definition menor (x : Num.t) (n : Z) : bool :=
  match Num.cmp x (Num.I n) with Some Lt => true | _ => false end.

(** [v < n] for an int literal [n]: numbers compare, anything else is the
    [TypeError] of the operator. *)
Definition py_lt_int (v : PyVal) (n : Z) : Excecao + bool :=
  match Num.of_val v with
  | Some x => inr (menor x n)
  | None =>
      inl (TypeError ("'<' not supported between instances of '"
                      ++ type_name v ++ "' and 'int'"))
  end.

Definition required_fields : list string :=
  ["start_date"; "end_date"; "data_source"].

(** [alertas.append(a)] *)
Definition alertas_append (a : Dict) : StE (list Dict) unit :=
  fun alertas => (inr tt, (alertas ++ [a])%list).

Section Funcoes.

(** The library: [datetime.strptime(v, formato)] with a naive [datetime] as
    an instant in microseconds, the built-in [format(v, spec)] that an
    f-string field [{v:spec}] calls, and [datetime.now().isoformat()]. *)
Variable strptime : PyVal -> string -> Excecao + Z.
Variable format : PyVal -> string -> Excecao + string.
Variable now_isoformat : string.

Definition lambda_validar_dados (event : Dict) : StE (list Registro) Dict :=
  try_except
    (logger_info "Iniciando validação de dados" ;;;
     match campo_ausente required_fields event with
     | Some field => raise (ValueError ("Campo obrigatório ausente: " ++ field))
     | None => ret tt
     end ;;;
     inicio <~ item "start_date" event ;;
     start_date <~ strptime inicio "%Y-%m-%d" ;;
     fim <~ item "end_date" event ;;
     end_date <~ strptime fim "%Y-%m-%d" ;;
     (if start_date >=? end_date
      then raise (ValueError "Data de início deve ser anterior à data de fim")
      else ret tt) ;;;
     fonte <~ item "data_source" event ;;
     texto_fonte <~ format fonte EmptyString ;;
     inicio' <~ item "start_date" event ;;
     texto_inicio <~ format inicio' EmptyString ;;
     fim' <~ item "end_date" event ;;
     texto_fim <~ format fim' EmptyString ;;
     let processed_event :=
       dict_set "status" (PStr "validated")
         (dict_set "data_key"
            (PStr ("processed_data/" ++ texto_fonte ++ "/" ++ texto_inicio
                   ++ "_to_" ++ texto_fim ++ ".json"))
            (dict_set "validation_timestamp" (PStr now_isoformat) event)) in
     logger_info "Validação concluída com sucesso" ;;;
     ret processed_event)
    (fun e => logger_error ("Erro na validação: " ++ str e) ;;; raise e).

(** The [try] block of [gerar_alertas_gestao], acting on the list [alertas]. *)
Definition gerar_alertas_gestao_try (metricas_ocupacao : Dict)
  : StE (list Dict) unit :=
  let receita_total :=
    dict_get_default "receita_total" (PInt 0) metricas_ocupacao in
  let total_reservas :=
    dict_get_default "total_reservas" (PInt 0) metricas_ocupacao in
  baixa <~ py_lt_int receita_total 1000 ;;
  (if baixa : bool then
     texto <~ format receita_total ".2f" ;;
     alertas_append
       [("tipo", PStr "receita_baixa");
        ("prioridade", PStr "alta");
        ("mensagem", PStr ("Receita abaixo do esperado: $" ++ texto));
        ("acao_sugerida", PStr "Revisar estratégia de preços e promoções")]
   else ret tt) ;;;
  poucas <~ py_lt_int total_reservas 10 ;;
  (if poucas : bool then
     texto <~ format total_reservas EmptyString ;;
     alertas_append
       [("tipo", PStr "baixa_ocupacao");
        ("prioridade", PStr "media");
        ("mensagem", PStr ("Apenas " ++ texto ++ " reservas no período"));
        ("acao_sugerida", PStr "Intensificar marketing digital e promoções")]
   else ret tt) ;;;
  let antecedencia :=
    dict_get_default "antecedencia_media_dias" (PInt 0) metricas_ocupacao in
  curta <~ py_lt_int antecedencia 3 ;;
  (if curta : bool then
     texto <~ format antecedencia ".1f" ;;
     alertas_append
       [("tipo", PStr "reservas_ultima_hora");
        ("prioridade", PStr "baixa");
        ("mensagem",
         PStr ("Muitas reservas de última hora (média: " ++ texto ++ " dias)"));
        ("acao_sugerida", PStr "Incentivar reservas antecipadas com desconto")]
   else ret tt).

(** [alertas] starts empty, the [try] block fills it, the [except] clause
    logs, and the list is returned as it stands. *)
Definition gerar_alertas_gestao (metricas_ocupacao : Dict)
  : StE (list Registro) (list Dict) :=
  fun registros =>
    match gerar_alertas_gestao_try metricas_ocupacao [] with
    | (inr _, alertas) => (inr alertas, registros)
    | (inl e, alertas) =>
        (inr alertas,
         (registros ++ [(ERROR, ("Erro ao gerar alertas: " ++ str e)%string)])%list)
    end.

End Funcoes.

(** A library for the examples: dates as [Exemplo.data_iso] reads them,
    [format] on strings with an empty spec and on ints with the three specs
    the module uses. *)
Definition strptime_exemplo (v : PyVal) (formato : string) : Excecao + Z :=
  match v with
  | PStr s =>
      match Exemplo.data_iso s with
      | Some z => inr z
      | None =>
          inl (ValueError ("time data '" ++ s ++ "' does not match format '"
                           ++ formato ++ "'"))
      end
  | _ =>
      inl (TypeError ("strptime() argument 1 must be str, not " ++ type_name v))
  end.

Definition format_exemplo (v : PyVal) (spec : string) : Excecao + string :=
  match v with
  | PStr s =>
      if String.eqb spec EmptyString then inr s
      else inl (ValueError "Unknown format code for object of type 'str'")
  | PInt z =>
      let inteiro := NilZero.string_of_int (Z.to_int z) in
      if String.eqb spec EmptyString then inr inteiro
      else if String.eqb spec ".2f" then inr (inteiro ++ ".00")
      else if String.eqb spec ".1f" then inr (inteiro ++ ".0")
      else inl (ValueError "Unknown format code for object of type 'int'")
  | _ => inl (TypeError "unsupported format string")
  end.

(** The kinds of the alerts of a list, in order. *)
Definition tipos (alertas : list Dict) : list (option PyVal) :=
  map (dict_get "tipo") alertas.

End Pipeline.

(** ** Reasoning about the monad *)

Lemma so_log_refl w : so_log w w.
Proof. repeat split. Qed.

Lemma so_log_trans w1 w2 w3 : so_log w1 w2 -> so_log w2 w3 -> so_log w1 w3.
Proof. unfold so_log; intuition congruence. Qed.

Lemma mesmo_ledger_refl w : mesmo_ledger w w.
Proof. split; reflexivity. Qed.

Lemma mesmo_ledger_trans w1 w2 w3 :
  mesmo_ledger w1 w2 -> mesmo_ledger w2 w3 -> mesmo_ledger w1 w3.
Proof. unfold mesmo_ledger; intuition congruence. Qed.

Lemma so_log_mesmo_ledger w w' : so_log w w' -> mesmo_ledger w w'.
Proof. unfold so_log, mesmo_ledger; intuition. Qed.

Section Frames.

Variable R : World -> World -> Prop.
Hypothesis R_refl : forall w, R w w.
Hypothesis R_trans : forall w1 w2 w3, R w1 w2 -> R w2 w3 -> R w1 w3.

Lemma preserva_ret {A} (a : A) : preserva R (ret a).
Proof. intros w; apply R_refl. Qed.

Lemma preserva_raise {A} e : preserva R (@raise A e).
Proof. intros w; apply R_refl. Qed.

Lemma preserva_lift {A} (r : Res A) : preserva R (lift r).
Proof. intros w; apply R_refl. Qed.

Lemma preserva_bind {A B} (m : M A) (f : A -> M B) :
  preserva R m -> (forall a, preserva R (f a)) -> preserva R (bind m f).
Proof.
  intros Hm Hf w. unfold bind. specialize (Hm w).
  destruct (m w) as [[a | e] w1]; simpl in *.
  - eapply R_trans; [exact Hm | apply Hf].
  - exact Hm.
Qed.

Lemma preserva_try {A} (m : M A) (h : PyExc -> M A) :
  preserva R m -> (forall e, preserva R (h e)) -> preserva R (try_except m h).
Proof.
  intros Hm Hh w. unfold try_except. specialize (Hm w).
  destruct (m w) as [[a | e] w1]; simpl in *.
  - exact Hm.
  - eapply R_trans; [exact Hm | apply Hh].
Qed.

Lemma preserva_if {A} (b : bool) (m1 m2 : M A) :
  preserva R m1 -> preserva R m2 -> preserva R (if b then m1 else m2).
Proof. destruct b; auto. Qed.

End Frames.

Lemma retorna_ret {A} (a : A) : retorna (ret a).
Proof. intros w; exists a; reflexivity. Qed.

Lemma retorna_bind {A B} (m : M A) (f : A -> M B) :
  retorna m -> (forall a, retorna (f a)) -> retorna (bind m f).
Proof.
  intros Hm Hf w. unfold bind. destruct (Hm w) as [a Ha].
  destruct (m w) as [[a' | e] w1]; simpl in Ha; [| discriminate].
  apply Hf.
Qed.

Lemma retorna_try {A} (m : M A) (h : PyExc -> M A) :
  (forall e, retorna (h e)) -> retorna (try_except m h).
Proof.
  intros Hh w. unfold try_except.
  destruct (m w) as [[a | e] w1]; [exists a; reflexivity | apply Hh].
Qed.

Lemma retorna_print prefix e : retorna (print prefix e).
Proof. intros w; exists tt; reflexivity. Qed.

Lemma print_so_log prefix e : preserva so_log (print prefix e).
Proof. intros w; repeat split. Qed.

Lemma retorna_run {A} (m : M A) w :
  retorna m -> exists a w', m w = (Ok a, w').
Proof.
  intros H. destruct (H w) as [a Ha].
  destruct (m w) as [r w']; simpl in Ha; subst. eauto.
Qed.

(** ** What each function leaves behind *)

Ltac quadro R_refl R_trans :=
  repeat match goal with
    | |- preserva _ (ret _) => apply (preserva_ret _ R_refl)
    | |- preserva _ (raise _) => apply (preserva_raise _ R_refl)
    | |- preserva _ (lift _) => apply (preserva_lift _ R_refl)
    | |- preserva _ (bind _ _) => apply (preserva_bind _ R_trans)
    | |- preserva _ (try_except _ _) => apply (preserva_try _ R_trans)
    | |- preserva _ (if _ then _ else _) => apply preserva_if
    | |- forall _, _ => intro
    end.

Ltac quadro_so_log :=
  repeat first [ apply print_so_log | progress quadro so_log_refl so_log_trans ].

Ltac quadro_ledger := quadro mesmo_ledger_refl mesmo_ledger_trans.

Lemma preserva_so_log_ledger {A} (m : M A) :
  preserva so_log m -> preserva mesmo_ledger m.
Proof. intros H w. apply so_log_mesmo_ledger, H. Qed.

Lemma quartos_query_tipo_so_log env t : preserva so_log (quartos_query_tipo env t).
Proof.
  intros w. unfold quartos_query_tipo.
  destruct (falha_quartos_query env); apply so_log_refl.
Qed.

Lemma quartos_scan_so_log env : preserva so_log (quartos_scan env).
Proof.
  intros w. unfold quartos_scan.
  destruct (falha_quartos_scan env); apply so_log_refl.
Qed.

Lemma reservas_query_quarto_so_log env q : preserva so_log (reservas_query_quarto env q).
Proof.
  intros w. unfold reservas_query_quarto.
  destruct (falha_reservas_query env); apply so_log_refl.
Qed.

Lemma clientes_put_item_ledger env item : preserva mesmo_ledger (clientes_put_item env item).
Proof.
  intros w. unfold clientes_put_item.
  destruct (falha_clientes_put env); split; reflexivity.
Qed.

Lemma ses_send_email_ledger env d r : preserva mesmo_ledger (ses_send_email env d r).
Proof.
  intros w. unfold ses_send_email.
  destruct (falha_ses env); split; reflexivity.
Qed.

Lemma sqs_send_message_ledger env m : preserva mesmo_ledger (sqs_send_message env m).
Proof.
  intros w. unfold sqs_send_message.
  destruct (falha_sqs env); split; reflexivity.
Qed.

Lemma print_ledger prefix e : preserva mesmo_ledger (print prefix e).
Proof. apply preserva_so_log_ledger, print_so_log. Qed.

Section Quadros.

Variable lib : Biblioteca.

Lemma sem_sobreposicao_so_log a b items :
  preserva so_log (sem_sobreposicao lib a b items).
Proof.
  induction items as [| r rest IH]; simpl; quadro_so_log.
  exact IH.
Qed.

Lemma verificar_quarto_disponivel_so_log env q ci co :
  preserva so_log (verificar_quarto_disponivel lib env q ci co).
Proof.
  unfold verificar_quarto_disponivel. quadro_so_log.
  - apply reservas_query_quarto_so_log.
  - apply sem_sobreposicao_so_log.
Qed.

Lemma verificar_quarto_disponivel_retorna env q ci co :
  retorna (verificar_quarto_disponivel lib env q ci co).
Proof.
  apply retorna_try. intros e.
  apply retorna_bind; [apply retorna_print | intros; apply retorna_ret].
Qed.

Lemma primeiro_quarto_livre_so_log env ci co items :
  preserva so_log (primeiro_quarto_livre lib env ci co items).
Proof.
  induction items as [| quarto rest IH]; simpl; quadro_so_log.
  - apply verificar_quarto_disponivel_so_log.
  - exact IH.
Qed.

Lemma verificar_disponibilidade_so_log env ci co t :
  preserva so_log (verificar_disponibilidade lib env ci co t).
Proof.
  unfold verificar_disponibilidade. quadro_so_log.
  - apply quartos_query_tipo_so_log.
  - apply primeiro_quarto_livre_so_log.
Qed.

Lemma verificar_disponibilidade_retorna env ci co t :
  retorna (verificar_disponibilidade lib env ci co t).
Proof.
  apply retorna_try. intros e.
  apply retorna_bind; [apply retorna_print | intros; apply retorna_ret].
Qed.

Lemma calcular_valor_reserva_so_log env ci co t n :
  preserva so_log (calcular_valor_reserva lib env ci co t n).
Proof.
  unfold calcular_valor_reserva. quadro_so_log.
  - apply quartos_query_tipo_so_log.
  - destruct (firstn 1 a) as [| quarto rest]; quadro_so_log.
Qed.

Lemma calcular_valor_reserva_retorna env ci co t n :
  retorna (calcular_valor_reserva lib env ci co t n).
Proof.
  apply retorna_try. intros e.
  apply retorna_bind; [apply retorna_print | intros; apply retorna_ret].
Qed.

End Quadros.

Lemma criar_ou_atualizar_cliente_ledger env data :
  preserva mesmo_ledger (criar_ou_atualizar_cliente env data).
Proof.
  unfold criar_ou_atualizar_cliente. quadro_ledger.
  - apply clientes_put_item_ledger.
  - apply print_ledger.
Qed.

Lemma criar_ou_atualizar_cliente_retorna env data :
  retorna (criar_ou_atualizar_cliente env data).
Proof. apply retorna_try. intros e. apply retorna_print. Qed.

Lemma enviar_email_confirmacao_ledger env reserva :
  preserva mesmo_ledger (enviar_email_confirmacao env reserva).
Proof.
  unfold enviar_email_confirmacao. quadro_ledger.
  - apply ses_send_email_ledger.
  - apply print_ledger.
Qed.

Lemma enviar_email_confirmacao_retorna env reserva :
  retorna (enviar_email_confirmacao env reserva).
Proof. apply retorna_try. intros e. apply retorna_print. Qed.

Lemma enviar_para_fila_bi_ledger env reserva :
  preserva mesmo_ledger (enviar_para_fila_bi env reserva).
Proof.
  unfold enviar_para_fila_bi. quadro_ledger.
  - apply sqs_send_message_ledger.
  - apply print_ledger.
Qed.

Lemma enviar_para_fila_bi_retorna env reserva :
  retorna (enviar_para_fila_bi env reserva).
Proof. apply retorna_try. intros e. apply retorna_print. Qed.

(** ** [criar_reserva] is its two steps, one after the other *)

Ltac abrir_match :=
  match goal with
  | |- context [match ?x with _ => _ end] =>
      lazymatch x with
      | context [match _ with _ => _ end] => fail
      | _ => destruct x eqn:?
      end
  end.

Lemma criar_reserva_em_dois_passos lib env data w :
  criar_reserva lib env data w
  = bind (criar_reserva_ate_registro lib env data) (concluir lib env) w.
Proof.
  unfold criar_reserva, criar_reserva_ate_registro, concluir,
    criar_reserva_do_registro, try_except, bind, lift, ret.
  repeat (abrir_match; simpl; try reflexivity; try congruence).
Qed.

(** ** The overlap test *)

Section Sobreposicao.

Variable lib : Biblioteca.

Lemma intervalo_de_inv reserva c d :
  intervalo_de lib reserva = Some (c, d) ->
  exists ci co,
    dict_get "checkin" reserva = Some ci /\ dict_get "checkout" reserva = Some co /\
    datetime_fromisoformat lib ci = Ok c /\ datetime_fromisoformat lib co = Ok d.
Proof.
  unfold intervalo_de, intervalo. intros H.
  destruct (dict_get "checkin" reserva) as [ci |]; [| discriminate].
  destruct (dict_get "checkout" reserva) as [co |]; [| discriminate].
  destruct (datetime_fromisoformat lib ci) as [c' |] eqn:Hc; [| discriminate].
  destruct (datetime_fromisoformat lib co) as [d' |] eqn:Hd; [| discriminate].
  inversion H; subst. exists ci, co. repeat split; first [reflexivity | assumption].
Qed.

(** One turn of the loop on an item whose dates parse: the second comparison
    is made only when the first one holds. *)
Lemma sem_sobreposicao_passo a b reserva rest c d w :
  intervalo_de lib reserva = Some (c, d) ->
  sem_sobreposicao lib a b (reserva :: rest) w
  = match datetime_lt a d with
    | Raised e => (Raised e, w)
    | Ok false => sem_sobreposicao lib a b rest w
    | Ok true =>
        match datetime_gt b c with
        | Raised e => (Raised e, w)
        | Ok true => (Ok false, w)
        | Ok false => sem_sobreposicao lib a b rest w
        end
    end.
Proof.
  intros H. destruct (intervalo_de_inv _ _ _ H) as (ci & co & Hci & Hco & Hc & Hd).
  simpl. unfold bind, lift, dict_item. rewrite Hci, Hc, Hco, Hd.
  destruct (datetime_lt a d) as [[|] | e]; [| reflexivity | reflexivity].
  destruct (datetime_gt b c) as [[|] | e]; reflexivity.
Qed.

(** One turn on an item without readable dates: the loop raises. *)
Lemma sem_sobreposicao_passo_ilegivel a b reserva rest w :
  intervalo_de lib reserva = None ->
  exists e, sem_sobreposicao lib a b (reserva :: rest) w = (Raised e, w).
Proof.
  unfold intervalo_de, intervalo. intros H.
  simpl. unfold bind, lift, dict_item.
  destruct (dict_get "checkin" reserva) as [ci |]; [| eexists; reflexivity].
  destruct (datetime_fromisoformat lib ci) as [c | e]; [| eexists; reflexivity].
  destruct (dict_get "checkout" reserva) as [co |]; [| eexists; reflexivity].
  destruct (datetime_fromisoformat lib co) as [d | e];
    [discriminate H | eexists; reflexivity].
Qed.

Lemma mesma_linha_inv a b c d :
  mesma_linha a b c d = true ->
  aware b = aware a /\ aware c = aware a /\ aware d = aware a.
Proof.
  unfold mesma_linha. rewrite !andb_true_iff.
  intros [[H1 H2] H3]. repeat split; apply Bool.eqb_prop; assumption.
Qed.

(** One turn on an item whose dates are on the time line of the request. *)
Lemma sem_sobreposicao_cons a b reserva rest c d w :
  intervalo_de lib reserva = Some (c, d) ->
  mesma_linha a b c d = true ->
  sem_sobreposicao lib a b (reserva :: rest) w
  = if sobrepoe_b (instante a) (instante b) (instante c) (instante d)
    then (Ok false, w)
    else sem_sobreposicao lib a b rest w.
Proof.
  intros H Hl. rewrite (sem_sobreposicao_passo _ _ _ _ _ _ _ H).
  apply mesma_linha_inv in Hl as (Hb & Hc & Hd).
  unfold datetime_lt, datetime_gt, sobrepoe_b. rewrite Hb, Hc, Hd.
  rewrite Bool.eqb_reflx.
  destruct (instante a <? instante d); [| reflexivity].
  destruct (instante b >? instante c); reflexivity.
Qed.

Lemma na_linha_inv a b r :
  na_linha lib a b r = true ->
  exists c d, intervalo_de lib r = Some (c, d) /\ mesma_linha a b c d = true.
Proof.
  unfold na_linha. destruct (intervalo_de lib r) as [[c d] |]; [| discriminate].
  intros H. exists c, d. split; [reflexivity | exact H].
Qed.

Lemma sem_sobreposicao_todas a b items w :
  Forall (fun r => na_linha lib a b r = true) items ->
  sem_sobreposicao lib a b items w
  = (Ok (negb (existsb (reserva_sobrepoe lib a b) items)), w).
Proof.
  induction 1 as [| r rest Hr _ IH]; [reflexivity |].
  destruct (na_linha_inv _ _ _ Hr) as (c & d & E & Hl).
  rewrite (sem_sobreposicao_cons _ _ _ _ _ _ _ E Hl).
  cbn [existsb]. unfold reserva_sobrepoe at 1. rewrite E.
  destruct (sobrepoe_b (instante a) (instante b) (instante c) (instante d));
    [reflexivity | exact IH].
Qed.

(** The loop stops at the first overlap: what comes after it in the result of
    the query is not looked at. *)
Lemma sem_sobreposicao_primeira a b antes reserva depois w :
  Forall (fun r => na_linha lib a b r = true) antes ->
  existsb (reserva_sobrepoe lib a b) antes = false ->
  na_linha lib a b reserva = true ->
  reserva_sobrepoe lib a b reserva = true ->
  sem_sobreposicao lib a b (antes ++ reserva :: depois) w = (Ok false, w).
Proof.
  intros Hantes. induction Hantes as [| r rest Hr _ IH]; intros Hnone Hl Hov.
  - destruct (na_linha_inv _ _ _ Hl) as (c & d & E & Hl').
    unfold reserva_sobrepoe in Hov. rewrite E in Hov.
    cbn [app]. rewrite (sem_sobreposicao_cons _ _ _ _ _ _ _ E Hl'), Hov.
    reflexivity.
  - cbn [existsb] in Hnone. apply orb_false_iff in Hnone as [Hr0 Hrest].
    destruct (na_linha_inv _ _ _ Hr) as (c & d & E & Hl').
    cbn [app]. rewrite (sem_sobreposicao_cons _ _ _ _ _ _ _ E Hl').
    unfold reserva_sobrepoe in Hr0. rewrite E in Hr0. rewrite Hr0.
    apply IH; assumption.
Qed.

Lemma sobrepoe_b_spec a b c d : sobrepoe_b a b c d = true <-> sobrepoe a b c d.
Proof. unfold sobrepoe_b, sobrepoe. rewrite andb_true_iff. lia. Qed.

Lemma existe_sobreposicao a b items :
  existsb (reserva_sobrepoe lib a b) items = true <->
  exists r c d, In r items /\ intervalo_de lib r = Some (c, d) /\
                sobrepoe (instante a) (instante b) (instante c) (instante d).
Proof.
  rewrite existsb_exists. split.
  - intros (r & Hin & Hov). unfold reserva_sobrepoe in Hov.
    destruct (intervalo_de lib r) as [[c d] |] eqn:E; [| discriminate].
    exists r, c, d. rewrite <- sobrepoe_b_spec. auto.
  - intros (r & c & d & Hin & E & Hov). exists r. split; [exact Hin |].
    unfold reserva_sobrepoe. rewrite E. apply sobrepoe_b_spec, Hov.
Qed.

(** An item that cannot be compared with the requested check-in, because it
    has no readable dates or because its check-out is on the other time line,
    keeps the loop from answering True. *)
Lemma sem_sobreposicao_incomparavel a b r items :
  In r items ->
  match intervalo_de lib r with
  | Some (_, d) => aware d <> aware a
  | None => True
  end ->
  forall w, fst (sem_sobreposicao lib a b items w) <> Ok true.
Proof.
  intros Hin Hr. induction items as [| x rest IH]; [destruct Hin |].
  intros w. destruct (intervalo_de lib x) as [[c d] |] eqn:Ex.
  - rewrite (sem_sobreposicao_passo _ _ _ _ _ _ _ Ex).
    assert (Hrest : x = r \/ In r rest) by exact Hin.
    unfold datetime_lt, datetime_gt.
    destruct (Bool.eqb (aware a) (aware d)) eqn:Ead; [| discriminate].
    assert (Hx : In r rest).
    { destruct Hrest as [-> | H]; [| exact H]. rewrite Ex in Hr.
      apply Bool.eqb_prop in Ead. congruence. }
    destruct (instante a <? instante d); [| apply IH; exact Hx].
    destruct (Bool.eqb (aware b) (aware c)); [| discriminate].
    destruct (instante b >? instante c); [discriminate | apply IH; exact Hx].
  - destruct (sem_sobreposicao_passo_ilegivel a b x rest w Ex) as [e ->].
    discriminate.
Qed.

(** The items of the query for a room with a string id: the confirmed
    bookings the ledger holds under that id. *)
Lemma confirmadas_do_quarto_In id w r :
  In r (confirmadas_do_quarto (PStr id) w) <-> reserva_do_quarto id w r.
Proof.
  unfold confirmadas_do_quarto, reserva_do_quarto, attr_is.
  rewrite filter_In, andb_true_iff. split.
  - intros (Hin & Hq & Hs). split; [exact Hin |].
    destruct (dict_get "quarto_id" r) as [x |]; [| discriminate].
    destruct (dict_get "status" r) as [y |]; [| discriminate].
    destruct x; try discriminate. destruct y; try discriminate.
    cbn [dynamo_eq] in Hq, Hs.
    apply String.eqb_eq in Hq, Hs. subst. split; reflexivity.
  - intros (Hin & -> & ->). cbn [dynamo_eq]. rewrite !String.eqb_refl. auto.
Qed.

(** The check of one room when the query answers and every date is on the
    time line of the request. *)
Lemma verificar_quarto_disponivel_valor env q ci co a b w :
  falha_reservas_query env = false ->
  fromisoformat lib ci = Some a ->
  fromisoformat lib co = Some b ->
  Forall (fun r => na_linha lib a b r = true) (confirmadas_do_quarto q w) ->
  verificar_quarto_disponivel lib env q (PStr ci) (PStr co) w
  = (Ok (negb (existsb (reserva_sobrepoe lib a b) (confirmadas_do_quarto q w))), w).
Proof.
  intros Hq Ha Hb Hall.
  unfold verificar_quarto_disponivel, try_except, bind, reservas_query_quarto, lift.
  rewrite Hq. cbn [datetime_fromisoformat]. rewrite Ha, Hb. cbn [res_of_option].
  rewrite (sem_sobreposicao_todas _ _ _ _ Hall). reflexivity.
Qed.

(** The check of one room when a fetched item cannot be compared with the
    requested check-in. *)
Lemma verificar_quarto_disponivel_incomparavel env q ci co a r w :
  fromisoformat lib ci = Some a ->
  In r (confirmadas_do_quarto q w) ->
  match intervalo_de lib r with
  | Some (_, d) => aware d <> aware a
  | None => True
  end ->
  fst (verificar_quarto_disponivel lib env q (PStr ci) co w) = Ok false.
Proof.
  intros Ha Hin Hr.
  unfold verificar_quarto_disponivel, try_except, bind, lift, reservas_query_quarto.
  destruct (falha_reservas_query env); [reflexivity |].
  cbn [datetime_fromisoformat]. rewrite Ha. cbn [res_of_option].
  destruct (datetime_fromisoformat lib co) as [b | e]; [| reflexivity].
  pose proof (sem_sobreposicao_incomparavel a b r _ Hin Hr w) as Hn.
  destruct (sem_sobreposicao lib a b (confirmadas_do_quarto q w) w)
    as [[[|] | e] w1]; cbn in *; congruence.
Qed.

End Sobreposicao.

(** C2 (as amended) - overlap detection.  The ledger answers the query and
    the two requested dates parse, to [a] and [b].

    When the dates of every confirmed booking held under the room parse and
    are on the time line of the request (all naive, or all offset-aware), the
    check returns without touching the world, and it reports the room
    unavailable exactly when some such booking [c,d) has [a < d] and [b > c].
    In particular the room is reported available when no such booking ends
    after the requested check-in: a request that starts on the day an existing
    booking ends is not in conflict with it.

    When some confirmed booking held under the room has a check-out on the
    other time line than the requested check-in (one naive, one
    offset-aware), the check reports the room unavailable, overlap or not. *)
Theorem overlap_detection lib env id ci co a b w :
  falha_reservas_query env = false ->
  fromisoformat lib ci = Some a ->
  fromisoformat lib co = Some b ->
  ((forall r, reserva_do_quarto id w r -> na_linha lib a b r = true) ->
   exists livre,
     verificar_quarto_disponivel lib env (PStr id) (PStr ci) (PStr co) w
     = (Ok livre, w) /\
     (livre = false <->
      exists r c d, reserva_do_quarto id w r /\
                    intervalo_de lib r = Some (c, d) /\
                    instante a < instante d /\ instante b > instante c) /\
     ((forall r c d, reserva_do_quarto id w r ->
                     intervalo_de lib r = Some (c, d) ->
                     instante d <= instante a) ->
      livre = true)) /\
  ((exists r c d, reserva_do_quarto id w r /\
                  intervalo_de lib r = Some (c, d) /\ aware d <> aware a) ->
   fst (verificar_quarto_disponivel lib env (PStr id) (PStr ci) (PStr co) w)
   = Ok false).
Proof.
  intros Hq Ha Hb. split.
  - intros Hlinha.
    assert (Hall : Forall (fun r => na_linha lib a b r = true)
                          (confirmadas_do_quarto (PStr id) w)).
    { apply Forall_forall. intros r Hin. apply Hlinha.
      apply confirmadas_do_quarto_In. exact Hin. }
    exists (negb (existsb (reserva_sobrepoe lib a b)
                          (confirmadas_do_quarto (PStr id) w))).
    split; [apply verificar_quarto_disponivel_valor; assumption |].
    split.
    + rewrite negb_false_iff, existe_sobreposicao. split.
      * intros (r & c & d & Hin & E & Hov). exists r, c, d.
        apply confirmadas_do_quarto_In in Hin. unfold sobrepoe in Hov. tauto.
      * intros (r & c & d & Hin & E & Hov). exists r, c, d.
        apply confirmadas_do_quarto_In in Hin. unfold sobrepoe. tauto.
    + intros Hfim. apply negb_true_iff, not_true_is_false. intros Hex.
      apply existe_sobreposicao in Hex as (r & c & d & Hin & E & Hov).
      apply confirmadas_do_quarto_In in Hin.
      specialize (Hfim r c d Hin E). unfold sobrepoe in Hov. lia.
  - intros (r & c & d & Hin & E & Hd).
    apply (verificar_quarto_disponivel_incomparavel lib env (PStr id) ci
             (PStr co) a r w Ha).
    + apply confirmadas_do_quarto_In. exact Hin.
    + rewrite E. exact Hd.
Qed.

(** ** The price *)

Lemma taxa_extra_hospede_valor {A} g (k : PyVal -> M A) w :
  bind (lift (py_gt (PInt g) (PInt 2)))
       (fun extra : bool =>
          bind (if extra
                then bind (lift (py_sub (PInt g) (PInt 2)))
                          (fun h => lift (py_mul h (PInt 15)))
                else ret (PInt 0))
               k) w
  = k (PInt (Z.max 0 (g - 2) * 15)) w.
Proof.
  unfold bind, lift, ret, py_gt, py_sub, py_mul, py_arith. cbn.
  unfold Num.gtb. cbn.
  destruct (g ?= 2) eqn:E; cbn.
  - apply Z.compare_eq in E. subst. reflexivity.
  - rewrite Z.compare_lt_iff in E. rewrite Z.max_l by lia. reflexivity.
  - rewrite Z.compare_gt_iff in E. rewrite Z.max_r by lia. reflexivity.
Qed.

Lemma py_arith_float zop fop f b r :
  py_arith (Num.arith zop fop) (PFloat f) b = Ok r -> exists f', r = PFloat f'.
Proof.
  unfold py_arith, Num.arith. cbn.
  destruct (Num.of_val b) as [y |]; [| discriminate].
  destruct (Num.to_float y) as [g |]; [| discriminate].
  intros H; inversion H; subst. cbn. eauto.
Qed.

(** The price step always answers, with 0 or with a float, and writes nothing
    but log lines. *)
Lemma calcular_valor_reserva_forma lib env ci co t nh w :
  exists vt w2 v,
    calcular_valor_reserva lib env ci co t nh w = (Ok vt, w2) /\
    so_log w w2 /\
    py_float lib vt = Ok v.
Proof.
  pose proof (calcular_valor_reserva_so_log lib env ci co t nh w) as Hlog.
  destruct (calcular_valor_reserva lib env ci co t nh w) as [r w2] eqn:E.
  simpl in Hlog.
  assert (Hzero : py_float lib (PInt 0) = Ok 0%float) by reflexivity.
  unfold calcular_valor_reserva, try_except, bind, lift, ret, print in E.
  repeat match type of E with
         | context [match ?x with _ => _ end] =>
             lazymatch x with
             | context [match _ with _ => _ end] => fail
             | _ => destruct x eqn:?
             end
         end;
    inversion E; subst; eauto 6.
  all: match goal with
       | H : py_add (PFloat _) _ = Ok ?d, H' : py_mul ?d _ = Ok _ |- _ =>
           apply py_arith_float in H as [? ->];
           apply py_arith_float in H' as [? ->]
       end.
  all: do 3 eexists; repeat split; try eassumption; apply Hlog.
Qed.

(** When the price is not 0, every step of the computation went through. *)
Lemma calcular_valor_reserva_nao_zero lib env ci co t nh w vt w' :
  calcular_valor_reserva lib env ci co t nh w = (Ok vt, w') ->
  vt <> PInt 0 ->
  falha_quartos_query env = false /\
  (exists quarto resto p,
      filter (attr_is "tipo" t) (quartos_table w) = quarto :: resto /\
      dict_get "preco_diaria" quarto = Some p /\
      exists R, py_float lib p = Ok R) /\
  (exists a b, intervalo lib ci co = Some (a, b) /\ aware b = aware a) /\
  Num.of_val nh <> None.
Proof.
  intros E Hnz.
  unfold calcular_valor_reserva, try_except, bind, quartos_query_tipo in E.
  destruct (falha_quartos_query env); [inversion E; subst; congruence |].
  split; [reflexivity |].
  destruct (filter (attr_is "tipo" t) (quartos_table w)) as [| quarto resto];
    [inversion E; subst; congruence |].
  cbn [firstn] in E. unfold lift, dict_item, ret, print in E.
  destruct (dict_get "preco_diaria" quarto) as [p |] eqn:Ep;
    [| inversion E; subst; congruence].
  destruct (py_float lib p) as [R | e] eqn:ER; [| inversion E; subst; congruence].
  unfold intervalo.
  destruct (datetime_fromisoformat lib ci) as [a | e];
    [| inversion E; subst; congruence].
  destruct (datetime_fromisoformat lib co) as [b | e];
    [| inversion E; subst; congruence].
  unfold datetime_sub in E.
  destruct (Bool.eqb (aware b) (aware a)) eqn:Eab;
    [| inversion E; subst; congruence].
  unfold py_gt in E.
  destruct (Num.of_val nh) as [n |]; [| inversion E; subst; congruence].
  split; [exists quarto, resto, p; eauto |].
  split; [exists a, b; split; [reflexivity | apply Bool.eqb_prop; exact Eab] |].
  intros Habs; discriminate Habs.
Qed.

(** The cases in which the price computation gives up and answers 0. *)
Lemma calcular_valor_reserva_zero lib env ci co t nh w :
  falha_quartos_query env = true
  \/ firstn 1 (filter (attr_is "tipo" t) (quartos_table w)) = []
  \/ (exists quarto resto,
         filter (attr_is "tipo" t) (quartos_table w) = quarto :: resto /\
         forall p, dict_get "preco_diaria" quarto = Some p ->
                   forall R, py_float lib p <> Ok R)
  \/ intervalo lib ci co = None
  \/ (exists a b, intervalo lib ci co = Some (a, b) /\ aware b <> aware a)
  \/ Num.of_val nh = None ->
  exists w',
    calcular_valor_reserva lib env ci co t nh w = (Ok (PInt 0), w') /\ so_log w w'.
Proof.
  intros H.
  destruct (calcular_valor_reserva_forma lib env ci co t nh w)
    as (vt & w' & v & E & Hlog & _).
  exists w'. split; [| exact Hlog]. rewrite E. f_equal. f_equal.
  assert (Hdec : vt = PInt 0 \/ vt <> PInt 0).
  { destruct vt as [| | z | | | |]; try (right; discriminate).
    destruct (Z.eq_dec z 0) as [-> | Hz]; [left; reflexivity |].
    right. congruence. }
  destruct Hdec as [Hz | Hnz]; [exact Hz | exfalso].
  destruct (calcular_valor_reserva_nao_zero _ _ _ _ _ _ _ _ _ E Hnz)
    as (Hq & (quarto & resto & p & Hf & Hp & R & HR) & (a & b & Hi & Hab) & Hn).
  destruct H as [H | [H | [(q' & r' & Hf' & Hp') | [H | [(a' & b' & Hi' & Hab') | H]]]]].
  - congruence.
  - rewrite Hf in H. discriminate.
  - rewrite Hf in Hf'. inversion Hf'; subst. eapply Hp'; eassumption.
  - congruence.
  - rewrite Hi in Hi'. inversion Hi'; subst. contradiction.
  - contradiction.
Qed.

(** The value of the price computation when every step goes through. *)
Lemma calcular_valor_reserva_valor lib env ci co t g w quarto resto R a b total :
  falha_quartos_query env = false ->
  filter (attr_is "tipo" t) (quartos_table w) = quarto :: resto ->
  dict_get "preco_diaria" quarto = Some (PFloat R) ->
  fromisoformat lib ci = Some a ->
  fromisoformat lib co = Some b ->
  aware b = aware a ->
  preco_spec R g ((instante b - instante a) / microssegundos_por_dia) = Some total ->
  calcular_valor_reserva lib env (PStr ci) (PStr co) t (PInt g) w
  = (Ok (PFloat total), w).
Proof.
  intros Hq Hitems Hpreco Ha Hb Hab Hspec.
  unfold calcular_valor_reserva, try_except.
  unfold bind at 1. unfold quartos_query_tipo. rewrite Hq, Hitems.
  cbn [firstn]. unfold bind at 1. unfold lift at 1, dict_item. rewrite Hpreco.
  unfold bind at 1. unfold lift at 1. cbn [py_float].
  unfold bind at 1. unfold lift at 1. cbn [datetime_fromisoformat].
  rewrite Ha. cbn [res_of_option].
  unfold bind at 1. unfold lift at 1. rewrite Hb. cbn [res_of_option].
  unfold bind at 1. unfold lift at 1. unfold datetime_sub.
  rewrite Hab, Bool.eqb_reflx.
  rewrite taxa_extra_hospede_valor.
  unfold preco_spec in Hspec.
  destruct (Num.float_of_int (Z.max 0 (g - 2) * 15)) as [fee |] eqn:Hfee;
    [| discriminate].
  destruct (Num.float_of_int ((instante b - instante a) / microssegundos_por_dia))
    as [n |] eqn:Hn; [| discriminate].
  inversion Hspec; subst total.
  unfold bind, ret, lift, py_add, py_mul, py_arith. cbn.
  rewrite Hfee. cbn. rewrite Hn. reflexivity.
Qed.

(** C5 (as amended) - price calculation.  When the catalogue query answers,
    the first room it returns for the type has the rate [R], both dates parse
    and are on one time line (both naive or both offset-aware), the guest
    count is an integer [g] and the fee and the night count fit a float, the
    computed total is [(R + max(0, g - 2) * 15) * nights], [nights] being
    check-out minus check-in in whole days; rate 50 for 3 nights costs 150
    with 2 guests and 240 with 4.  The rule does not cover every booking:
    when the guest count is not a number, or the two dates parse to one naive
    and one offset-aware datetime, the computed total is 0. *)
Theorem price_calculation lib env t w :
  (forall ci co g quarto resto R a b total,
      falha_quartos_query env = false ->
      filter (attr_is "tipo" t) (quartos_table w) = quarto :: resto ->
      dict_get "preco_diaria" quarto = Some (PFloat R) ->
      fromisoformat lib ci = Some a ->
      fromisoformat lib co = Some b ->
      aware b = aware a ->
      preco_spec R g ((instante b - instante a) / microssegundos_por_dia)
      = Some total ->
      calcular_valor_reserva lib env (PStr ci) (PStr co) t (PInt g) w
      = (Ok (PFloat total), w)
      /\ (R = 50%float ->
          (instante b - instante a) / microssegundos_por_dia = 3 -> g = 2 ->
          total = 150%float)
      /\ (R = 50%float ->
          (instante b - instante a) / microssegundos_por_dia = 3 -> g = 4 ->
          total = 240%float)) /\
  (forall ci co nh,
      Num.of_val nh = None
      \/ (exists a b, intervalo lib ci co = Some (a, b) /\ aware b <> aware a) ->
      exists w',
        calcular_valor_reserva lib env ci co t nh w = (Ok (PInt 0), w') /\
        so_log w w').
Proof.
  split.
  - intros ci co g quarto resto R a b total Hq Hitems Hpreco Ha Hb Hab Hspec.
    split; [| split].
    + eapply calcular_valor_reserva_valor; eassumption.
    + intros -> Hn ->. rewrite Hn in Hspec. vm_compute in Hspec.
      inversion Hspec. reflexivity.
    + intros -> Hn ->. rewrite Hn in Hspec. vm_compute in Hspec.
      inversion Hspec. reflexivity.
  - intros ci co nh H. apply calcular_valor_reserva_zero.
    destruct H as [H | H]; [do 5 right; exact H | do 4 right; left; exact H].
Qed.

(** ** The paths through [criar_reserva] *)

Lemma campo_ausente_none campos data :
  campo_ausente campos data = None ->
  forall campo, In campo campos -> exists v, dict_get campo data = Some v.
Proof.
  induction campos as [| c rest IH]; intros H campo Hin; [destruct Hin |].
  simpl in H. unfold dict_in in H.
  destruct (dict_get c data) as [v |] eqn:E; [| discriminate].
  destruct Hin as [<- | Hin]; [eauto | apply IH; assumption].
Qed.




(** The availability check always answers with a dictionary that has a
    boolean under [disponivel], and writes nothing but log lines. *)
Lemma primeiro_quarto_livre_forma lib env ci co items w disp w1 :
  primeiro_quarto_livre lib env ci co items w = (Ok disp, w1) ->
  exists b, dict_get "disponivel" disp = Some (PBool b).
Proof.
  revert w. induction items as [| quarto rest IH]; intros w H.
  - inversion H; subst. exists false. reflexivity.
  - simpl in H. unfold bind, lift in H.
    destruct (dict_item "quarto_id" quarto) as [q |]; [| discriminate].
    destruct (verificar_quarto_disponivel lib env q ci co w) as [[livre | e] w0];
      [| discriminate].
    destruct livre.
    + inversion H; subst. exists true. reflexivity.
    + eapply IH; eassumption.
Qed.

Lemma verificar_disponibilidade_forma lib env ci co t w :
  exists disp w1 b,
    verificar_disponibilidade lib env ci co t w = (Ok disp, w1) /\
    so_log w w1 /\
    dict_get "disponivel" disp = Some (PBool b) /\
    disponivel lib env ci co t w = b.
Proof.
  pose proof (verificar_disponibilidade_so_log lib env ci co t w) as Hlog.
  unfold disponivel.
  destruct (verificar_disponibilidade lib env ci co t w) as [r w1] eqn:E.
  simpl in Hlog. unfold verificar_disponibilidade, try_except, bind in E.
  destruct (quartos_query_tipo env t w) as [[items | e] w0].
  - destruct (primeiro_quarto_livre lib env ci co items w0) as [[disp | e] w2] eqn:E2.
    + inversion E; subst.
      destruct (primeiro_quarto_livre_forma _ _ _ _ _ _ _ _ E2) as [b Hb].
      exists disp. eexists. exists b. rewrite Hb. auto.
    + inversion E; subst. exists [("disponivel", PBool false)]. eexists.
      exists false. auto.
  - inversion E; subst. exists [("disponivel", PBool false)]. eexists.
    exists false. auto.
Qed.

(** A request with every field whose availability check says no. *)
Lemma criar_reserva_indisponivel lib env data ci co t w :
  campo_ausente campos_obrigatorios data = None ->
  dict_get "checkin" data = Some ci ->
  dict_get "checkout" data = Some co ->
  dict_get "tipo_quarto" data = Some t ->
  disponivel lib env ci co t w = false ->
  exists w',
    criar_reserva lib env data w
    = (Ok (erro_response "Quarto não disponível para as datas selecionadas"), w')
    /\ so_log w w'.
Proof.
  intros Hc Hci Hco Ht Hd.
  destruct (verificar_disponibilidade_forma lib env ci co t w)
    as (disp & w1 & b & E & Hlog & Hb & Hb').
  rewrite Hd in Hb'. subst b. exists w1. split; [| exact Hlog].
  unfold criar_reserva, try_except. rewrite Hc.
  unfold bind, lift, dict_item. rewrite Hci, Hco, Ht, E, Hb. reflexivity.
Qed.

Lemma criar_ou_atualizar_cliente_forma env data w :
  exists w3, criar_ou_atualizar_cliente env data w = (Ok tt, w3) /\ mesmo_ledger w w3.
Proof.
  pose proof (criar_ou_atualizar_cliente_ledger env data w) as Hl.
  destruct (retorna_run _ w (criar_ou_atualizar_cliente_retorna env data))
    as ([] & w3 & E).
  rewrite E in Hl. exists w3. auto.
Qed.

Lemma campos_presentes data email ci co t nh :
  dict_get "cliente_email" data = Some email ->
  dict_get "checkin" data = Some ci ->
  dict_get "checkout" data = Some co ->
  dict_get "tipo_quarto" data = Some t ->
  dict_get "num_hospedes" data = Some nh ->
  campo_ausente campos_obrigatorios data = None.
Proof.
  intros H1 H2 H3 H4 H5. unfold campos_obrigatorios, campo_ausente, dict_in.
  rewrite H1, H2, H3, H4, H5. reflexivity.
Qed.

(** A request with every field that passes the availability check: when the
    guest count converts and the ledger accepts the write, the booking is in
    the ledger, and the call that follows the write raises [NameError]; the
    [except] clause of [criar_reserva] turns it into the processing error. *)
Lemma criar_reserva_gravada lib env data email ci co t nh g w :
  dict_get "cliente_email" data = Some email ->
  dict_get "checkin" data = Some ci ->
  dict_get "checkout" data = Some co ->
  dict_get "tipo_quarto" data = Some t ->
  dict_get "num_hospedes" data = Some nh ->
  disponivel lib env ci co t w = true ->
  py_int lib nh = Ok g ->
  falha_reservas_put env = false ->
  exists v w3,
    mesmo_ledger w w3 /\
    criar_reserva lib env data w
    = (Ok (erro_response "Erro ao processar reserva"),
       gravada_e_interrompida w3 (registro_reserva env data email ci co t g v)).
Proof.
  intros Hemail Hci Hco Ht Hnh Hd Hg Hput.
  pose proof (campos_presentes _ _ _ _ _ _ Hemail Hci Hco Ht Hnh) as Hc.
  destruct (verificar_disponibilidade_forma lib env ci co t w)
    as (disp & w1 & b & E1 & Hlog1 & Hb & Hb').
  rewrite Hd in Hb'. subst b.
  destruct (calcular_valor_reserva_forma lib env ci co t nh w1)
    as (vt & w2 & v & E2 & Hlog2 & Hv).
  destruct (criar_ou_atualizar_cliente_forma env data w2) as (w3 & E3 & Hl3).
  exists v, w3. split.
  - apply so_log_mesmo_ledger in Hlog1, Hlog2.
    eapply mesmo_ledger_trans; [| exact Hl3].
    eapply mesmo_ledger_trans; eassumption.
  - unfold criar_reserva, try_except. rewrite Hc.
    unfold bind, lift, dict_item.
    rewrite Hci, Hco, Ht, E1, Hb. cbn [truthy negb].
    rewrite Hnh, E2, E3, Hemail, Hg, Hv.
    unfold reservas_put_item. rewrite Hput. reflexivity.
Qed.

(** No path through [criar_reserva] reaches its [return] of the success
    response: the paths that get past the ledger write all meet the call of
    [atualizar_disponibilidade_quarto]. *)
Lemma criar_reserva_sempre_erro lib env data w :
  exists mensagem w',
    criar_reserva lib env data w = (Ok (erro_response mensagem), w').
Proof.
  unfold criar_reserva, try_except, bind, lift, ret, print,
    atualizar_disponibilidade_quarto, nao_definida, raise.
  repeat (abrir_match; cbn [fst snd]); eauto.
Qed.

(** ** Requests that are turned away *)

(** With no room of the type in the catalogue the check says no. *)
Lemma disponivel_sem_quartos lib env ci co t w :
  filter (attr_is "tipo" t) (quartos_table w) = [] ->
  disponivel lib env ci co t w = false.
Proof.
  intros H. unfold disponivel, verificar_disponibilidade, try_except, bind,
    quartos_query_tipo.
  destruct (falha_quartos_query env); [reflexivity |].
  rewrite H. reflexivity.
Qed.




(** C9 (as amended) - unknown room type.  A request with every required field
    whose room type matches no room of the catalogue is rejected with the
    reason of an unavailable room, the same one a fully booked type gets; the
    ledger and every other table stay as they were. *)
Theorem unknown_room_type_unavailable lib env data ci co t w :
  campo_ausente campos_obrigatorios data = None ->
  dict_get "checkin" data = Some ci ->
  dict_get "checkout" data = Some co ->
  dict_get "tipo_quarto" data = Some t ->
  filter (attr_is "tipo" t) (quartos_table w) = [] ->
  exists resposta w',
    criar_reserva lib env data w = (Ok resposta, w') /\
    resposta = erro_response "Quarto não disponível para as datas selecionadas" /\
    error_kind resposta = Some RoomUnavailable /\
    so_log w w'.
Proof.
  intros Hc Hci Hco Ht Hnone.
  destruct (criar_reserva_indisponivel lib env data ci co t w Hc Hci Hco Ht
              (disponivel_sem_quartos lib env ci co t w Hnone)) as (w' & E & Hlog).
  eexists. exists w'. split; [exact E |]. repeat split; apply Hlog.
Qed.




(** ** Requests that get past the availability check *)

Lemma In_put_novo key item table : In item (put key item table).
Proof.
  unfold put. destruct (dict_get key item); apply in_or_app; right; left; reflexivity.
Qed.

Lemma In_put_outro key item k table r :
  dict_get key item = Some k ->
  attr_is key k r = false ->
  In r table -> In r (put key item table).
Proof.
  intros Hk Hr Hin. unfold put. rewrite Hk. apply in_or_app. left.
  apply filter_In. split; [exact Hin |]. rewrite Hr. reflexivity.
Qed.

Lemma registro_confirmada env data email ci co t g v :
  confirmada (registro_reserva env data email ci co t g v) = true.
Proof. reflexivity. Qed.

(** The record [criar_reserva] writes names no room: no query of the index
    [quarto-data-index] ever returns it, whichever room is asked for. *)
Lemma registro_fora_do_indice env data email ci co t g v q w :
  ~ In (registro_reserva env data email ci co t g v) (confirmadas_do_quarto q w).
Proof.
  unfold confirmadas_do_quarto. intros H. apply filter_In in H as [_ H].
  discriminate H.
Qed.

(** A request with every required field is never told that a field is
    missing: it is turned away for want of a room, or with the processing
    error. *)
Lemma criar_reserva_completa lib env data w :
  campo_ausente campos_obrigatorios data = None ->
  exists resposta w',
    criar_reserva lib env data w = (Ok resposta, w') /\
    (resposta = erro_response "Quarto não disponível para as datas selecionadas"
     \/ resposta = erro_response "Erro ao processar reserva").
Proof.
  intros Hc.
  unfold criar_reserva, try_except. rewrite Hc.
  unfold bind, lift, ret, print, atualizar_disponibilidade_quarto, nao_definida,
    raise.
  repeat (abrir_match; cbn [fst snd]); eauto.
Qed.

(** C4 (as amended) - zero-night requests.  The coordinator has no check of
    the night count.  A request with every required field and [checkin]
    equal to [checkout] is never answered the invalid-input rejection; it is
    judged by the availability check alone.  When the check says no it is
    rejected with the reason of an unavailable room and the ledger is
    unchanged; when the check says yes, [int()] accepts the guest count and
    the write is accepted, a booking with status [confirmada] and those two
    equal dates is in the ledger. *)
Theorem zero_night_request lib env data dia t w :
  campo_ausente campos_obrigatorios data = None ->
  dict_get "checkin" data = Some dia ->
  dict_get "checkout" data = Some dia ->
  dict_get "tipo_quarto" data = Some t ->
  exists resposta w',
    criar_reserva lib env data w = (Ok resposta, w') /\
    error_kind resposta <> Some InvalidInput /\
    (disponivel lib env dia dia t w = false ->
     resposta = erro_response "Quarto não disponível para as datas selecionadas" /\
     reservas_table w' = reservas_table w) /\
    (disponivel lib env dia dia t w = true ->
     forall email nh g,
       dict_get "cliente_email" data = Some email ->
       dict_get "num_hospedes" data = Some nh ->
       py_int lib nh = Ok g ->
       falha_reservas_put env = false ->
       exists v,
         reservas_table w'
         = put "reserva_id" (registro_reserva env data email dia dia t g v)
               (reservas_table w) /\
         In (registro_reserva env data email dia dia t g v) (reservas_table w') /\
         confirmada (registro_reserva env data email dia dia t g v) = true).
Proof.
  intros Hc Hci Hco Ht.
  destruct (criar_reserva_completa lib env data w Hc) as (resposta & w' & E & Hr).
  exists resposta, w'. split; [exact E |]. split.
  - destruct Hr as [-> | ->]; discriminate.
  - split.
    + intros Hd.
      destruct (criar_reserva_indisponivel lib env data dia dia t w Hc Hci Hco Ht Hd)
        as (w1 & E1 & Hlog).
      rewrite E in E1. inversion E1; subst. split; [reflexivity | apply Hlog].
    + intros Hd email nh g Hemail Hnh Hg Hput.
      destruct (criar_reserva_gravada lib env data email dia dia t nh g w
                  Hemail Hci Hco Ht Hnh Hd Hg Hput) as (v & w3 & [_ Hl] & E1).
      rewrite E in E1. inversion E1; subst. exists v.
      cbn [gravada_e_interrompida reservas_table]. rewrite Hl.
      split; [reflexivity |]. split; [apply In_put_novo | reflexivity].
Qed.

(** C7 - what an accepted request is answered.  Whenever validation, the
    availability check and the ledger write all succeed, the booking is in the
    ledger with status [confirmada], and the answer [criar_reserva] returns is
    the processing error, a 400 without booking id or price: the call between
    the write and the notification raises, so the success response is never
    built, whatever the mail and queue clients would have done. *)
Theorem accepted_request_answered_with_error lib env data email ci co t nh g w :
  dict_get "cliente_email" data = Some email ->
  dict_get "checkin" data = Some ci ->
  dict_get "checkout" data = Some co ->
  dict_get "tipo_quarto" data = Some t ->
  dict_get "num_hospedes" data = Some nh ->
  disponivel lib env ci co t w = true ->
  py_int lib nh = Ok g ->
  falha_reservas_put env = false ->
  exists v w',
    criar_reserva lib env data w
    = (Ok (erro_response "Erro ao processar reserva"), w') /\
    statusCode (erro_response "Erro ao processar reserva") = 400 /\
    dict_get "reserva_id" (body (erro_response "Erro ao processar reserva")) = None /\
    In (registro_reserva env data email ci co t g v) (reservas_table w') /\
    confirmada (registro_reserva env data email ci co t g v) = true /\
    last (stdout w') (EmptyString, TypeError)
    = ("Erro ao criar reserva", NameError "atualizar_disponibilidade_quarto").
Proof.
  intros Hemail Hci Hco Ht Hnh Hd Hg Hput.
  destruct (criar_reserva_gravada lib env data email ci co t nh g w
              Hemail Hci Hco Ht Hnh Hd Hg Hput) as (v & w3 & _ & E).
  exists v. eexists. split; [exact E |].
  split; [reflexivity |]. split; [reflexivity |].
  split; [apply In_put_novo |]. split; [reflexivity |].
  cbn [gravada_e_interrompida stdout]. apply last_last.
Qed.

(** C6 - cancellation.  The handler routes the action [cancelar_reserva] to a
    function the module does not define: for every booking id and every state
    the answer is the generic 500 and the world changes by one log line only,
    so a confirmed booking stays confirmed and its interval stays taken. *)
Theorem cancel_request_gets_500 lib env (reserva_id : string) w :
  lambda_handler lib env
    [("action", PStr "cancelar_reserva"); ("reserva_id", PStr reserva_id)] w
  = (Ok (mkResposta 500 headers_cors [("error", PStr "Erro interno do servidor")]),
     mkWorld (quartos_table w) (reservas_table w) (clientes_table w)
             (ses_outbox w) (sqs_queue w)
             (stdout w ++ [("Erro no handler", NameError "cancelar_reserva")])).
Proof. reflexivity. Qed.

(** ** Two requests in flight *)

Lemma criar_reserva_ate_registro_ledger lib env data :
  preserva mesmo_ledger (criar_reserva_ate_registro lib env data).
Proof.
  unfold criar_reserva_ate_registro. quadro_ledger.
  - destruct (campo_ausente campos_obrigatorios data); quadro_ledger.
    + apply preserva_so_log_ledger, verificar_disponibilidade_so_log.
    + apply preserva_so_log_ledger, calcular_valor_reserva_so_log.
    + apply criar_ou_atualizar_cliente_ledger.
  - apply print_ledger.
Qed.

(** What the first step hands to the second: a record with the identifier
    drawn for this request and status [confirmada]. *)
Lemma criar_reserva_ate_registro_forma lib env data w p w1 :
  criar_reserva_ate_registro lib env data w = (Ok (inr p), w1) ->
  dict_get "reserva_id" (p_reserva p) = Some (PStr (uuid4 env)) /\
  confirmada (p_reserva p) = true /\
  mesmo_ledger w w1.
Proof.
  intros H.
  pose proof (criar_reserva_ate_registro_ledger lib env data w) as Hl.
  rewrite H in Hl. simpl in Hl.
  unfold criar_reserva_ate_registro, try_except, bind, lift, ret, print in H.
  repeat match type of H with
         | context [match ?x with _ => _ end] =>
             lazymatch x with
             | context [match _ with _ => _ end] => fail
             | _ => destruct x eqn:?
             end
         end;
    inversion H; subst; auto.
Qed.

(** The second step: the write is unconditional, and what follows it raises. *)
Lemma criar_reserva_do_registro_valor lib env p w :
  falha_reservas_put env = false ->
  criar_reserva_do_registro lib env p w
  = (Ok (erro_response "Erro ao processar reserva"),
     gravada_e_interrompida w (p_reserva p)).
Proof.
  intros Hput. unfold criar_reserva_do_registro, try_except, bind, reservas_put_item.
  rewrite Hput. reflexivity.
Qed.

(** C3 (as amended) - two requests in flight.  The availability check and the
    ledger write are separate steps, and the write is unconditional.  When
    two requests have each passed validation and the availability check and
    had their booking record built before either booking is written, both
    writes are accepted and the two requests drew different ids, both
    bookings are written with status [confirmada] on top of the ledger the
    checks read; neither request is rejected with the reason of an
    unavailable room. *)
Theorem race_both_bookings_written lib env1 data1 env2 data2 w p1 w1 p2 w2 :
  criar_reserva_ate_registro lib env1 data1 w = (Ok (inr p1), w1) ->
  criar_reserva_ate_registro lib env2 data2 w1 = (Ok (inr p2), w2) ->
  falha_reservas_put env1 = false ->
  falha_reservas_put env2 = false ->
  uuid4 env1 <> uuid4 env2 ->
  exists r1 r2 w',
    duas_em_corrida lib env1 data1 env2 data2 w = (Ok (r1, r2), w') /\
    reservas_table w'
    = put "reserva_id" (p_reserva p2)
          (put "reserva_id" (p_reserva p1) (reservas_table w)) /\
    In (p_reserva p1) (reservas_table w') /\
    In (p_reserva p2) (reservas_table w') /\
    confirmada (p_reserva p1) = true /\
    confirmada (p_reserva p2) = true /\
    error_kind r1 <> Some RoomUnavailable /\
    error_kind r2 <> Some RoomUnavailable.
Proof.
  intros E1 E2 Hput1 Hput2 Hid.
  destruct (criar_reserva_ate_registro_forma _ _ _ _ _ _ E1) as (Hid1 & Hc1 & [_ Hl1]).
  destruct (criar_reserva_ate_registro_forma _ _ _ _ _ _ E2) as (Hid2 & Hc2 & [_ Hl2]).
  do 3 eexists. split.
  - unfold duas_em_corrida, bind. rewrite E1, E2. cbn [concluir].
    rewrite (criar_reserva_do_registro_valor lib env1 p1 w2 Hput1).
    rewrite (criar_reserva_do_registro_valor lib env2 p2 _ Hput2).
    reflexivity.
  - cbn [gravada_e_interrompida reservas_table]. rewrite Hl2, Hl1.
    split; [reflexivity |]. split; [| split; [apply In_put_novo |]].
    + eapply In_put_outro; [exact Hid2 | | apply In_put_novo].
      unfold attr_is. rewrite Hid1. cbn [dynamo_eq].
      apply String.eqb_neq. exact Hid.
    + repeat split; try assumption; discriminate.
Qed.

(** ** The example hostel *)

Lemma conflito_viola_I1 lib w i j r1 r2 :
  i <> j ->
  nth_error (reservas_table w) i = Some r1 ->
  nth_error (reservas_table w) j = Some r2 ->
  em_conflito lib w r1 r2 = true ->
  ~ I1 lib w.
Proof.
  intros Hij H1 H2 Hc HI. specialize (HI i j r1 r2 Hij H1 H2). congruence.
Qed.

Lemma I1_ledger_vazio lib w : reservas_table w = [] -> I1 lib w.
Proof.
  intros He i j r1 r2 _ H1 _. rewrite He in H1. destruct i; discriminate.
Qed.

(** The two cases of the specification: the dormitory is taken from the 10th
    to the 15th; a request from the 14th to the 16th finds it unavailable, a
    request from the 15th to the 18th finds it available. *)
Example sobreposicao_no_dia_14 :
  verificar_quarto_disponivel Exemplo.lib (Exemplo.env "x") (PStr "Q1")
    (PStr "2024-01-14") (PStr "2024-01-16") Exemplo.hostal_ocupado
  = (Ok false, Exemplo.hostal_ocupado).
Proof. vm_compute. reflexivity. Qed.

Example entrada_no_dia_da_saida :
  verificar_quarto_disponivel Exemplo.lib (Exemplo.env "x") (PStr "Q1")
    (PStr "2024-01-15") (PStr "2024-01-18") Exemplo.hostal_ocupado
  = (Ok true, Exemplo.hostal_ocupado).
Proof. vm_compute. reflexivity. Qed.

Lemma overlap_detection_witness :
  verificar_quarto_disponivel Exemplo.lib (Exemplo.env "x") (PStr "Q1")
    (PStr "2024-01-12") (PStr "2024-01-14") Exemplo.hostal_ocupado
  = (Ok false, Exemplo.hostal_ocupado) /\
  verificar_quarto_disponivel Exemplo.lib (Exemplo.env "x") (PStr "Q1")
    (PStr "2024-01-15") (PStr "2024-01-18") Exemplo.hostal_ocupado
  = (Ok true, Exemplo.hostal_ocupado).
Proof.
  assert (Hunica : forall r, reserva_do_quarto "Q1" Exemplo.hostal_ocupado r ->
                             r = Exemplo.reserva_Q1).
  { intros r ([<- | []] & _). reflexivity. }
  assert (Hres : reserva_do_quarto "Q1" Exemplo.hostal_ocupado Exemplo.reserva_Q1).
  { split; [left; reflexivity | split; reflexivity]. }
  split.
  - destruct (overlap_detection Exemplo.lib (Exemplo.env "x") "Q1"
                "2024-01-12" "2024-01-14"
                (Exemplo.meia_noite "2024-01-12") (Exemplo.meia_noite "2024-01-14")
                Exemplo.hostal_ocupado)
      as [Hlinha _].
    + reflexivity.
    + vm_compute. reflexivity.
    + vm_compute. reflexivity.
    + destruct Hlinha as (livre & E & [_ Hnao] & _).
      * intros r Hr. rewrite (Hunica r Hr). vm_compute. reflexivity.
      * rewrite E. rewrite Hnao; [reflexivity |].
        exists Exemplo.reserva_Q1, (Exemplo.meia_noite "2024-01-10"),
          (Exemplo.meia_noite "2024-01-15").
        split; [exact Hres |]. split; [vm_compute; reflexivity |].
        split; vm_compute; reflexivity.
  - destruct (overlap_detection Exemplo.lib (Exemplo.env "x") "Q1"
                "2024-01-15" "2024-01-18"
                (Exemplo.meia_noite "2024-01-15") (Exemplo.meia_noite "2024-01-18")
                Exemplo.hostal_ocupado)
      as [Hlinha _].
    + reflexivity.
    + vm_compute. reflexivity.
    + vm_compute. reflexivity.
    + destruct Hlinha as (livre & E & _ & Hsim).
      * intros r Hr. rewrite (Hunica r Hr). vm_compute. reflexivity.
      * rewrite E. rewrite Hsim; [reflexivity |].
        intros r c d Hr H. rewrite (Hunica r Hr) in H. vm_compute in H.
        inversion H. vm_compute. discriminate.
Defined.

Lemma overlap_detection_counterexample :
  exists a b c d,
    intervalo Exemplo.lib (PStr "2024-02-01") (PStr "2024-02-05") = Some (a, b) /\
    reserva_do_quarto "Q1" Exemplo.hostal_utc Exemplo.reserva_utc /\
    intervalo_de Exemplo.lib Exemplo.reserva_utc = Some (c, d) /\
    ~ (instante a < instante d /\ instante b > instante c) /\
    fst (verificar_quarto_disponivel Exemplo.lib (Exemplo.env "x") (PStr "Q1")
           (PStr "2024-02-01") (PStr "2024-02-05") Exemplo.hostal_utc)
    = Ok false.
Proof.
  do 4 eexists. split; [vm_compute; reflexivity |].
  split; [split; [left; reflexivity | split; reflexivity] |].
  split; [vm_compute; reflexivity |].
  split; [| vm_compute; reflexivity].
  vm_compute. intros [H _]. discriminate H.
Defined.

Lemma price_calculation_witness :
  calcular_valor_reserva Exemplo.lib (Exemplo.env "x")
    (PStr "2024-01-10") (PStr "2024-01-13") (PStr "dormitorio") (PInt 4)
    Exemplo.hostal
  = (Ok (PFloat 240), Exemplo.hostal).
Proof.
  destruct (price_calculation Exemplo.lib (Exemplo.env "x") (PStr "dormitorio")
              Exemplo.hostal) as [Hregra _].
  apply (Hregra "2024-01-10" "2024-01-13" 4 Exemplo.quarto_Q1 [] 50%float
           (Exemplo.meia_noite "2024-01-10") (Exemplo.meia_noite "2024-01-13")
           240%float).
  - reflexivity.
  - reflexivity.
  - reflexivity.
  - vm_compute. reflexivity.
  - vm_compute. reflexivity.
  - reflexivity.
  - vm_compute. reflexivity.
Defined.

Lemma price_calculation_counterexample :
  exists w' reserva,
    snd (criar_reserva Exemplo.lib_numeros (Exemplo.env "id-1")
           [("cliente_email", PStr "ana@example.org");
            ("checkin", PStr "2024-01-10"); ("checkout", PStr "2024-01-13");
            ("tipo_quarto", PStr "dormitorio"); ("num_hospedes", PStr "3")]
           Exemplo.hostal) = w' /\
    In reserva (reservas_table w') /\
    dict_get "status" reserva = Some (PStr "confirmada") /\
    dict_get "num_hospedes" reserva = Some (PInt 3) /\
    dict_get "valor_total" reserva = Some (PFloat 0) /\
    preco_spec 50 3 3 = Some 195%float.
Proof.
  do 2 eexists. split; [vm_compute; reflexivity |].
  split; [left; reflexivity |]. repeat split.
Defined.

Lemma unknown_room_type_witness :
  exists resposta w',
    criar_reserva Exemplo.lib (Exemplo.env "id-1")
      (Exemplo.pedido_de "suite" "ana@example.org" "2024-01-10" "2024-01-15" 2)
      Exemplo.hostal
    = (Ok resposta, w') /\
    error_kind resposta = Some RoomUnavailable.
Proof.
  destruct (unknown_room_type_unavailable Exemplo.lib (Exemplo.env "id-1")
              (Exemplo.pedido_de "suite" "ana@example.org" "2024-01-10" "2024-01-15" 2)
              (PStr "2024-01-10") (PStr "2024-01-15") (PStr "suite") Exemplo.hostal)
    as (resposta & w' & E & _ & Hk & _).
  - reflexivity.
  - reflexivity.
  - reflexivity.
  - reflexivity.
  - reflexivity.
  - exists resposta, w'. split; assumption.
Defined.

(** The room type nobody offers gets the very answer a fully booked
    dormitory gets. *)
Lemma unknown_room_type_counterexample :
  criar_reserva Exemplo.lib (Exemplo.env "id-1")
    (Exemplo.pedido_de "suite" "ana@example.org" "2024-01-10" "2024-01-15" 2)
    Exemplo.hostal
  = (Ok (erro_response "Quarto não disponível para as datas selecionadas"),
     Exemplo.hostal)
  /\ fst (criar_reserva Exemplo.lib (Exemplo.env "id-1")
            (Exemplo.pedido "ana@example.org" "2024-01-12" "2024-01-14" 2)
            Exemplo.hostal_ocupado)
     = Ok (erro_response "Quarto não disponível para as datas selecionadas")
  /\ error_kind (erro_response "Quarto não disponível para as datas selecionadas")
     = Some RoomUnavailable
  /\ error_kind (erro_response "Quarto não disponível para as datas selecionadas")
     <> Some InvalidInput.
Proof.
  split; [vm_compute; reflexivity |]. split; [vm_compute; reflexivity |].
  split; [vm_compute; reflexivity |]. vm_compute. discriminate.
Qed.



Lemma zero_night_witness :
  exists resposta w',
    criar_reserva Exemplo.lib (Exemplo.env "id-1")
      (Exemplo.pedido "ana@example.org" "2024-01-10" "2024-01-10" 2) Exemplo.hostal
    = (Ok resposta, w') /\
    error_kind resposta <> Some InvalidInput /\
    exists reserva,
      In reserva (reservas_table w') /\
      dict_get "checkin" reserva = Some (PStr "2024-01-10") /\
      dict_get "checkout" reserva = Some (PStr "2024-01-10") /\
      confirmada reserva = true.
Proof.
  destruct (zero_night_request Exemplo.lib (Exemplo.env "id-1")
              (Exemplo.pedido "ana@example.org" "2024-01-10" "2024-01-10" 2)
              (PStr "2024-01-10") (PStr "dormitorio") Exemplo.hostal)
    as (resposta & w' & E & Hk & _ & Hsim).
  - reflexivity.
  - reflexivity.
  - reflexivity.
  - reflexivity.
  - exists resposta, w'. split; [exact E |]. split; [exact Hk |].
    destruct (Hsim eq_refl (PStr "ana@example.org") (PInt 2) 2)
      as (v & _ & Hin & Hconf); try reflexivity.
    eexists. split; [exact Hin |]. split; [reflexivity |].
    split; [reflexivity | exact Hconf].
Defined.

(** A stay of no night passes the availability check and is written to the
    ledger as a confirmed booking, priced 0. *)
Lemma zero_night_counterexample :
  exists resposta w' reserva,
    criar_reserva Exemplo.lib (Exemplo.env "id-1")
      (Exemplo.pedido "ana@example.org" "2024-01-10" "2024-01-10" 2) Exemplo.hostal
    = (Ok resposta, w') /\
    error_kind resposta <> Some InvalidInput /\
    disponivel Exemplo.lib (Exemplo.env "id-1") (PStr "2024-01-10") (PStr "2024-01-10")
      (PStr "dormitorio") Exemplo.hostal = true /\
    reservas_table Exemplo.hostal = [] /\
    reservas_table w' = [reserva] /\
    dict_get "checkin" reserva = Some (PStr "2024-01-10") /\
    dict_get "checkout" reserva = Some (PStr "2024-01-10") /\
    dict_get "valor_total" reserva = Some (PFloat 0) /\
    confirmada reserva = true.
Proof.
  do 3 eexists. split; [vm_compute; reflexivity |].
  split; [vm_compute; discriminate |].
  split; [vm_compute; reflexivity |]. repeat split.
Qed.

Lemma accepted_request_witness :
  exists w',
    criar_reserva Exemplo.lib (Exemplo.env_sem_avisos "id-1")
      (Exemplo.pedido "ana@example.org" "2024-01-10" "2024-01-15" 2) Exemplo.hostal
    = (Ok (erro_response "Erro ao processar reserva"), w').
Proof.
  destruct (accepted_request_answered_with_error Exemplo.lib
              (Exemplo.env_sem_avisos "id-1")
              (Exemplo.pedido "ana@example.org" "2024-01-10" "2024-01-15" 2)
              (PStr "ana@example.org") (PStr "2024-01-10") (PStr "2024-01-15")
              (PStr "dormitorio") (PInt 2) 2 Exemplo.hostal)
    as (v & w' & E & _).
  - reflexivity.
  - reflexivity.
  - reflexivity.
  - reflexivity.
  - reflexivity.
  - vm_compute. reflexivity.
  - reflexivity.
  - reflexivity.
  - exists w'. exact E.
Defined.

Lemma race_witness :
  exists r1 r2 w',
    duas_em_corrida Exemplo.lib
      (Exemplo.env "id-1") (Exemplo.pedido "ana@example.org" "2024-01-10" "2024-01-15" 2)
      (Exemplo.env "id-2") (Exemplo.pedido "bia@example.org" "2024-01-10" "2024-01-15" 2)
      Exemplo.hostal
    = (Ok (r1, r2), w') /\
    error_kind r1 <> Some RoomUnavailable /\
    error_kind r2 <> Some RoomUnavailable.
Proof.
  edestruct (race_both_bookings_written Exemplo.lib
               (Exemplo.env "id-1")
               (Exemplo.pedido "ana@example.org" "2024-01-10" "2024-01-15" 2)
               (Exemplo.env "id-2")
               (Exemplo.pedido "bia@example.org" "2024-01-10" "2024-01-15" 2)
               Exemplo.hostal)
    as (r1 & r2 & w' & E & _ & _ & _ & _ & _ & H1 & H2).
  - cbv. reflexivity.
  - cbv. reflexivity.
  - reflexivity.
  - reflexivity.
  - cbv. discriminate.
  - exists r1, r2, w'. repeat split; assumption.
Defined.

(** One dormitory, two requests for the same five nights, both checks answered
    before either write: neither request succeeds, neither is told the room
    is unavailable, and the ledger ends with two confirmed bookings of the
    one room for the same nights. *)
Lemma race_counterexample :
  exists r1 r2 w',
    duas_em_corrida Exemplo.lib
      (Exemplo.env "id-1") (Exemplo.pedido "ana@example.org" "2024-01-10" "2024-01-15" 2)
      (Exemplo.env "id-2") (Exemplo.pedido "bia@example.org" "2024-01-10" "2024-01-15" 2)
      Exemplo.hostal
    = (Ok (r1, r2), w') /\
    statusCode r1 = 400 /\ statusCode r2 = 400 /\
    error_kind r1 = Some DependencyFailure /\
    error_kind r2 = Some DependencyFailure /\
    List.length (quartos_table w') = 1%nat /\
    List.length (filter confirmada (reservas_table w')) = 2%nat /\
    ~ I1 Exemplo.lib w'.
Proof.
  do 3 eexists. split; [vm_compute; reflexivity |].
  do 6 (split; [vm_compute; reflexivity |]).
  eapply (conflito_viola_I1 _ _ 0%nat 1%nat).
  - discriminate.
  - reflexivity.
  - reflexivity.
  - vm_compute. reflexivity.
Qed.

(** C1 - invariant I1 under sequential use.  The hostel has one dormitory and
    an empty ledger, so I1 holds.  Two requests are served one after the
    other, the second for nights inside the stay of the first.  Each is
    answered the processing error, and the ledger ends with both bookings
    confirmed for the one dormitory: I1 no longer holds. *)
Theorem sequential_double_booking :
  I1 Exemplo.lib Exemplo.hostal /\
  exists r1 r2 w',
    em_sequencia Exemplo.lib
      [(Exemplo.env "id-1",
        Exemplo.pedido "ana@example.org" "2024-01-10" "2024-01-15" 2);
       (Exemplo.env "id-2",
        Exemplo.pedido "bia@example.org" "2024-01-12" "2024-01-14" 2)]
      Exemplo.hostal
    = ([Ok r1; Ok r2], w') /\
    body r1 = [("error", PStr "Erro ao processar reserva")] /\
    body r2 = [("error", PStr "Erro ao processar reserva")] /\
    quartos_table w' = [Exemplo.quarto_Q1] /\
    List.length (filter confirmada (reservas_table w')) = 2%nat /\
    ~ I1 Exemplo.lib w'.
Proof.
  split; [apply I1_ledger_vazio; reflexivity |].
  do 3 eexists. split; [vm_compute; reflexivity |].
  do 4 (split; [vm_compute; reflexivity |]).
  eapply (conflito_viola_I1 _ _ 0%nat 1%nat).
  - discriminate.
  - reflexivity.
  - reflexivity.
  - vm_compute. reflexivity.
Qed.

(** C10 - an error answer does not mean an unchanged ledger.  There is a
    request that has every required field and passes the availability check,
    for which [criar_reserva] answers the 400 processing error while the
    ledger has gained the new booking with status [confirmada]; the failure
    that the log records is the one of the room-availability update, the step
    between the write and the success response. *)
Theorem error_response_after_write :
  exists env data w resposta w' reserva,
    campo_ausente campos_obrigatorios data = None /\
    disponivel Exemplo.lib env (dict_get_default "checkin" PNone data)
      (dict_get_default "checkout" PNone data)
      (dict_get_default "tipo_quarto" PNone data) w = true /\
    criar_reserva Exemplo.lib env data w = (Ok resposta, w') /\
    statusCode resposta = 400 /\
    body resposta = [("error", PStr "Erro ao processar reserva")] /\
    reservas_table w = [] /\
    reservas_table w' = [reserva] /\
    dict_get "reserva_id" reserva = Some (PStr (uuid4 env)) /\
    confirmada reserva = true /\
    stdout w'
    = [("Erro ao criar reserva", NameError "atualizar_disponibilidade_quarto")].
Proof.
  exists (Exemplo.env "id-1"),
         (Exemplo.pedido "ana@example.org" "2024-01-10" "2024-01-15" 2),
         Exemplo.hostal.
  do 3 eexists. split; [reflexivity |].
  split; [vm_compute; reflexivity |].
  split; [vm_compute; reflexivity |]. repeat split.
Qed.

(** ** A written booking is invisible to the check *)

Lemma nomes_nao_definidos :
  definido "atualizar_disponibilidade_quarto" = false /\
  definido "listar_reservas" = false /\
  definido "cancelar_reserva" = false.
Proof. repeat split. Qed.

Lemma filter_todos {A} (f : A -> bool) (l : list A) :
  (forall x, In x l -> f x = true) -> filter f l = l.
Proof.
  induction l as [| x l IH]; intros H; [reflexivity |].
  simpl. rewrite (H x (or_introl eq_refl)). f_equal.
  apply IH. intros y Hy. apply H. right. exact Hy.
Qed.

(** The items a room's query returns are the same before and after the write
    of a record that names no room, under an identifier the ledger did not
    hold. *)
Lemma confirmadas_apos_gravar q w registro id :
  dict_get "quarto_id" registro = None ->
  dict_get "reserva_id" registro = Some id ->
  (forall old, In old (reservas_table w) -> attr_is "reserva_id" id old = false) ->
  confirmadas_do_quarto q (gravada_e_interrompida w registro)
  = confirmadas_do_quarto q w.
Proof.
  intros Hq Hid Hnovo.
  assert (Hfora : attr_is "quarto_id" q registro = false)
    by (unfold attr_is; rewrite Hq; reflexivity).
  unfold confirmadas_do_quarto, gravada_e_interrompida, put.
  cbn [reservas_table]. rewrite Hid, filter_app.
  rewrite (filter_todos (fun old => negb (attr_is "reserva_id" id old))).
  - cbn [filter]. rewrite Hfora. cbn [andb]. apply app_nil_r.
  - intros old Hin. rewrite (Hnovo old Hin). reflexivity.
Qed.

Section Extensionalidade.

Variable lib : Biblioteca.

(** The loop over the fetched bookings does not touch the world. *)
Lemma sem_sobreposicao_puro a b items :
  exists r, forall w, sem_sobreposicao lib a b items w = (r, w).
Proof.
  induction items as [| reserva rest [r IH]].
  - exists (Ok true). reflexivity.
  - simpl. unfold bind, lift.
    destruct (dict_item "checkin" reserva) as [ci | e]; [| eexists; reflexivity].
    destruct (datetime_fromisoformat lib ci) as [c | e]; [| eexists; reflexivity].
    destruct (dict_item "checkout" reserva) as [co | e]; [| eexists; reflexivity].
    destruct (datetime_fromisoformat lib co) as [d | e]; [| eexists; reflexivity].
    destruct (datetime_lt a d) as [[|] | e];
      [| exists r; exact IH | eexists; reflexivity].
    destruct (datetime_gt b c) as [[|] | e];
      [exists (Ok false); reflexivity | exists r; exact IH | eexists; reflexivity].
Qed.

(** The answer of a room's check depends on the world through the result of
    the room's query only. *)
Lemma verificar_quarto_disponivel_ext env q ci co w w' :
  confirmadas_do_quarto q w' = confirmadas_do_quarto q w ->
  fst (verificar_quarto_disponivel lib env q ci co w')
  = fst (verificar_quarto_disponivel lib env q ci co w).
Proof.
  intros H.
  unfold verificar_quarto_disponivel, try_except, bind, lift, reservas_query_quarto.
  destruct (falha_reservas_query env); [reflexivity |]. rewrite H.
  destruct (datetime_fromisoformat lib ci) as [a | e]; [| reflexivity].
  destruct (datetime_fromisoformat lib co) as [b | e]; [| reflexivity].
  destruct (sem_sobreposicao_puro a b (confirmadas_do_quarto q w)) as [r Hr].
  rewrite !Hr. destruct r; reflexivity.
Qed.

Lemma confirmadas_so_log q w w' :
  so_log w w' -> confirmadas_do_quarto q w' = confirmadas_do_quarto q w.
Proof.
  intros (_ & Hr & _). unfold confirmadas_do_quarto. rewrite Hr. reflexivity.
Qed.

Lemma primeiro_quarto_livre_ext env ci co items :
  forall w w',
    (forall q, confirmadas_do_quarto q w' = confirmadas_do_quarto q w) ->
    fst (primeiro_quarto_livre lib env ci co items w')
    = fst (primeiro_quarto_livre lib env ci co items w).
Proof.
  induction items as [| quarto rest IH]; intros w w' H; [reflexivity |].
  simpl. unfold bind, lift.
  destruct (dict_item "quarto_id" quarto) as [q | e]; [| reflexivity].
  pose proof (verificar_quarto_disponivel_ext env q ci co w w' (H q)) as Hfst.
  pose proof (verificar_quarto_disponivel_so_log lib env q ci co w) as Hl.
  pose proof (verificar_quarto_disponivel_so_log lib env q ci co w') as Hl'.
  destruct (verificar_quarto_disponivel lib env q ci co w) as [r w1].
  destruct (verificar_quarto_disponivel lib env q ci co w') as [r' w1'].
  simpl in Hfst, Hl, Hl'. subst r'.
  destruct r as [[|] | e]; try reflexivity.
  apply IH. intros q0.
  rewrite (confirmadas_so_log q0 _ _ Hl'), (confirmadas_so_log q0 _ _ Hl). apply H.
Qed.

(** The availability check reads the catalogue and the results of the rooms'
    queries, nothing else. *)
Lemma disponivel_ext env ci co t w w' :
  quartos_table w' = quartos_table w ->
  (forall q, confirmadas_do_quarto q w' = confirmadas_do_quarto q w) ->
  disponivel lib env ci co t w' = disponivel lib env ci co t w.
Proof.
  intros Hq H. unfold disponivel, verificar_disponibilidade, try_except, bind,
    quartos_query_tipo.
  destruct (falha_quartos_query env); [reflexivity |]. rewrite Hq.
  pose proof (primeiro_quarto_livre_ext env ci co
                (filter (attr_is "tipo" t) (quartos_table w)) w w' H) as Hfst.
  destruct (primeiro_quarto_livre lib env ci co _ w) as [r w1].
  destruct (primeiro_quarto_livre lib env ci co _ w') as [r' w1'].
  simpl in Hfst. subst r'. destruct r; reflexivity.
Qed.

Lemma primeiro_quarto_livre_valor env ci co items w :
  Forall (fun quarto => dict_get "quarto_id" quarto <> None) items ->
  forall w0, so_log w w0 ->
    exists disp w1,
      primeiro_quarto_livre lib env ci co items w0 = (Ok disp, w1) /\
      dict_get "disponivel" disp
      = Some (PBool (existsb (quarto_livre lib env ci co w) items)).
Proof.
  induction 1 as [| quarto rest Hq _ IH]; intros w0 Hlog.
  - do 2 eexists. split; reflexivity.
  - destruct (dict_get "quarto_id" quarto) as [q |] eqn:Eq; [| congruence].
    cbn [primeiro_quarto_livre existsb]. unfold quarto_livre at 1. rewrite Eq.
    unfold bind, lift, dict_item. rewrite Eq.
    rewrite <- (verificar_quarto_disponivel_ext env q ci co w w0
                  (confirmadas_so_log q _ _ Hlog)).
    pose proof (verificar_quarto_disponivel_so_log lib env q ci co w0) as Hl.
    destruct (verificar_quarto_disponivel_retorna lib env q ci co w0) as [livre Hr].
    destruct (verificar_quarto_disponivel lib env q ci co w0) as [r w1].
    simpl in Hl, Hr. subst r. cbn [fst]. destruct livre.
    + do 2 eexists. split; reflexivity.
    + apply IH. eapply so_log_trans; eassumption.
Qed.

(** The check of a room type when the catalogue answers: some room of the
    type, taken in the order of the query, passes the check of one room. *)
Lemma disponivel_valor env ci co t w :
  falha_quartos_query env = false ->
  Forall (fun quarto => dict_get "quarto_id" quarto <> None)
         (filter (attr_is "tipo" t) (quartos_table w)) ->
  disponivel lib env ci co t w
  = existsb (quarto_livre lib env ci co w) (filter (attr_is "tipo" t) (quartos_table w)).
Proof.
  intros Hq Hall. unfold disponivel, verificar_disponibilidade, try_except, bind,
    quartos_query_tipo. rewrite Hq.
  destruct (primeiro_quarto_livre_valor env ci co _ w Hall w (so_log_refl w))
    as (disp & w1 & E & Hd).
  rewrite E, Hd. reflexivity.
Qed.

(** After [criar_reserva] has written a booking under a fresh identifier,
    every availability check answers what it answered before the write: the
    request just booked, and any other, is still accepted or refused as if
    the booking were not there. *)
Lemma reserva_gravada_nao_ocupa env data email ci co t nh g w :
  dict_get "cliente_email" data = Some email ->
  dict_get "checkin" data = Some ci ->
  dict_get "checkout" data = Some co ->
  dict_get "tipo_quarto" data = Some t ->
  dict_get "num_hospedes" data = Some nh ->
  disponivel lib env ci co t w = true ->
  py_int lib nh = Ok g ->
  falha_reservas_put env = false ->
  (forall old, In old (reservas_table w) ->
               attr_is "reserva_id" (PStr (uuid4 env)) old = false) ->
  forall env2 ci2 co2 t2,
    disponivel lib env2 ci2 co2 t2 (snd (criar_reserva lib env data w))
    = disponivel lib env2 ci2 co2 t2 w.
Proof.
  intros Hemail Hci Hco Ht Hnh Hd Hg Hput Hnovo env2 ci2 co2 t2.
  destruct (criar_reserva_gravada lib env data email ci co t nh g w
              Hemail Hci Hco Ht Hnh Hd Hg Hput) as (v & w3 & [Hq3 Hr3] & E).
  rewrite E. cbn [snd]. apply disponivel_ext; [exact Hq3 |].
  intros q.
  rewrite (confirmadas_apos_gravar q w3 _ (PStr (uuid4 env))).
  - unfold confirmadas_do_quarto. rewrite Hr3. reflexivity.
  - reflexivity.
  - reflexivity.
  - rewrite Hr3. exact Hnovo.
Qed.

End Extensionalidade.

(** * Further properties of the module *)

(** ** [consultar_disponibilidade] *)

Lemma quartos_livres_so_log lib env ci co t items :
  forall acc, preserva so_log (quartos_livres lib env ci co t items acc).
Proof.
  induction items as [| quarto rest IH]; intros acc; simpl; quadro_so_log;
    first [apply IH | apply verificar_quarto_disponivel_so_log].
Qed.

Lemma consultar_disponibilidade_so_log lib env data :
  preserva so_log (consultar_disponibilidade lib env data).
Proof.
  unfold consultar_disponibilidade. quadro_so_log.
  - apply quartos_scan_so_log.
  - apply quartos_livres_so_log.
Qed.

Lemma consultar_disponibilidade_forma lib env data w :
  exists resposta w',
    consultar_disponibilidade lib env data w = (Ok resposta, w') /\
    headers resposta = headers_cors /\
    (statusCode resposta = 200 \/
     resposta = erro_response "Erro ao consultar disponibilidade").
Proof.
  unfold consultar_disponibilidade, try_except, bind, lift, ret, print.
  repeat (abrir_match; cbn [fst snd]); eauto 6.
Qed.

(** X1 - an availability query only reads.  Whatever the request and
    whatever the collaborators do, [consultar_disponibilidade] returns a
    response, a 200 or the 400 of its [except] clause, and leaves every table,
    the outbox and the queue as they were: only log lines are added. *)
Theorem availability_query_is_read_only lib env data w :
  exists resposta w',
    consultar_disponibilidade lib env data w = (Ok resposta, w') /\
    (statusCode resposta = 200 \/
     resposta = erro_response "Erro ao consultar disponibilidade") /\
    so_log w w'.
Proof.
  pose proof (consultar_disponibilidade_so_log lib env data w) as Hlog.
  destruct (consultar_disponibilidade_forma lib env data w)
    as (resposta & w' & E & _ & Hs).
  rewrite E in Hlog. exists resposta, w'. auto.
Qed.

(** X2 - an availability query without dates.  When the request lacks
    [checkin], or has it and lacks [checkout], the lookup raises [KeyError]:
    the answer is the 400 "Erro ao consultar disponibilidade", the catalogue
    is not even scanned, and the world gains the one log line. *)
Theorem availability_query_without_dates lib env data w :
  dict_in "checkin" data = false \/ dict_in "checkout" data = false ->
  exists campo,
    (campo = "checkin" \/ campo = "checkout") /\
    dict_in campo data = false /\
    consultar_disponibilidade lib env data w
    = (Ok (erro_response "Erro ao consultar disponibilidade"),
       com_log w "Erro ao consultar disponibilidade" (KeyError campo)).
Proof.
  intros H. unfold consultar_disponibilidade, try_except, bind, lift, dict_item.
  unfold dict_in in *.
  destruct (dict_get "checkin" data) as [ci |] eqn:Eci.
  - destruct H as [H | H]; [discriminate |].
    destruct (dict_get "checkout" data) as [co |] eqn:Eco; [discriminate |].
    exists "checkout". rewrite Eco. auto.
  - exists "checkin". rewrite Eci. auto.
Qed.

Lemma availability_query_without_dates_witness :
  exists campo,
    consultar_disponibilidade Exemplo.lib (Exemplo.env "x")
      [("action", PStr "consultar_disponibilidade"); ("checkin", PStr "2024-01-10")]
      Exemplo.hostal
    = (Ok (erro_response "Erro ao consultar disponibilidade"),
       com_log Exemplo.hostal "Erro ao consultar disponibilidade" (KeyError campo)).
Proof.
  destruct (availability_query_without_dates Exemplo.lib (Exemplo.env "x")
              [("action", PStr "consultar_disponibilidade");
               ("checkin", PStr "2024-01-10")]
              Exemplo.hostal) as (campo & _ & _ & E).
  - right. reflexivity.
  - exists campo. exact E.
Defined.

Section Consulta.

Variable lib : Biblioteca.

Lemma quarto_livre_so_log env ci co w w0 quarto :
  so_log w w0 ->
  quarto_livre lib env ci co w0 quarto = quarto_livre lib env ci co w quarto.
Proof.
  intros Hlog. unfold quarto_livre.
  destruct (dict_get "quarto_id" quarto) as [q |]; [| reflexivity].
  rewrite (verificar_quarto_disponivel_ext lib env q ci co w w0
             (confirmadas_so_log q _ _ Hlog)).
  reflexivity.
Qed.

Lemma quarto_livre_valor env ci co w w0 quarto q livre w' :
  so_log w w0 ->
  dict_get "quarto_id" quarto = Some q ->
  verificar_quarto_disponivel lib env q ci co w0 = (Ok livre, w') ->
  quarto_livre lib env ci co w quarto = livre /\ so_log w w'.
Proof.
  intros Hlog Eq Ev.
  pose proof (verificar_quarto_disponivel_so_log lib env q ci co w0) as Hl.
  rewrite Ev in Hl. cbn [snd] in Hl. split; [| eapply so_log_trans; eassumption].
  rewrite <- (quarto_livre_so_log env ci co w w0 quarto Hlog).
  unfold quarto_livre. rewrite Eq, Ev. reflexivity.
Qed.

(** One turn of the loop for a room that passed the type filter. *)
Lemma quartos_livres_cauda env ci co t quarto rest acc w0 r w1 :
  (quarto_id <~ dict_item "quarto_id" quarto ;;
   livre <- verificar_quarto_disponivel lib env quarto_id ci co ;;
   if livre
   then
     tipo <~ dict_item "tipo" quarto ;;
     capacidade <~ dict_item "capacidade" quarto ;;
     p <~ dict_item "preco_diaria" quarto ;;
     preco_diaria <~ py_float lib p ;;
     quartos_livres lib env ci co t rest
       (acc ++ [PDict [("quarto_id", quarto_id);
                       ("tipo", tipo);
                       ("capacidade", capacidade);
                       ("preco_diaria", PFloat preco_diaria);
                       ("amenidades",
                        dict_get_default "amenidades" (PList []) quarto)]])
   else quartos_livres lib env ci co t rest acc)%py w0 = (Ok r, w1) ->
  exists q livre w',
    dict_get "quarto_id" quarto = Some q /\
    verificar_quarto_disponivel lib env q ci co w0 = (Ok livre, w') /\
    if livre
    then exists item,
        resumo_quarto lib quarto = Some item /\
        quartos_livres lib env ci co t rest (acc ++ [item]) w' = (Ok r, w1)
    else quartos_livres lib env ci co t rest acc w' = (Ok r, w1).
Proof.
  unfold bind, lift, dict_item, resumo_quarto. intros H.
  destruct (dict_get "quarto_id" quarto) as [q |]; [| discriminate].
  destruct (verificar_quarto_disponivel lib env q ci co w0) as [[livre | e] w'] eqn:Ev;
    [| discriminate].
  exists q, livre, w'. split; [reflexivity |]. split; [exact Ev |].
  destruct livre; cbn beta iota in H; [| exact H].
  destruct (dict_get "tipo" quarto) as [tp |]; [| discriminate].
  destruct (dict_get "capacidade" quarto) as [cap |]; [| discriminate].
  destruct (dict_get "preco_diaria" quarto) as [p |]; [| discriminate].
  destruct (py_float lib p) as [f | e]; [| discriminate].
  eexists. split; [reflexivity | exact H].
Qed.

(** The loop, read off a run that returned: what it appends to the list are
    the entries of the selected rooms, in the order of the scan. *)
Lemma quartos_livres_valor env ci co t w items :
  forall acc w0 r w1,
    so_log w w0 ->
    quartos_livres lib env ci co t items acc w0 = (Ok r, w1) ->
    exists novos,
      r = (acc ++ novos)%list /\
      Forall2 (fun quarto item => resumo_quarto lib quarto = Some item)
              (filter (selecionado lib env ci co t w) items) novos.
Proof.
  induction items as [| quarto rest IH]; intros acc w0 r w1 Hlog H.
  - inversion H; subst. exists []. split; [symmetry; apply app_nil_r | constructor].
  - cbn [quartos_livres] in H. unfold bind at 1 in H.
    assert (Hcauda :
      forall w0', so_log w w0' ->
        tipo_corresponde t quarto = true ->
        (quarto_id <~ dict_item "quarto_id" quarto ;;
         livre <- verificar_quarto_disponivel lib env quarto_id ci co ;;
         if livre
         then
           tipo <~ dict_item "tipo" quarto ;;
           capacidade <~ dict_item "capacidade" quarto ;;
           p <~ dict_item "preco_diaria" quarto ;;
           preco_diaria <~ py_float lib p ;;
           quartos_livres lib env ci co t rest
             (acc ++ [PDict [("quarto_id", quarto_id);
                             ("tipo", tipo);
                             ("capacidade", capacidade);
                             ("preco_diaria", PFloat preco_diaria);
                             ("amenidades",
                              dict_get_default "amenidades" (PList []) quarto)]])
         else quartos_livres lib env ci co t rest acc)%py w0' = (Ok r, w1) ->
        exists novos,
          r = (acc ++ novos)%list /\
          Forall2 (fun quarto item => resumo_quarto lib quarto = Some item)
            (filter (selecionado lib env ci co t w) (quarto :: rest)) novos).
    { intros w0' Hlog' Ht Hc.
      destruct (quartos_livres_cauda _ _ _ _ _ _ _ _ _ _ Hc)
        as (q & livre & w' & Eq & Ev & Hrest).
      destruct (quarto_livre_valor _ _ _ _ _ _ _ _ _ Hlog' Eq Ev) as [Hlivre Hlog''].
      cbn [filter]. unfold selecionado at 1. rewrite Ht, Hlivre. cbn [andb].
      destruct livre.
      - destruct Hrest as (item & Hitem & Hrest).
        destruct (IH _ _ _ _ Hlog'' Hrest) as (novos & -> & HF).
        exists (item :: novos). split; [rewrite <- app_assoc; reflexivity |].
        constructor; assumption.
      - eapply IH; eassumption. }
    destruct (py_ne t (PStr "todos")) eqn:Et.
    + unfold bind at 1 in H. unfold lift at 1, dict_item at 1 in H.
      destruct (dict_get "tipo" quarto) as [tp |] eqn:Etp; [| discriminate].
      unfold ret at 1 in H. unfold py_ne at 1 in H.
      destruct (py_eq tp t) eqn:Ep; cbn [negb] in H.
      * apply (Hcauda w0 Hlog); [| exact H].
        unfold tipo_corresponde. rewrite Et, Etp. exact Ep.
      * cbn [filter]. unfold selecionado at 1, tipo_corresponde.
        rewrite Et, Etp, Ep. cbn [andb]. eapply IH; eassumption.
    + unfold ret at 1 in H. apply (Hcauda w0 Hlog); [| exact H].
      unfold tipo_corresponde. rewrite Et. reflexivity.
Qed.

Lemma resumo_quarto_serializavel quarto item :
  resumo_quarto lib quarto = Some item ->
  entrada_serializavel item = sem_decimal quarto.
Proof.
  unfold resumo_quarto, sem_decimal, dict_get_default. cbn [forallb].
  destruct (dict_get "quarto_id" quarto) as [q |]; [| discriminate].
  destruct (dict_get "tipo" quarto) as [t |]; [| discriminate].
  destruct (dict_get "capacidade" quarto) as [c |]; [| discriminate].
  destruct (dict_get "preco_diaria" quarto) as [p |]; [| discriminate].
  destruct (py_float lib p) as [f | e]; [| discriminate].
  intros H. inversion H; subst. clear H.
  cbn [entrada_serializavel forallb fst snd String.eqb Ascii.eqb Bool.eqb orb].
  destruct (dict_get "amenidades" quarto) as [a |];
    cbn [tem_decimal existsb negb]; rewrite ?andb_true_r; reflexivity.
Qed.

Lemma resumos_serializaveis quartos entradas :
  Forall2 (fun quarto item => resumo_quarto lib quarto = Some item)
          quartos entradas ->
  forallb entrada_serializavel entradas = forallb sem_decimal quartos.
Proof.
  induction 1 as [| quarto item quartos entradas H _ IH]; [reflexivity |].
  cbn [forallb]. rewrite IH, (resumo_quarto_serializavel _ _ H). reflexivity.
Qed.

(** The two ways out of a query that has dates and a scan that answers. *)
Lemma consultar_disponibilidade_saida env data w resposta w' :
  consultar_disponibilidade lib env data w = (Ok resposta, w') ->
  statusCode resposta = 200 ->
  exists checkin checkout quartos,
    dict_get "checkin" data = Some checkin /\
    dict_get "checkout" data = Some checkout /\
    falha_quartos_scan env = false /\
    body resposta
    = [("quartos_disponiveis", PList quartos);
       ("total_encontrados", PInt (Z.of_nat (List.length quartos)))] /\
    Forall2 (fun quarto item => resumo_quarto lib quarto = Some item)
            (filter (selecionado lib env checkin checkout
                       (dict_get_default "tipo_quarto" (PStr "todos") data) w)
                    (quartos_table w))
            quartos /\
    forallb entrada_serializavel quartos = true.
Proof.
  intros H Hs.
  unfold consultar_disponibilidade, try_except, bind, lift, dict_item, quartos_scan,
    ret, print, json_dumps_quartos in H.
  destruct (dict_get "checkin" data) as [ci |];
    [| inversion H; subst; discriminate].
  destruct (dict_get "checkout" data) as [co |];
    [| inversion H; subst; discriminate].
  destruct (falha_quartos_scan env); [inversion H; subst; discriminate |].
  destruct (quartos_livres lib env ci co _ (quartos_table w) [] w)
    as [[quartos | e] w1] eqn:E;
    [| inversion H; subst; discriminate].
  destruct (forallb entrada_serializavel quartos) eqn:Ej;
    [| inversion H; subst; discriminate].
  inversion H; subst. clear H.
  destruct (quartos_livres_valor env ci co _ w _ _ _ _ _ (so_log_refl w) E)
    as (novos & -> & HF).
  exists ci, co, novos. cbn [app body] in *. auto 8.
Qed.

(** X3 - what an availability query lists.  When the answer is a 200, its
    body lists exactly the rooms of the catalogue, in the order of the scan,
    that are of the requested type (every room when the type is ['todos'] or
    absent) and pass the check of one room for the requested dates, each with
    its id, type, capacity, rate and amenities; [total_encontrados] is the
    length of that list.  None of the listed rooms has a number in its id,
    type, capacity or amenities: on the [Decimal] that boto3 returns for a
    number [json.dumps] raises, and the answer is not a 200. *)
Theorem availability_query_lists_free_rooms env data w resposta w' :
  consultar_disponibilidade lib env data w = (Ok resposta, w') ->
  statusCode resposta = 200 ->
  exists checkin checkout quartos,
    dict_get "checkin" data = Some checkin /\
    dict_get "checkout" data = Some checkout /\
    body resposta
    = [("quartos_disponiveis", PList quartos);
       ("total_encontrados", PInt (Z.of_nat (List.length quartos)))] /\
    Forall2 (fun quarto item => resumo_quarto lib quarto = Some item)
            (filter (selecionado lib env checkin checkout
                       (dict_get_default "tipo_quarto" (PStr "todos") data) w)
                    (quartos_table w))
            quartos /\
    forallb sem_decimal
            (filter (selecionado lib env checkin checkout
                       (dict_get_default "tipo_quarto" (PStr "todos") data) w)
                    (quartos_table w)) = true.
Proof.
  intros H Hs.
  destruct (consultar_disponibilidade_saida env data w resposta w' H Hs)
    as (ci & co & quartos & Hci & Hco & _ & Hb & HF & Hj).
  exists ci, co, quartos. repeat split; try assumption.
  rewrite <- (resumos_serializaveis _ _ HF). exact Hj.
Qed.

(** X30 - a free room with a numeric attribute breaks the query.  When the
    request has both dates and some room of the catalogue is of the
    requested type, passes the check of one room, and has a number in its
    id, type, capacity or amenities (a capacity of 4, say), the answer is the
    400 "Erro ao consultar disponibilidade" and not a listing: [json.dumps]
    raises on the [Decimal] that boto3 returned for the number. *)
Theorem numeric_room_attribute_breaks_the_query env data checkin checkout quarto w :
  dict_get "checkin" data = Some checkin ->
  dict_get "checkout" data = Some checkout ->
  In quarto (quartos_table w) ->
  selecionado lib env checkin checkout
    (dict_get_default "tipo_quarto" (PStr "todos") data) w quarto = true ->
  sem_decimal quarto = false ->
  exists w',
    consultar_disponibilidade lib env data w
    = (Ok (erro_response "Erro ao consultar disponibilidade"), w') /\
    so_log w w'.
Proof.
  intros Hci Hco Hin Hsel Hdec.
  pose proof (consultar_disponibilidade_so_log lib env data w) as Hlog.
  destruct (consultar_disponibilidade_forma lib env data w)
    as (resposta & w' & E & _ & [Hs | ->]).
  - exfalso.
    destruct (consultar_disponibilidade_saida env data w resposta w' E Hs)
      as (ci & co & quartos & Hci' & Hco' & _ & _ & HF & Hj).
    rewrite Hci in Hci'. rewrite Hco in Hco'. inversion Hci'; inversion Hco'; subst.
    rewrite (resumos_serializaveis _ _ HF) in Hj.
    rewrite forallb_forall in Hj.
    rewrite (Hj quarto) in Hdec; [discriminate |].
    apply filter_In. split; assumption.
  - exists w'. split; [exact E |]. rewrite E in Hlog. exact Hlog.
Qed.

End Consulta.

Lemma availability_query_lists_free_rooms_witness :
  exists resposta w' quartos,
    consultar_disponibilidade Exemplo.lib (Exemplo.env "x")
      [("action", PStr "consultar_disponibilidade");
       ("checkin", PStr "2024-01-15"); ("checkout", PStr "2024-01-18");
       ("tipo_quarto", PStr "suite")]
      Exemplo.hostal_suite
    = (Ok resposta, w') /\
    body resposta
    = [("quartos_disponiveis", PList quartos);
       ("total_encontrados", PInt (Z.of_nat (List.length quartos)))] /\
    List.length quartos = 1%nat.
Proof.
  assert (E : consultar_disponibilidade Exemplo.lib (Exemplo.env "x")
                [("action", PStr "consultar_disponibilidade");
                 ("checkin", PStr "2024-01-15"); ("checkout", PStr "2024-01-18");
                 ("tipo_quarto", PStr "suite")]
                Exemplo.hostal_suite
              = (Ok (mkResposta 200 headers_cors
                       [("quartos_disponiveis",
                         PList [PDict [("quarto_id", PStr "Q3");
                                       ("tipo", PStr "suite");
                                       ("capacidade", PStr "2");
                                       ("preco_diaria", PFloat 120);
                                       ("amenidades", PList [PStr "wifi"])]]);
                        ("total_encontrados", PInt 1)]),
                 Exemplo.hostal_suite))
    by (vm_compute; reflexivity).
  destruct (availability_query_lists_free_rooms Exemplo.lib _ _ _ _ _ E eq_refl)
    as (ci & co & quartos & _ & _ & Hb & _).
  do 2 eexists. exists quartos. split; [exact E |]. split; [exact Hb |].
  cbn [body] in Hb. inversion Hb. reflexivity.
Defined.

Lemma numeric_room_attribute_witness :
  exists w',
    consultar_disponibilidade Exemplo.lib (Exemplo.env "x")
      [("action", PStr "consultar_disponibilidade");
       ("checkin", PStr "2024-01-15"); ("checkout", PStr "2024-01-18")]
      Exemplo.hostal_ocupado
    = (Ok (erro_response "Erro ao consultar disponibilidade"), w') /\
    so_log Exemplo.hostal_ocupado w'.
Proof.
  apply (numeric_room_attribute_breaks_the_query Exemplo.lib (Exemplo.env "x")
           [("action", PStr "consultar_disponibilidade");
            ("checkin", PStr "2024-01-15"); ("checkout", PStr "2024-01-18")]
           (PStr "2024-01-15") (PStr "2024-01-18") Exemplo.quarto_Q1
           Exemplo.hostal_ocupado).
  - reflexivity.
  - reflexivity.
  - left. reflexivity.
  - vm_compute. reflexivity.
  - reflexivity.
Defined.

(** ** [lambda_handler] *)

(** X4 - the handler always answers.  No exception leaves [lambda_handler]:
    for every event and every behaviour of the collaborators it returns a
    response with status 200, 400 or 500 that carries the CORS headers. *)
Theorem handler_always_answers lib env event w :
  exists resposta w',
    lambda_handler lib env event w = (Ok resposta, w') /\
    headers resposta = headers_cors /\
    (statusCode resposta = 200 \/ statusCode resposta = 400 \/
     statusCode resposta = 500).
Proof.
  unfold lambda_handler, try_except.
  match goal with
  | |- context [match ?m w with _ => _ end] => destruct (m w) as [[resposta | e] w1] eqn:E
  end.
  2: { do 2 eexists. split; [reflexivity |]. cbn. auto. }
  exists resposta, w1. split; [reflexivity |].
  unfold bind in E.
  match type of E with
  | context [match ?m w with _ => _ end] => destruct (m w) as [[corpo | e] w0]
  end; [| discriminate].
  destruct corpo as [| | | | | | data]; try discriminate.
  destruct (py_eq _ (PStr "criar_reserva")).
  { destruct (criar_reserva_sempre_erro lib env data w0) as (m & w' & E').
    rewrite E' in E. inversion E; subst. cbn. auto. }
  destruct (py_eq _ (PStr "consultar_disponibilidade")).
  { destruct (consultar_disponibilidade_forma lib env data w0)
      as (r & w' & E' & Hh & [Hs | Hs]); rewrite E' in E; inversion E; subst.
    - auto.
    - cbn. auto. }
  destruct (py_eq _ (PStr "listar_reservas")); [discriminate |].
  destruct (py_eq _ (PStr "cancelar_reserva")); [discriminate |].
  inversion E; subst. cbn. auto.
Qed.



(** X6 - a request wrapped in a [body].  When the event carries a [body]
    string that [json.loads] turns into an object, and that object has no
    [body] key of its own, the handler does with the event exactly what it
    does when invoked with the object directly; the other keys of the event
    play no part. *)
Theorem handler_body_is_the_request lib env event raw data w :
  dict_get "body" event = Some (PStr raw) ->
  json_loads lib raw = Some (PDict data) ->
  dict_in "body" data = false ->
  lambda_handler lib env event w = lambda_handler lib env data w.
Proof.
  intros Hb Hj Hd. unfold lambda_handler, try_except, bind, lift, dict_item, dict_in.
  rewrite Hb. unfold dict_in in Hd.
  destruct (dict_get "body" data); [discriminate |].
  cbn [py_json_loads]. rewrite Hj. reflexivity.
Qed.

(** X7 - a [body] that is not a JSON object.  When the event has a [body]
    that is not a string, does not parse, or parses to something other than
    an object, the handler answers the generic 500; nothing is routed, and
    the world gains one log line only. *)
Theorem handler_rejects_malformed_body lib env event raw w :
  dict_get "body" event = Some raw ->
  (forall data, py_json_loads lib raw <> Ok (PDict data)) ->
  exists e,
    lambda_handler lib env event w
    = (Ok (mkResposta 500 headers_cors [("error", PStr "Erro interno do servidor")]),
       com_log w "Erro no handler" e).
Proof.
  intros Hb Hj. unfold lambda_handler, try_except, bind, lift, dict_item, dict_in.
  rewrite Hb.
  destruct (py_json_loads lib raw) as [corpo | e] eqn:E.
  - destruct corpo; try (eexists; reflexivity).
    exfalso. eapply Hj. reflexivity.
  - eexists. reflexivity.
Qed.

Lemma handler_body_is_the_request_witness :
  lambda_handler Exemplo.lib_json (Exemplo.env "x")
    [("body", PStr "{}"); ("action", PStr "criar_reserva")] Exemplo.hostal
  = lambda_handler Exemplo.lib_json (Exemplo.env "x") [] Exemplo.hostal.
Proof.
  apply (handler_body_is_the_request Exemplo.lib_json (Exemplo.env "x")
           [("body", PStr "{}"); ("action", PStr "criar_reserva")] "{}" []
           Exemplo.hostal); reflexivity.
Defined.

Lemma handler_rejects_malformed_body_witness :
  exists e,
    lambda_handler Exemplo.lib_json (Exemplo.env "x")
      [("body", PStr "[]")] Exemplo.hostal
    = (Ok (mkResposta 500 headers_cors [("error", PStr "Erro interno do servidor")]),
       com_log Exemplo.hostal "Erro no handler" e).
Proof.
  apply (handler_rejects_malformed_body Exemplo.lib_json (Exemplo.env "x")
           [("body", PStr "[]")] (PStr "[]") Exemplo.hostal eq_refl).
  intros data H. discriminate H.
Defined.

(** ** The availability check at its edges *)

Section Verificacao.

Variable lib : Biblioteca.

Lemma primeiro_quarto_livre_nenhum env ci co :
  (forall q w, fst (verificar_quarto_disponivel lib env q ci co w) = Ok false) ->
  forall items w disp w1,
    primeiro_quarto_livre lib env ci co items w = (Ok disp, w1) ->
    disp = [("disponivel", PBool false)].
Proof.
  intros Hnao. induction items as [| quarto rest IH]; intros w disp w1 H.
  - inversion H. reflexivity.
  - simpl in H. unfold bind, lift in H.
    destruct (dict_item "quarto_id" quarto) as [q |]; [| discriminate].
    pose proof (Hnao q w) as Hq.
    destruct (verificar_quarto_disponivel lib env q ci co w) as [r w0].
    simpl in Hq. subst r. eapply IH; eassumption.
Qed.

Lemma disponivel_nenhum env ci co t w :
  (forall q w, fst (verificar_quarto_disponivel lib env q ci co w) = Ok false) ->
  disponivel lib env ci co t w = false.
Proof.
  intros Hnao. unfold disponivel, verificar_disponibilidade, try_except, bind.
  destruct (quartos_query_tipo env t w) as [[items | e] w0]; [| reflexivity].
  destruct (primeiro_quarto_livre lib env ci co items w0) as [[disp | e] w1] eqn:E;
    [| reflexivity].
  rewrite (primeiro_quarto_livre_nenhum env ci co Hnao _ _ _ _ E). reflexivity.
Qed.

(** X8 - the check fails closed.  When the catalogue query or the ledger
    query raises, a request with every required field is told that no room
    is available, and nothing but log lines is written: an unreadable ledger
    never lets a booking through. *)
Theorem unreadable_tables_mean_unavailable env data w :
  campo_ausente campos_obrigatorios data = None ->
  falha_quartos_query env = true \/ falha_reservas_query env = true ->
  exists w',
    criar_reserva lib env data w
    = (Ok (erro_response "Quarto não disponível para as datas selecionadas"), w') /\
    so_log w w'.
Proof.
  intros Hc Hf.
  destruct (campo_ausente_none _ _ Hc "checkin") as [ci Hci]; [simpl; tauto |].
  destruct (campo_ausente_none _ _ Hc "checkout") as [co Hco]; [simpl; tauto |].
  destruct (campo_ausente_none _ _ Hc "tipo_quarto") as [t Ht]; [simpl; tauto |].
  apply (criar_reserva_indisponivel lib env data ci co t w Hc Hci Hco Ht).
  destruct Hf as [Hf | Hf].
  - unfold disponivel, verificar_disponibilidade, try_except, bind, quartos_query_tipo.
    rewrite Hf. reflexivity.
  - apply disponivel_nenhum. intros q w0.
    unfold verificar_quarto_disponivel, try_except, bind, reservas_query_quarto.
    rewrite Hf. reflexivity.
Qed.

Lemma sem_sobreposicao_ilegivel a b r items :
  In r items -> intervalo_de lib r = None ->
  forall w, fst (sem_sobreposicao lib a b items w) <> Ok true.
Proof.
  intros Hin Hr. apply (sem_sobreposicao_incomparavel lib a b r items Hin).
  rewrite Hr. exact I.
Qed.

(** X9 - a stored booking that cannot be read blocks its room.  When the
    query of a room returns a confirmed booking without [checkin] or
    [checkout], or with a date that does not parse, the check of that room
    answers False for every request and every interval: the loop either
    meets an overlap before the bad item or raises on it. *)
Theorem unreadable_booking_blocks_room env q ci co r w :
  In r (confirmadas_do_quarto q w) ->
  intervalo_de lib r = None ->
  fst (verificar_quarto_disponivel lib env q ci co w) = Ok false.
Proof.
  intros Hin Hr.
  unfold verificar_quarto_disponivel, try_except, bind, lift, reservas_query_quarto.
  destruct (falha_reservas_query env); [reflexivity |].
  destruct (datetime_fromisoformat lib ci) as [a | e]; [| reflexivity].
  destruct (datetime_fromisoformat lib co) as [b | e]; [| reflexivity].
  pose proof (sem_sobreposicao_ilegivel a b r _ Hin Hr w) as Hn.
  destruct (sem_sobreposicao lib a b (confirmadas_do_quarto q w) w)
    as [[[|] | e] w1]; cbn in *; congruence.
Qed.

Lemma confirmadas_com_reserva q w r :
  attr_is "quarto_id" q r && confirmada r = false ->
  confirmadas_do_quarto q (com_reserva w r) = confirmadas_do_quarto q w.
Proof.
  intros H. unfold confirmadas_do_quarto, com_reserva. cbn [reservas_table].
  rewrite filter_app. cbn [filter]. unfold confirmada in H. rewrite H.
  apply app_nil_r.
Qed.

(** X10 - only confirmed bookings of the room count.  Adding to the ledger
    an item that is not a confirmed booking held under room [q] (an item of
    another room, without a room, or with a status other than ['confirmada'],
    a cancelled booking for one) does not change what the check of [q]
    answers; an item that is not confirmed changes no availability answer at
    all. *)
Theorem other_items_do_not_take_the_room env ci co r w :
  (forall q,
      attr_is "quarto_id" q r && confirmada r = false ->
      fst (verificar_quarto_disponivel lib env q ci co (com_reserva w r))
      = fst (verificar_quarto_disponivel lib env q ci co w)) /\
  (confirmada r = false ->
   forall t, disponivel lib env ci co t (com_reserva w r)
             = disponivel lib env ci co t w).
Proof.
  split.
  - intros q H. apply verificar_quarto_disponivel_ext.
    apply confirmadas_com_reserva. exact H.
  - intros H t. apply disponivel_ext; [reflexivity |].
    intros q. apply confirmadas_com_reserva. rewrite H. apply andb_false_r.
Qed.

(** The rooms that are not free are passed over, one log line at most each
    time. *)
Lemma primeiro_quarto_livre_pula env ci co w antes resto :
  Forall (fun quarto => dict_get "quarto_id" quarto <> None /\
                        quarto_livre lib env ci co w quarto = false) antes ->
  forall w0, so_log w w0 ->
    exists w0', so_log w w0' /\
      primeiro_quarto_livre lib env ci co (antes ++ resto)%list w0
      = primeiro_quarto_livre lib env ci co resto w0'.
Proof.
  induction 1 as [| quarto antes [Hid Hnao] _ IH]; intros w0 Hlog.
  - exists w0. split; [exact Hlog | reflexivity].
  - destruct (dict_get "quarto_id" quarto) as [q |] eqn:Eq; [| congruence].
    cbn [app primeiro_quarto_livre]. unfold bind, lift, dict_item. rewrite Eq.
    destruct (verificar_quarto_disponivel_retorna lib env q ci co w0) as [livre Hr].
    destruct (verificar_quarto_disponivel lib env q ci co w0) as [r w1] eqn:Ev.
    simpl in Hr. subst r.
    destruct (quarto_livre_valor lib env ci co w w0 quarto q livre w1 Hlog Eq Ev)
      as [Hl Hlog1].
    rewrite Hnao in Hl. subst livre. apply IH. exact Hlog1.
Qed.

(** X11 - the first free room is the one chosen.  When the catalogue query
    answers with the rooms of the type in some order, every room before
    [quarto] has an id and fails the check of one room, and [quarto] has id
    [q] and passes it, then the check of the type answers available and
    names [q]; only log lines are written. *)
Theorem first_free_room_is_chosen env ci co t w antes quarto depois q :
  falha_quartos_query env = false ->
  filter (attr_is "tipo" t) (quartos_table w) = (antes ++ quarto :: depois)%list ->
  Forall (fun outro => dict_get "quarto_id" outro <> None /\
                       quarto_livre lib env ci co w outro = false) antes ->
  dict_get "quarto_id" quarto = Some q ->
  quarto_livre lib env ci co w quarto = true ->
  exists w',
    verificar_disponibilidade lib env ci co t w
    = (Ok [("disponivel", PBool true); ("quarto_id", q)], w') /\
    so_log w w'.
Proof.
  intros Hq Hitems Hantes Hid Hlivre.
  pose proof (verificar_disponibilidade_so_log lib env ci co t w) as Hlog.
  unfold verificar_disponibilidade, try_except, bind, quartos_query_tipo in *.
  rewrite Hq, Hitems in *.
  destruct (primeiro_quarto_livre_pula env ci co w antes (quarto :: depois)
              Hantes w (so_log_refl w)) as (w0 & Hlog0 & E).
  rewrite E in *. cbn [primeiro_quarto_livre] in *.
  unfold bind, lift, dict_item in *. rewrite Hid in *.
  destruct (verificar_quarto_disponivel_retorna lib env q ci co w0) as [livre Hr].
  destruct (verificar_quarto_disponivel lib env q ci co w0) as [r w1] eqn:Ev.
  simpl in Hr. subst r.
  destruct (quarto_livre_valor lib env ci co w w0 quarto q livre w1 Hlog0 Hid Ev)
    as [Hl _].
  rewrite Hlivre in Hl. subst livre.
  eexists. split; [reflexivity | exact Hlog].
Qed.

(** X12 - a room without an id ends the check.  When every room before
    [quarto] in the result of the catalogue query has an id and fails the
    check of one room, and [quarto] has no [quarto_id] attribute, the lookup
    raises [KeyError] and the check of the type answers unavailable, whatever
    rooms come after it, free or not. *)
Theorem room_without_id_ends_the_check env ci co t w antes quarto depois :
  falha_quartos_query env = false ->
  filter (attr_is "tipo" t) (quartos_table w) = (antes ++ quarto :: depois)%list ->
  Forall (fun outro => dict_get "quarto_id" outro <> None /\
                       quarto_livre lib env ci co w outro = false) antes ->
  dict_get "quarto_id" quarto = None ->
  exists w',
    verificar_disponibilidade lib env ci co t w
    = (Ok [("disponivel", PBool false)], w') /\
    last (stdout w') (EmptyString, TypeError)
    = ("Erro ao verificar disponibilidade", KeyError "quarto_id") /\
    disponivel lib env ci co t w = false.
Proof.
  intros Hq Hitems Hantes Hid.
  unfold disponivel, verificar_disponibilidade, try_except, bind, quartos_query_tipo.
  rewrite Hq, Hitems.
  destruct (primeiro_quarto_livre_pula env ci co w antes (quarto :: depois)
              Hantes w (so_log_refl w)) as (w0 & Hlog0 & E).
  rewrite E. cbn [primeiro_quarto_livre].
  unfold bind, lift, dict_item. rewrite Hid.
  eexists. split; [reflexivity |]. split; [| reflexivity].
  cbn [print stdout]. apply last_last.
Qed.

End Verificacao.

Lemma unreadable_tables_witness :
  exists w',
    criar_reserva Exemplo.lib (Exemplo.env_ledger_fora "id-1")
      (Exemplo.pedido "ana@example.org" "2024-01-10" "2024-01-15" 2) Exemplo.hostal
    = (Ok (erro_response "Quarto não disponível para as datas selecionadas"), w') /\
    so_log Exemplo.hostal w'.
Proof.
  apply (unreadable_tables_mean_unavailable Exemplo.lib
           (Exemplo.env_ledger_fora "id-1")
           (Exemplo.pedido "ana@example.org" "2024-01-10" "2024-01-15" 2)
           Exemplo.hostal).
  - reflexivity.
  - right. reflexivity.
Defined.

Lemma unreadable_booking_witness :
  fst (verificar_quarto_disponivel Exemplo.lib (Exemplo.env "x") (PStr "Q1")
         (PStr "2024-01-10") (PStr "2024-01-15") Exemplo.hostal_ilegivel)
  = Ok false.
Proof.
  apply (unreadable_booking_blocks_room Exemplo.lib (Exemplo.env "x") (PStr "Q1")
           (PStr "2024-01-10") (PStr "2024-01-15") Exemplo.reserva_ilegivel
           Exemplo.hostal_ilegivel).
  - left. reflexivity.
  - vm_compute. reflexivity.
Defined.

Lemma first_free_room_witness :
  exists w',
    verificar_disponibilidade Exemplo.lib (Exemplo.env "x")
      (PStr "2024-01-12") (PStr "2024-01-14") (PStr "dormitorio")
      Exemplo.hostal_dois_quartos
    = (Ok [("disponivel", PBool true); ("quarto_id", PStr "Q2")], w') /\
    so_log Exemplo.hostal_dois_quartos w'.
Proof.
  apply (first_free_room_is_chosen Exemplo.lib (Exemplo.env "x")
           (PStr "2024-01-12") (PStr "2024-01-14") (PStr "dormitorio")
           Exemplo.hostal_dois_quartos [Exemplo.quarto_Q1] Exemplo.quarto_Q2 []
           (PStr "Q2")).
  - reflexivity.
  - reflexivity.
  - repeat constructor. discriminate.
  - reflexivity.
  - vm_compute. reflexivity.
Defined.

Lemma room_without_id_witness :
  exists w',
    verificar_disponibilidade Exemplo.lib (Exemplo.env "x")
      (PStr "2024-01-12") (PStr "2024-01-14") (PStr "dormitorio")
      Exemplo.hostal_quarto_sem_id
    = (Ok [("disponivel", PBool false)], w') /\
    quarto_livre Exemplo.lib (Exemplo.env "x") (PStr "2024-01-12") (PStr "2024-01-14")
      Exemplo.hostal_quarto_sem_id Exemplo.quarto_Q2 = true.
Proof.
  destruct (room_without_id_ends_the_check Exemplo.lib (Exemplo.env "x")
              (PStr "2024-01-12") (PStr "2024-01-14") (PStr "dormitorio")
              Exemplo.hostal_quarto_sem_id [Exemplo.quarto_Q1] Exemplo.quarto_sem_id
              [Exemplo.quarto_Q2])
    as (w' & E & _).
  - reflexivity.
  - reflexivity.
  - repeat constructor. discriminate.
  - reflexivity.
  - exists w'. split; [exact E | vm_compute; reflexivity].
Defined.

(** ** The price at its edges, and the price that is stored *)

Section Preco.

Variable lib : Biblioteca.

(** The accepted path of [criar_reserva], step by step. *)
Lemma criar_reserva_gravada_passos env data email ci co t nh g w :
  dict_get "cliente_email" data = Some email ->
  dict_get "checkin" data = Some ci ->
  dict_get "checkout" data = Some co ->
  dict_get "tipo_quarto" data = Some t ->
  dict_get "num_hospedes" data = Some nh ->
  disponivel lib env ci co t w = true ->
  py_int lib nh = Ok g ->
  falha_reservas_put env = false ->
  exists w1 vt w2 v w3,
    so_log w w1 /\
    calcular_valor_reserva lib env ci co t nh w1 = (Ok vt, w2) /\
    so_log w1 w2 /\
    py_float lib vt = Ok v /\
    criar_ou_atualizar_cliente env data w2 = (Ok tt, w3) /\
    criar_reserva lib env data w
    = (Ok (erro_response "Erro ao processar reserva"),
       gravada_e_interrompida w3 (registro_reserva env data email ci co t g v)).
Proof.
  intros Hemail Hci Hco Ht Hnh Hd Hg Hput.
  pose proof (campos_presentes _ _ _ _ _ _ Hemail Hci Hco Ht Hnh) as Hc.
  destruct (verificar_disponibilidade_forma lib env ci co t w)
    as (disp & w1 & b & E1 & Hlog1 & Hb & Hb').
  rewrite Hd in Hb'. subst b.
  destruct (calcular_valor_reserva_forma lib env ci co t nh w1)
    as (vt & w2 & v & E2 & Hlog2 & Hv).
  destruct (criar_ou_atualizar_cliente_forma env data w2) as (w3 & E3 & Hl3).
  exists w1, vt, w2, v, w3. repeat split; try assumption; try apply Hlog1;
    try apply Hlog2.
  unfold criar_reserva, try_except. rewrite Hc.
  unfold bind, lift, dict_item.
  rewrite Hci, Hco, Ht, E1, Hb. cbn [truthy negb].
  rewrite Hnh, E2, E3, Hemail, Hg, Hv.
  unfold reservas_put_item. rewrite Hput. reflexivity.
Qed.

(** X13 - the price falls back to 0.  [calcular_valor_reserva] never raises:
    for every request, state and behaviour of the catalogue it returns a
    value, and it writes nothing but log lines.  The value is 0 when the
    catalogue query fails, when no room has the type, when the first room of
    the type has no rate or one that does not convert, when the dates do not
    both parse, when they parse to one naive and one offset-aware datetime,
    or when the guest count is not a number. *)
Theorem price_falls_back_to_zero env ci co t nh w :
  exists v w',
    calcular_valor_reserva lib env ci co t nh w = (Ok v, w') /\
    so_log w w' /\
    (falha_quartos_query env = true
     \/ filter (attr_is "tipo" t) (quartos_table w) = []
     \/ (exists quarto resto,
            filter (attr_is "tipo" t) (quartos_table w) = quarto :: resto /\
            forall p, dict_get "preco_diaria" quarto = Some p ->
                      forall R, py_float lib p <> Ok R)
     \/ intervalo lib ci co = None
     \/ (exists a b, intervalo lib ci co = Some (a, b) /\ aware b <> aware a)
     \/ Num.of_val nh = None ->
     v = PInt 0).
Proof.
  destruct (calcular_valor_reserva_forma lib env ci co t nh w)
    as (vt & w' & v & E & Hlog & _).
  exists vt, w'. split; [exact E |]. split; [exact Hlog |]. intros H.
  destruct (calcular_valor_reserva_zero lib env ci co t nh w) as (w'' & E' & _).
  - destruct H as [H | [H | H]];
      [left; exact H | right; left | right; right; exact H].
    rewrite H. reflexivity.
  - rewrite E in E'. inversion E'. reflexivity.
Qed.

(** X14 - a guest count that is not a number.  When a request passes the
    availability check with a guest count that [int()] converts but that is
    not a number itself (the JSON string "3", say), the comparison with 2 in
    the price computation raises, the price falls back to 0, and the booking
    is written with the converted guest count and a total of 0. *)
Theorem text_guest_count_is_booked_for_nothing env data email ci co t nh g w :
  dict_get "cliente_email" data = Some email ->
  dict_get "checkin" data = Some ci ->
  dict_get "checkout" data = Some co ->
  dict_get "tipo_quarto" data = Some t ->
  dict_get "num_hospedes" data = Some nh ->
  disponivel lib env ci co t w = true ->
  Num.of_val nh = None ->
  py_int lib nh = Ok g ->
  falha_reservas_put env = false ->
  exists w',
    snd (criar_reserva lib env data w) = w' /\
    In (registro_reserva env data email ci co t g 0%float) (reservas_table w') /\
    dict_get "num_hospedes" (registro_reserva env data email ci co t g 0%float)
    = Some (PInt g) /\
    dict_get "valor_total" (registro_reserva env data email ci co t g 0%float)
    = Some (PFloat 0).
Proof.
  intros Hemail Hci Hco Ht Hnh Hd Hnum Hg Hput.
  destruct (criar_reserva_gravada_passos env data email ci co t nh g w
              Hemail Hci Hco Ht Hnh Hd Hg Hput)
    as (w1 & vt & w2 & v & w3 & _ & E2 & _ & Hv & _ & E).
  destruct (calcular_valor_reserva_zero lib env ci co t nh w1) as (w2' & E2' & _);
    [do 5 right; exact Hnum |].
  rewrite E2 in E2'. inversion E2'; subst.
  cbn in Hv. inversion Hv; subst.
  eexists. split; [rewrite E; reflexivity |].
  split; [apply In_put_novo |]. split; reflexivity.
Qed.

(** X15 - the rate is the one of the first room of the type.  The price
    query has [Limit=1]: two catalogues whose rooms of the type start with
    the same item give the same price for the same request, whatever rooms
    follow, and so whatever room the availability check found free. *)
Theorem price_is_read_from_the_first_room env ci co t nh w w' quarto resto resto' :
  filter (attr_is "tipo" t) (quartos_table w) = quarto :: resto ->
  filter (attr_is "tipo" t) (quartos_table w') = quarto :: resto' ->
  fst (calcular_valor_reserva lib env ci co t nh w)
  = fst (calcular_valor_reserva lib env ci co t nh w').
Proof.
  intros H H'.
  unfold calcular_valor_reserva, try_except, bind, quartos_query_tipo.
  destruct (falha_quartos_query env); [reflexivity |].
  rewrite H, H'. cbn [firstn]. unfold lift, ret, print.
  repeat (abrir_match; cbn [fst snd]); reflexivity.
Qed.

(** X16 - the stored price is the computed price.  When a request with an
    integer guest count [g] and dates that parse on one time line (both naive
    or both offset-aware) passes the availability check and the write goes
    through, the booking in the ledger carries as [valor_total] the amount
    [(R + max(0, g - 2) * 15) * nights], [R] being the rate of the first room
    of the type at the time of the request. *)
Theorem stored_price_follows_the_rule env data email ci co t g w
        quarto resto R a b total :
  dict_get "cliente_email" data = Some email ->
  dict_get "checkin" data = Some (PStr ci) ->
  dict_get "checkout" data = Some (PStr co) ->
  dict_get "tipo_quarto" data = Some t ->
  dict_get "num_hospedes" data = Some (PInt g) ->
  disponivel lib env (PStr ci) (PStr co) t w = true ->
  falha_quartos_query env = false ->
  falha_reservas_put env = false ->
  filter (attr_is "tipo" t) (quartos_table w) = quarto :: resto ->
  dict_get "preco_diaria" quarto = Some (PFloat R) ->
  fromisoformat lib ci = Some a ->
  fromisoformat lib co = Some b ->
  aware b = aware a ->
  preco_spec R g ((instante b - instante a) / microssegundos_por_dia) = Some total ->
  exists w',
    snd (criar_reserva lib env data w) = w' /\
    In (registro_reserva env data email (PStr ci) (PStr co) t g total)
       (reservas_table w') /\
    dict_get "valor_total"
      (registro_reserva env data email (PStr ci) (PStr co) t g total)
    = Some (PFloat total).
Proof.
  intros Hemail Hci Hco Ht Hnh Hd Hq Hput Hitems Hpreco Ha Hb Hab Hspec.
  destruct (criar_reserva_gravada_passos env data email (PStr ci) (PStr co) t
              (PInt g) g w Hemail Hci Hco Ht Hnh Hd eq_refl Hput)
    as (w1 & vt & w2 & v & w3 & (Hq1 & _) & E2 & _ & Hv & _ & E).
  rewrite <- Hq1 in Hitems.
  rewrite (calcular_valor_reserva_valor lib env ci co t g w1 quarto resto R a b
             total Hq Hitems Hpreco Ha Hb Hab Hspec) in E2.
  inversion E2; subst. cbn in Hv. inversion Hv; subst.
  eexists. split; [rewrite E; reflexivity |].
  split; [apply In_put_novo | reflexivity].
Qed.

End Preco.

Lemma price_falls_back_witness :
  exists w',
    calcular_valor_reserva Exemplo.lib (Exemplo.env "x")
      (PStr "2024-01-10") (PStr "2024-01-15") (PStr "suite") (PInt 2) Exemplo.hostal
    = (Ok (PInt 0), w') /\ so_log Exemplo.hostal w'.
Proof.
  destruct (price_falls_back_to_zero Exemplo.lib (Exemplo.env "x")
              (PStr "2024-01-10") (PStr "2024-01-15") (PStr "suite") (PInt 2)
              Exemplo.hostal) as (v & w' & E & Hlog & Hzero).
  exists w'. split; [| exact Hlog].
  rewrite E, Hzero; [reflexivity |]. right. left. reflexivity.
Defined.

Lemma text_guest_count_witness :
  exists w',
    snd (criar_reserva Exemplo.lib_numeros (Exemplo.env "id-1")
           [("cliente_email", PStr "ana@example.org");
            ("checkin", PStr "2024-01-10"); ("checkout", PStr "2024-01-15");
            ("tipo_quarto", PStr "dormitorio"); ("num_hospedes", PStr "3")]
           Exemplo.hostal) = w' /\
    exists reserva,
      In reserva (reservas_table w') /\
      dict_get "num_hospedes" reserva = Some (PInt 3) /\
      dict_get "valor_total" reserva = Some (PFloat 0).
Proof.
  destruct (text_guest_count_is_booked_for_nothing Exemplo.lib_numeros
              (Exemplo.env "id-1")
              [("cliente_email", PStr "ana@example.org");
               ("checkin", PStr "2024-01-10"); ("checkout", PStr "2024-01-15");
               ("tipo_quarto", PStr "dormitorio"); ("num_hospedes", PStr "3")]
              (PStr "ana@example.org") (PStr "2024-01-10") (PStr "2024-01-15")
              (PStr "dormitorio") (PStr "3") 3 Exemplo.hostal)
    as (w' & E & Hin & Hn & Hv).
  - reflexivity.
  - reflexivity.
  - reflexivity.
  - reflexivity.
  - reflexivity.
  - vm_compute. reflexivity.
  - reflexivity.
  - reflexivity.
  - reflexivity.
  - exists w'. split; [exact E |]. eexists. split; [exact Hin |].
    split; [exact Hn | exact Hv].
Defined.

Lemma price_first_room_witness :
  fst (calcular_valor_reserva Exemplo.lib (Exemplo.env "x")
         (PStr "2024-01-10") (PStr "2024-01-13") (PStr "dormitorio") (PInt 4)
         Exemplo.hostal_ocupado)
  = fst (calcular_valor_reserva Exemplo.lib (Exemplo.env "x")
           (PStr "2024-01-10") (PStr "2024-01-13") (PStr "dormitorio") (PInt 4)
           Exemplo.hostal_dois_quartos).
Proof.
  apply (price_is_read_from_the_first_room Exemplo.lib (Exemplo.env "x")
           (PStr "2024-01-10") (PStr "2024-01-13") (PStr "dormitorio") (PInt 4)
           Exemplo.hostal_ocupado Exemplo.hostal_dois_quartos
           Exemplo.quarto_Q1 [] [Exemplo.quarto_Q2]); reflexivity.
Defined.

Lemma stored_price_witness :
  exists w' reserva,
    snd (criar_reserva Exemplo.lib (Exemplo.env "id-1")
           (Exemplo.pedido "ana@example.org" "2024-01-10" "2024-01-13" 4)
           Exemplo.hostal) = w' /\
    In reserva (reservas_table w') /\
    dict_get "valor_total" reserva = Some (PFloat 240).
Proof.
  destruct (stored_price_follows_the_rule Exemplo.lib (Exemplo.env "id-1")
              (Exemplo.pedido "ana@example.org" "2024-01-10" "2024-01-13" 4)
              (PStr "ana@example.org") "2024-01-10" "2024-01-13"
              (PStr "dormitorio") 4 Exemplo.hostal Exemplo.quarto_Q1 [] 50%float
              (Exemplo.meia_noite "2024-01-10") (Exemplo.meia_noite "2024-01-13")
              240%float)
    as (w' & E & Hin & Hv).
  - reflexivity.
  - reflexivity.
  - reflexivity.
  - reflexivity.
  - reflexivity.
  - vm_compute. reflexivity.
  - reflexivity.
  - reflexivity.
  - reflexivity.
  - reflexivity.
  - vm_compute. reflexivity.
  - vm_compute. reflexivity.
  - reflexivity.
  - vm_compute. reflexivity.
  - exists w'. eexists. split; [exact E |]. split; [exact Hin | exact Hv].
Defined.

(** ** The customer record, the writes of [criar_reserva], the mail *)

Lemma filter_negb_vazio {A} (f : A -> bool) (l : list A) :
  filter f (filter (fun x => negb (f x)) l) = [].
Proof.
  induction l as [| x l IH]; [reflexivity |].
  simpl. destruct (f x) eqn:E; simpl; [exact IH |]. rewrite E. exact IH.
Qed.

Lemma filter_negb_idem {A} (f : A -> bool) (l : list A) :
  filter (fun x => negb (f x)) (filter (fun x => negb (f x)) l)
  = filter (fun x => negb (f x)) l.
Proof.
  apply filter_todos. intros x Hx. apply filter_In in Hx. apply Hx.
Qed.

(** X17 - the customer record is replaced, not duplicated.  When the
    request carries the email [e] and the customers table accepts the write,
    [criar_ou_atualizar_cliente] leaves exactly one record under [e], the new
    one, with name and phone from the request or empty when absent; the
    records of the other customers are kept, in their order, and nothing
    else in the world changes. *)
Theorem customer_record_is_replaced env data e w :
  dict_get "cliente_email" data = Some (PStr e) ->
  falha_clientes_put env = false ->
  exists w',
    criar_ou_atualizar_cliente env data w = (Ok tt, w') /\
    filter (attr_is "email" (PStr e)) (clientes_table w')
    = [registro_cliente env data (PStr e)] /\
    filter (fun c => negb (attr_is "email" (PStr e) c)) (clientes_table w')
    = filter (fun c => negb (attr_is "email" (PStr e) c)) (clientes_table w) /\
    mesmo_ledger w w' /\ mesmos_avisos w w' /\ stdout w' = stdout w.
Proof.
  intros He Hput.
  unfold criar_ou_atualizar_cliente, try_except, bind, lift, dict_item,
    clientes_put_item.
  rewrite He, Hput. eexists. split; [reflexivity |].
  cbn [clientes_table stdout]. unfold put. cbn [dict_get String.eqb Ascii.eqb Bool.eqb].
  rewrite !filter_app, filter_negb_vazio, filter_negb_idem.
  assert (Hnovo : attr_is "email" (PStr e)
                    [("email", PStr e);
                     ("nome", dict_get_default "cliente_nome" (PStr EmptyString) data);
                     ("telefone",
                      dict_get_default "cliente_telefone" (PStr EmptyString) data);
                     ("ultima_atualizacao", PStr (now_isoformat env))] = true)
    by (unfold attr_is; cbn; apply String.eqb_refl).
  cbn [filter app]. rewrite Hnovo. cbn [negb].
  rewrite app_nil_r. repeat split.
Qed.

Lemma customer_record_is_replaced_witness :
  exists w',
    criar_ou_atualizar_cliente (Exemplo.env "x")
      (Exemplo.pedido "ana@example.org" "2024-01-10" "2024-01-15" 2) Exemplo.hostal
    = (Ok tt, w') /\
    clientes_table w'
    = [registro_cliente (Exemplo.env "x")
         (Exemplo.pedido "ana@example.org" "2024-01-10" "2024-01-15" 2)
         (PStr "ana@example.org")].
Proof.
  destruct (customer_record_is_replaced (Exemplo.env "x")
              (Exemplo.pedido "ana@example.org" "2024-01-10" "2024-01-15" 2)
              "ana@example.org" Exemplo.hostal eq_refl eq_refl)
    as (w' & E & _).
  exists w'. split; [exact E |].
  vm_compute in E. inversion E. reflexivity.
Defined.

(** X18 - a failing customers table does not stop the booking.  When the
    write of the customer record raises, the failure is logged and swallowed:
    a request that passes the availability check is still written to the
    ledger, and the customers table is left as it was. *)
Theorem customer_failure_does_not_block_booking lib env data email ci co t nh g w :
  dict_get "cliente_email" data = Some email ->
  dict_get "checkin" data = Some ci ->
  dict_get "checkout" data = Some co ->
  dict_get "tipo_quarto" data = Some t ->
  dict_get "num_hospedes" data = Some nh ->
  disponivel lib env ci co t w = true ->
  py_int lib nh = Ok g ->
  falha_reservas_put env = false ->
  falha_clientes_put env = true ->
  exists v w',
    snd (criar_reserva lib env data w) = w' /\
    In (registro_reserva env data email ci co t g v) (reservas_table w') /\
    clientes_table w' = clientes_table w /\
    In ("Erro ao salvar cliente", ClientError "dynamodb") (stdout w').
Proof.
  intros Hemail Hci Hco Ht Hnh Hd Hg Hput Hcli.
  destruct (criar_reserva_gravada_passos lib env data email ci co t nh g w
              Hemail Hci Hco Ht Hnh Hd Hg Hput)
    as (w1 & vt & w2 & v & w3 & Hlog1 & _ & Hlog2 & _ & E3 & E).
  unfold criar_ou_atualizar_cliente, try_except, bind, lift, dict_item,
    clientes_put_item in E3.
  rewrite Hemail, Hcli in E3. cbn [print] in E3. inversion E3; subst w3. clear E3.
  exists v. eexists. split; [rewrite E; reflexivity |].
  cbn [snd gravada_e_interrompida reservas_table clientes_table stdout].
  split; [apply In_put_novo |]. split.
  - destruct Hlog1 as (_ & _ & H1 & _). destruct Hlog2 as (_ & _ & H2 & _).
    congruence.
  - apply in_or_app. left. apply in_or_app. right. left. reflexivity.
Qed.

Lemma customer_failure_witness :
  exists v w',
    snd (criar_reserva Exemplo.lib (Exemplo.env_clientes_fora "id-1")
           (Exemplo.pedido "ana@example.org" "2024-01-10" "2024-01-15" 2)
           Exemplo.hostal) = w' /\
    In (registro_reserva (Exemplo.env_clientes_fora "id-1")
          (Exemplo.pedido "ana@example.org" "2024-01-10" "2024-01-15" 2)
          (PStr "ana@example.org") (PStr "2024-01-10") (PStr "2024-01-15")
          (PStr "dormitorio") 2 v)
       (reservas_table w') /\
    clientes_table w' = [].
Proof.
  destruct (customer_failure_does_not_block_booking Exemplo.lib
              (Exemplo.env_clientes_fora "id-1")
              (Exemplo.pedido "ana@example.org" "2024-01-10" "2024-01-15" 2)
              (PStr "ana@example.org") (PStr "2024-01-10") (PStr "2024-01-15")
              (PStr "dormitorio") (PInt 2) 2 Exemplo.hostal)
    as (v & w' & E & Hin & Hc & _).
  - reflexivity.
  - reflexivity.
  - reflexivity.
  - reflexivity.
  - reflexivity.
  - vm_compute. reflexivity.
  - reflexivity.
  - reflexivity.
  - reflexivity.
  - exists v, w'. split; [exact E |]. split; [exact Hin | exact Hc].
Defined.

Lemma mesmos_avisos_refl w : mesmos_avisos w w.
Proof. split; reflexivity. Qed.

Lemma mesmos_avisos_trans w1 w2 w3 :
  mesmos_avisos w1 w2 -> mesmos_avisos w2 w3 -> mesmos_avisos w1 w3.
Proof. unfold mesmos_avisos; intuition congruence. Qed.

Lemma preserva_so_log_avisos {A} (m : M A) :
  preserva so_log m -> preserva mesmos_avisos m.
Proof. intros H w. destruct (H w) as (_ & _ & _ & H1 & H2). split; assumption. Qed.

Lemma criar_ou_atualizar_cliente_avisos env data :
  preserva mesmos_avisos (criar_ou_atualizar_cliente env data).
Proof.
  unfold criar_ou_atualizar_cliente.
  quadro mesmos_avisos_refl mesmos_avisos_trans.
  - intros w. unfold clientes_put_item.
    destruct (falha_clientes_put env); split; reflexivity.
  - apply preserva_so_log_avisos, print_so_log.
Qed.

Lemma criar_reserva_ate_registro_avisos lib env data :
  preserva mesmos_avisos (criar_reserva_ate_registro lib env data).
Proof.
  unfold criar_reserva_ate_registro.
  quadro mesmos_avisos_refl mesmos_avisos_trans.
  - destruct (campo_ausente campos_obrigatorios data);
      quadro mesmos_avisos_refl mesmos_avisos_trans.
    + apply preserva_so_log_avisos, verificar_disponibilidade_so_log.
    + apply preserva_so_log_avisos, calcular_valor_reserva_so_log.
    + apply criar_ou_atualizar_cliente_avisos.
  - apply preserva_so_log_avisos, print_so_log.
Qed.

(** What the second step does, whether the ledger takes the write or not. *)
Lemma criar_reserva_do_registro_casos lib env p w :
  criar_reserva_do_registro lib env p w
  = if falha_reservas_put env
    then (Ok (erro_response "Erro ao processar reserva"),
          com_log w "Erro ao criar reserva" (ClientError "dynamodb"))
    else (Ok (erro_response "Erro ao processar reserva"),
          gravada_e_interrompida w (p_reserva p)).
Proof.
  unfold criar_reserva_do_registro, try_except, bind, reservas_put_item.
  destruct (falha_reservas_put env); reflexivity.
Qed.

(** X19 - [criar_reserva] sends nothing.  For every request, every state and
    every behaviour of the collaborators, the mail outbox and the BI queue
    after [criar_reserva] are those before it: no confirmation mail and no
    analytics message ever leaves, also for the bookings that are written. *)
Theorem booking_sends_no_mail_and_no_event lib env data w :
  ses_outbox (snd (criar_reserva lib env data w)) = ses_outbox w /\
  sqs_queue (snd (criar_reserva lib env data w)) = sqs_queue w.
Proof.
  rewrite criar_reserva_em_dois_passos. unfold bind.
  pose proof (criar_reserva_ate_registro_avisos lib env data w) as [H1 H2].
  destruct (criar_reserva_ate_registro lib env data w) as [[[r | p] | e] w1];
    cbn [snd concluir ret] in *; try (split; assumption).
  rewrite criar_reserva_do_registro_casos.
  destruct (falha_reservas_put env); cbn; split; assumption.
Qed.

(** The record the first step hands over, and how it came about. *)
Lemma criar_reserva_ate_registro_origem lib env data w p w1 :
  criar_reserva_ate_registro lib env data w = (Ok (inr p), w1) ->
  exists email ci co t nh g v,
    dict_get "cliente_email" data = Some email /\
    dict_get "checkin" data = Some ci /\
    dict_get "checkout" data = Some co /\
    dict_get "tipo_quarto" data = Some t /\
    dict_get "num_hospedes" data = Some nh /\
    py_int lib nh = Ok g /\
    disponivel lib env ci co t w = true /\
    p_reserva p = registro_reserva env data email ci co t g v.
Proof.
  intros H.
  unfold criar_reserva_ate_registro, try_except, bind, lift, ret, print, dict_item in H.
  destruct (campo_ausente campos_obrigatorios data); [discriminate |].
  destruct (dict_get "checkin" data) as [ci |]; [| discriminate].
  destruct (dict_get "checkout" data) as [co |]; [| discriminate].
  destruct (dict_get "tipo_quarto" data) as [t |]; [| discriminate].
  destruct (verificar_disponibilidade lib env ci co t w) as [[disp | e] w0] eqn:E1;
    [| discriminate].
  destruct (dict_get "disponivel" disp) as [d |] eqn:Ed; [| discriminate].
  destruct (truthy d) eqn:Etd; cbn [negb] in H; [| discriminate].
  destruct (dict_get "num_hospedes" data) as [nh |]; [| discriminate].
  destruct (calcular_valor_reserva lib env ci co t nh w0) as [[vt | e] w2];
    [| discriminate].
  destruct (criar_ou_atualizar_cliente env data w2) as [[[] | e] w3];
    [| discriminate].
  destruct (dict_get "cliente_email" data) as [email |]; [| discriminate].
  destruct (py_int lib nh) as [g | e] eqn:Eg; [| discriminate].
  destruct (py_float lib vt) as [v | e]; [| discriminate].
  inversion H; subst. exists email, ci, co, t, nh, g, v.
  repeat split; try assumption. unfold disponivel. rewrite E1, Ed. exact Etd.
Qed.

(** X20 - what [criar_reserva] can do to the ledger.  Whatever the request,
    either the ledger is left as it was, or it gains, in the place of any
    item with the same id, exactly one record: the one built from the
    request's own email, dates, type and converted guest count, with status
    ['confirmada'] and the id drawn for this invocation; and this happens
    only for a request that has every required field and passed the
    availability check. *)
Theorem booking_writes_at_most_its_own_record lib env data w :
  reservas_table (snd (criar_reserva lib env data w)) = reservas_table w
  \/ exists email ci co t nh g v,
       dict_get "cliente_email" data = Some email /\
       dict_get "checkin" data = Some ci /\
       dict_get "checkout" data = Some co /\
       dict_get "tipo_quarto" data = Some t /\
       dict_get "num_hospedes" data = Some nh /\
       py_int lib nh = Ok g /\
       disponivel lib env ci co t w = true /\
       confirmada (registro_reserva env data email ci co t g v) = true /\
       dict_get "reserva_id" (registro_reserva env data email ci co t g v)
       = Some (PStr (uuid4 env)) /\
       reservas_table (snd (criar_reserva lib env data w))
       = put "reserva_id" (registro_reserva env data email ci co t g v)
             (reservas_table w).
Proof.
  rewrite criar_reserva_em_dois_passos. unfold bind.
  pose proof (criar_reserva_ate_registro_ledger lib env data w) as [_ Hl].
  destruct (criar_reserva_ate_registro lib env data w) as [[[r | p] | e] w1] eqn:E;
    cbn [snd concluir ret] in *; try (left; exact Hl).
  rewrite criar_reserva_do_registro_casos.
  destruct (falha_reservas_put env); [left; exact Hl |].
  right.
  destruct (criar_reserva_ate_registro_origem lib env data w p w1 E)
    as (email & ci & co & t & nh & g & v & H1 & H2 & H3 & H4 & H5 & H6 & H7 & Hp).
  exists email, ci, co, t, nh, g, v.
  repeat (split; [assumption || reflexivity |]).
  cbn [snd gravada_e_interrompida reservas_table]. rewrite Hl, Hp. reflexivity.
Qed.

(** X21 - [enviar_email_confirmacao] never raises and never touches a table
    or the BI queue.  When the reservation has the eight attributes the
    message reads and SES takes the call, exactly one message goes out, to
    the reservation's [cliente_email], and nothing is printed.  In every
    other case no message goes out and one line is printed. *)
Theorem confirmation_mail_is_best_effort env reserva w :
  exists w',
    enviar_email_confirmacao env reserva w = (Ok tt, w') /\
    mesmo_ledger w w' /\
    clientes_table w' = clientes_table w /\
    sqs_queue w' = sqs_queue w /\
    match campo_ausente campos_do_email reserva, falha_ses env with
    | None, false =>
        exists destino,
          dict_get "cliente_email" reserva = Some destino /\
          ses_outbox w' = (ses_outbox w ++ [(destino, reserva)])%list /\
          stdout w' = stdout w
    | _, _ =>
        ses_outbox w' = ses_outbox w /\
        exists e, stdout w' = (stdout w ++ [("Erro ao enviar email", e)])%list
    end.
Proof.
  unfold enviar_email_confirmacao, try_except, bind, lift, dict_item,
    res_of_option, ses_send_email, print, campos_do_email, campo_ausente,
    dict_in, mesmo_ledger.
  destruct (dict_get "cliente_nome" reserva);
    [| eexists; cbn; repeat split; eexists; reflexivity].
  destruct (dict_get "reserva_id" reserva);
    [| eexists; cbn; repeat split; eexists; reflexivity].
  destruct (dict_get "checkin" reserva);
    [| eexists; cbn; repeat split; eexists; reflexivity].
  destruct (dict_get "checkout" reserva);
    [| eexists; cbn; repeat split; eexists; reflexivity].
  destruct (dict_get "tipo_quarto" reserva);
    [| eexists; cbn; repeat split; eexists; reflexivity].
  destruct (dict_get "num_hospedes" reserva);
    [| eexists; cbn; repeat split; eexists; reflexivity].
  destruct (dict_get "valor_total" reserva);
    [| eexists; cbn; repeat split; eexists; reflexivity].
  destruct (dict_get "cliente_email" reserva) as [destino |];
    [| eexists; cbn; repeat split; eexists; reflexivity].
  destruct (falha_ses env).
  - eexists; cbn; repeat split; eexists; reflexivity.
  - eexists; cbn. repeat split. exists destino. repeat split.
Qed.

(** * The ML/BI pipeline *)

(** ** [lambda_validar_dados] *)

Lemma dict_get_dict_set k k' v d :
  dict_get k' (Pipeline.dict_set k v d)
  = if String.eqb k' k then Some v else dict_get k' d.
Proof.
  induction d as [| [k0 v0] rest IH]; cbn.
  - destruct (String.eqb k' k); reflexivity.
  - destruct (String.eqb k k0) eqn:E; cbn.
    + apply String.eqb_eq in E. subst k0.
      destruct (String.eqb k' k); reflexivity.
    + destruct (String.eqb k' k0) eqn:E0.
      * apply String.eqb_eq in E0. subst k0.
        rewrite String.eqb_sym, E. reflexivity.
      * exact IH.
Qed.

Ltac abrir_pipeline :=
  unfold Pipeline.lambda_validar_dados, Pipeline.try_except, Pipeline.bind,
    Pipeline.lift, Pipeline.logger_info, Pipeline.logger_error, Pipeline.raise,
    Pipeline.ret, Pipeline.item.

Ltac caso_pipeline :=
  match goal with
  | |- context [match campo_ausente ?c ?d with _ => _ end] =>
      destruct (campo_ausente c d) eqn:?
  | |- context [match dict_get ?k ?d with _ => _ end] =>
      destruct (dict_get k d) eqn:?
  | |- context [match ?f ?v ?s with inl _ => _ | inr _ => _ end] =>
      destruct (f v s) eqn:?
  | |- context [if ?a >=? ?b then _ else _] =>
      destruct (a >=? b) eqn:?
  end.

(** X22 - [lambda_validar_dados] logs exactly two records, whatever the
    event: the INFO record of the start, then the INFO record of the success
    when it returns, or the ERROR record "Erro na validação: " followed by
    [str(e)] when it raises [e].  An exception is logged and raised again,
    never swallowed. *)
Theorem validation_logs_and_reraises strptime format now event registros :
  exists r segundo,
    Pipeline.lambda_validar_dados strptime format now event registros
    = (r, (registros ++ [(Pipeline.INFO, "Iniciando validação de dados"); segundo])%list) /\
    segundo =
      match r with
      | inr _ => (Pipeline.INFO, "Validação concluída com sucesso")
      | inl e => (Pipeline.ERROR, "Erro na validação: " ++ Pipeline.str e)
      end.
Proof.
  abrir_pipeline.
  repeat caso_pipeline;
    do 2 eexists; rewrite <- ?app_assoc; cbn [app]; split; reflexivity.
Qed.

Lemma lambda_validar_dados_aceita strptime format now event registros out registros' :
  Pipeline.lambda_validar_dados strptime format now event registros
  = (inr out, registros') ->
  exists inicio fim fonte a b t1 t2 t3,
    dict_get "start_date" event = Some inicio /\
    dict_get "end_date" event = Some fim /\
    dict_get "data_source" event = Some fonte /\
    strptime inicio "%Y-%m-%d" = inr a /\
    strptime fim "%Y-%m-%d" = inr b /\
    a < b /\
    format fonte EmptyString = inr t1 /\
    format inicio EmptyString = inr t2 /\
    format fim EmptyString = inr t3 /\
    out = Pipeline.dict_set "status" (PStr "validated")
            (Pipeline.dict_set "data_key"
               (PStr ("processed_data/" ++ t1 ++ "/" ++ t2 ++ "_to_" ++ t3 ++ ".json"))
               (Pipeline.dict_set "validation_timestamp" (PStr now) event)).
Proof.
  abrir_pipeline.
  repeat caso_pipeline; intros H; try discriminate H.
  injection H as Hout _. subst out.
  do 8 eexists. repeat split; try eassumption. lia.
Qed.

Lemma campo_ausente_presente campos data campo :
  campo_ausente campos data = None -> In campo campos ->
  exists v, dict_get campo data = Some v.
Proof.
  induction campos as [| c rest IH]; cbn; [intros _ [] |].
  unfold dict_in. destruct (dict_get c data) as [v |] eqn:E; [| discriminate].
  intros H [-> | Hin]; [exists v; exact E | exact (IH H Hin)].
Qed.

(** X23 - When one of [start_date], [end_date], [data_source] is missing
    from the event, [lambda_validar_dados] raises [ValueError] with the
    message "Campo obrigatório ausente: " followed by the first missing
    field in that order, whatever the other fields hold. *)
Theorem validation_names_the_missing_field strptime format now event registros field :
  campo_ausente Pipeline.required_fields event = Some field ->
  fst (Pipeline.lambda_validar_dados strptime format now event registros)
  = inl (Pipeline.ValueError ("Campo obrigatório ausente: " ++ field)).
Proof.
  intros H. abrir_pipeline. rewrite H. reflexivity.
Qed.

(** X24 - A range that is empty or reversed is refused: when the three
    fields are there, both dates parse and the end is not after the start
    (the same day included), [lambda_validar_dados] raises [ValueError]
    "Data de início deve ser anterior à data de fim". *)
Theorem validation_rejects_an_empty_range
        strptime format now event registros inicio fim a b :
  dict_get "start_date" event = Some inicio ->
  dict_get "end_date" event = Some fim ->
  dict_in "data_source" event = true ->
  strptime inicio "%Y-%m-%d" = inr a ->
  strptime fim "%Y-%m-%d" = inr b ->
  b <= a ->
  fst (Pipeline.lambda_validar_dados strptime format now event registros)
  = inl (Pipeline.ValueError "Data de início deve ser anterior à data de fim").
Proof.
  intros Hi Hf Hd Ha Hb Hab. abrir_pipeline.
  unfold Pipeline.required_fields, campo_ausente, dict_in in *.
  rewrite Hi, Hf. destruct (dict_get "data_source" event); [| discriminate].
  rewrite Ha, Hb.
  replace (a >=? b) with true by (symmetry; apply Z.geb_le; exact Hab).
  reflexivity.
Qed.

(** X25 - When the three fields are there, both dates parse, the start is
    strictly before the end and the three values can be formatted,
    [lambda_validar_dados] returns an event and logs two INFO records.  The
    event has [status] 'validated' (also when the input had another
    [status]), [validation_timestamp] the clock, [data_key]
    "processed_data/<source>/<start>_to_<end>.json", and every other key as
    in the input. *)
Theorem validated_event_extends_the_input
        strptime format now event registros inicio fim fonte a b t1 t2 t3 :
  dict_get "start_date" event = Some inicio ->
  dict_get "end_date" event = Some fim ->
  dict_get "data_source" event = Some fonte ->
  strptime inicio "%Y-%m-%d" = inr a ->
  strptime fim "%Y-%m-%d" = inr b ->
  a < b ->
  format fonte EmptyString = inr t1 ->
  format inicio EmptyString = inr t2 ->
  format fim EmptyString = inr t3 ->
  exists out,
    Pipeline.lambda_validar_dados strptime format now event registros
    = (inr out,
       (registros ++ [(Pipeline.INFO, "Iniciando validação de dados");
                      (Pipeline.INFO, "Validação concluída com sucesso")])%list) /\
    dict_get "status" out = Some (PStr "validated") /\
    dict_get "validation_timestamp" out = Some (PStr now) /\
    dict_get "data_key" out
    = Some (PStr ("processed_data/" ++ t1 ++ "/" ++ t2 ++ "_to_" ++ t3 ++ ".json")) /\
    forall k,
      k <> "status" -> k <> "data_key" -> k <> "validation_timestamp" ->
      dict_get k out = dict_get k event.
Proof.
  intros Hi Hf Hd Ha Hb Hab H1 H2 H3.
  eexists. split.
  - abrir_pipeline.
    unfold Pipeline.required_fields, campo_ausente, dict_in.
    rewrite Hi, Hf, Hd, Ha, Hb, H1, H2, H3.
    replace (a >=? b) with false
      by (symmetry; rewrite Z.geb_leb; apply Z.leb_gt; exact Hab).
    rewrite <- app_assoc. reflexivity.
  - split; [| split; [| split]].
    + rewrite !dict_get_dict_set. reflexivity.
    + rewrite !dict_get_dict_set. reflexivity.
    + rewrite !dict_get_dict_set. reflexivity.
    + intros k Hs Hk Ht. rewrite !dict_get_dict_set.
      apply String.eqb_neq in Hs, Hk, Ht. rewrite Hs, Hk, Ht. reflexivity.
Qed.

(** X26 - [lambda_validar_dados] returns an event only when
    [start_date], [end_date] and [data_source] are present, both dates parse
    with '%Y-%m-%d', and the start is strictly before the end. *)
Theorem validated_event_has_a_proper_range
        strptime format now event registros out registros' :
  Pipeline.lambda_validar_dados strptime format now event registros
  = (inr out, registros') ->
  exists inicio fim a b,
    dict_get "start_date" event = Some inicio /\
    dict_get "end_date" event = Some fim /\
    dict_in "data_source" event = true /\
    strptime inicio "%Y-%m-%d" = inr a /\
    strptime fim "%Y-%m-%d" = inr b /\
    a < b.
Proof.
  intros H.
  destruct (lambda_validar_dados_aceita _ _ _ _ _ _ _ H)
    as (inicio & fim & fonte & a & b & t1 & t2 & t3
        & Hi & Hf & Hd & Ha & Hb & Hab & _).
  exists inicio, fim, a, b. unfold dict_in. rewrite Hd. repeat split; assumption.
Qed.

(** ** [gerar_alertas_gestao] *)

Ltac abrir_alertas :=
  unfold Pipeline.gerar_alertas_gestao, Pipeline.gerar_alertas_gestao_try,
    Pipeline.bind, Pipeline.lift, Pipeline.py_lt_int, Pipeline.alertas_append,
    Pipeline.ret.

Ltac caso_alertas :=
  match goal with
  | |- context [match Num.of_val ?v with _ => _ end] =>
      destruct (Num.of_val v) eqn:?
  | |- context [if Pipeline.menor ?x ?n then _ else _] =>
      destruct (Pipeline.menor x n) eqn:?
  | |- context [match ?f ?v ?s with inl _ => _ | inr _ => _ end] =>
      destruct (f v s) eqn:?
  end.

Ltac fechar_alertas b1 b2 b3 :=
  do 2 eexists; exists b1, b2, b3;
  (split; [reflexivity |]); (split; [reflexivity |]);
  first [left; reflexivity | right; eexists; reflexivity].

(** X27 - [gerar_alertas_gestao] never raises.  The kinds of the alerts
    it returns are taken from 'receita_baixa', 'baixa_ocupacao',
    'reservas_ultima_hora', each at most once and in that order, and the
    logger receives nothing or exactly one ERROR record. *)
Theorem alerts_keep_their_order format metricas registros :
  exists alertas registros' (b1 b2 b3 : bool),
    Pipeline.gerar_alertas_gestao format metricas registros
    = (inr alertas, registros') /\
    Pipeline.tipos alertas
    = ((if b1 then [Some (PStr "receita_baixa")] else [])
       ++ (if b2 then [Some (PStr "baixa_ocupacao")] else [])
       ++ (if b3 then [Some (PStr "reservas_ultima_hora")] else []))%list /\
    (registros' = registros \/
     exists msg, registros' = (registros ++ [(Pipeline.ERROR, msg)])%list).
Proof.
  abrir_alertas.
  repeat caso_alertas;
    first [ fechar_alertas true true true | fechar_alertas true true false
          | fechar_alertas true false true | fechar_alertas true false false
          | fechar_alertas false true true | fechar_alertas false true false
          | fechar_alertas false false true | fechar_alertas false false false ].
Qed.

(** X28 - When the three metrics (0 for a missing one) are numbers and
    [format] accepts the ones that are printed, [gerar_alertas_gestao] logs
    nothing and raises the revenue alert exactly when the revenue is below
    1000, the occupancy alert exactly when the bookings are below 10, and
    the last-minute alert exactly when the mean lead time is below 3. *)
Theorem alerts_follow_the_thresholds format metricas registros r t a :
  Num.of_val (dict_get_default "receita_total" (PInt 0) metricas) = Some r ->
  Num.of_val (dict_get_default "total_reservas" (PInt 0) metricas) = Some t ->
  Num.of_val (dict_get_default "antecedencia_media_dias" (PInt 0) metricas)
  = Some a ->
  (Pipeline.menor r 1000 = true ->
   exists s, format (dict_get_default "receita_total" (PInt 0) metricas) ".2f"
             = inr s) ->
  (Pipeline.menor t 10 = true ->
   exists s, format (dict_get_default "total_reservas" (PInt 0) metricas)
                    EmptyString = inr s) ->
  (Pipeline.menor a 3 = true ->
   exists s, format (dict_get_default "antecedencia_media_dias" (PInt 0) metricas)
                    ".1f" = inr s) ->
  exists alertas,
    Pipeline.gerar_alertas_gestao format metricas registros
    = (inr alertas, registros) /\
    Pipeline.tipos alertas
    = ((if Pipeline.menor r 1000 then [Some (PStr "receita_baixa")] else [])
       ++ (if Pipeline.menor t 10 then [Some (PStr "baixa_ocupacao")] else [])
       ++ (if Pipeline.menor a 3 then [Some (PStr "reservas_ultima_hora")]
           else []))%list.
Proof.
  intros Hr Ht Ha F1 F2 F3. abrir_alertas. rewrite Hr, Ht, Ha.
  destruct (Pipeline.menor r 1000);
    [destruct (F1 eq_refl) as [s1 ->] | clear F1];
  (destruct (Pipeline.menor t 10);
    [destruct (F2 eq_refl) as [s2 ->] | clear F2]);
  (destruct (Pipeline.menor a 3);
    [destruct (F3 eq_refl) as [s3 ->] | clear F3]);
  eexists; split; reflexivity.
Qed.

(** X29 - A [total_reservas] that is not a number stops
    [gerar_alertas_gestao] there: the revenue alert decided before it is
    kept, no later alert is produced whatever the lead time is, and one
    ERROR record is logged. *)
Theorem alerts_stop_at_a_bad_metric format metricas registros r :
  Num.of_val (dict_get_default "receita_total" (PInt 0) metricas) = Some r ->
  (Pipeline.menor r 1000 = true ->
   exists s, format (dict_get_default "receita_total" (PInt 0) metricas) ".2f"
             = inr s) ->
  Num.of_val (dict_get_default "total_reservas" (PInt 0) metricas) = None ->
  exists alertas msg,
    Pipeline.gerar_alertas_gestao format metricas registros
    = (inr alertas, (registros ++ [(Pipeline.ERROR, msg)])%list) /\
    Pipeline.tipos alertas
    = if Pipeline.menor r 1000 then [Some (PStr "receita_baixa")] else [].
Proof.
  intros Hr F1 Ht. abrir_alertas. rewrite Hr, Ht.
  destruct (Pipeline.menor r 1000);
    [destruct (F1 eq_refl) as [s1 ->] | clear F1];
  do 2 eexists; split; reflexivity.
Qed.

(** ** Instances *)

Lemma validation_names_the_missing_field_witness :
  fst (Pipeline.lambda_validar_dados Pipeline.strptime_exemplo
         Pipeline.format_exemplo "2024-02-01T06:00:00"
         [("start_date", PStr "2024-01-01"); ("data_source", PStr "dynamodb")] [])
  = inl (Pipeline.ValueError "Campo obrigatório ausente: end_date").
Proof.
  apply (validation_names_the_missing_field Pipeline.strptime_exemplo
           Pipeline.format_exemplo "2024-02-01T06:00:00"
           [("start_date", PStr "2024-01-01"); ("data_source", PStr "dynamodb")]
           [] "end_date").
  reflexivity.
Defined.

Lemma validation_rejects_an_empty_range_witness :
  fst (Pipeline.lambda_validar_dados Pipeline.strptime_exemplo
         Pipeline.format_exemplo "2024-02-01T06:00:00"
         [("start_date", PStr "2024-01-10"); ("end_date", PStr "2024-01-10");
          ("data_source", PStr "dynamodb")] [])
  = inl (Pipeline.ValueError "Data de início deve ser anterior à data de fim").
Proof.
  apply (validation_rejects_an_empty_range Pipeline.strptime_exemplo
           Pipeline.format_exemplo "2024-02-01T06:00:00"
           [("start_date", PStr "2024-01-10"); ("end_date", PStr "2024-01-10");
            ("data_source", PStr "dynamodb")] []
           (PStr "2024-01-10") (PStr "2024-01-10")
           (Exemplo.dia "2024-01-10") (Exemplo.dia "2024-01-10")).
  - reflexivity.
  - reflexivity.
  - reflexivity.
  - vm_compute. reflexivity.
  - vm_compute. reflexivity.
  - lia.
Defined.

Lemma validated_event_extends_the_input_witness :
  exists out,
    Pipeline.lambda_validar_dados Pipeline.strptime_exemplo
      Pipeline.format_exemplo "2024-02-01T06:00:00"
      [("status", PStr "pending"); ("start_date", PStr "2024-01-01");
       ("end_date", PStr "2024-01-31"); ("data_source", PStr "dynamodb")] []
    = (inr out,
       [(Pipeline.INFO, "Iniciando validação de dados");
        (Pipeline.INFO, "Validação concluída com sucesso")]) /\
    dict_get "status" out = Some (PStr "validated") /\
    dict_get "validation_timestamp" out = Some (PStr "2024-02-01T06:00:00") /\
    dict_get "data_key" out
    = Some (PStr "processed_data/dynamodb/2024-01-01_to_2024-01-31.json") /\
    forall k,
      k <> "status" -> k <> "data_key" -> k <> "validation_timestamp" ->
      dict_get k out
      = dict_get k [("status", PStr "pending"); ("start_date", PStr "2024-01-01");
                    ("end_date", PStr "2024-01-31");
                    ("data_source", PStr "dynamodb")].
Proof.
  apply (validated_event_extends_the_input Pipeline.strptime_exemplo
           Pipeline.format_exemplo "2024-02-01T06:00:00"
           [("status", PStr "pending"); ("start_date", PStr "2024-01-01");
            ("end_date", PStr "2024-01-31"); ("data_source", PStr "dynamodb")] []
           (PStr "2024-01-01") (PStr "2024-01-31") (PStr "dynamodb")
           (Exemplo.dia "2024-01-01") (Exemplo.dia "2024-01-31")
           "dynamodb" "2024-01-01" "2024-01-31").
  - reflexivity.
  - reflexivity.
  - reflexivity.
  - vm_compute. reflexivity.
  - vm_compute. reflexivity.
  - vm_compute. reflexivity.
  - reflexivity.
  - reflexivity.
  - reflexivity.
Defined.

Lemma validated_event_has_a_proper_range_witness :
  exists inicio fim a b,
    dict_get "start_date"
      [("start_date", PStr "2024-01-01"); ("end_date", PStr "2024-01-31");
       ("data_source", PStr "dynamodb")] = Some inicio /\
    dict_get "end_date"
      [("start_date", PStr "2024-01-01"); ("end_date", PStr "2024-01-31");
       ("data_source", PStr "dynamodb")] = Some fim /\
    dict_in "data_source"
      [("start_date", PStr "2024-01-01"); ("end_date", PStr "2024-01-31");
       ("data_source", PStr "dynamodb")] = true /\
    Pipeline.strptime_exemplo inicio "%Y-%m-%d" = inr a /\
    Pipeline.strptime_exemplo fim "%Y-%m-%d" = inr b /\
    a < b.
Proof.
  eapply (validated_event_has_a_proper_range Pipeline.strptime_exemplo
            Pipeline.format_exemplo "2024-02-01T06:00:00"
            [("start_date", PStr "2024-01-01"); ("end_date", PStr "2024-01-31");
             ("data_source", PStr "dynamodb")] []).
  vm_compute. reflexivity.
Defined.

Lemma alerts_follow_the_thresholds_witness :
  exists alertas,
    Pipeline.gerar_alertas_gestao Pipeline.format_exemplo [] [] = (inr alertas, []) /\
    Pipeline.tipos alertas
    = [Some (PStr "receita_baixa"); Some (PStr "baixa_ocupacao");
       Some (PStr "reservas_ultima_hora")].
Proof.
  apply (alerts_follow_the_thresholds Pipeline.format_exemplo [] []
           (Num.I 0) (Num.I 0) (Num.I 0)).
  - reflexivity.
  - reflexivity.
  - reflexivity.
  - intros _. eexists. reflexivity.
  - intros _. eexists. reflexivity.
  - intros _. eexists. reflexivity.
Defined.

Lemma alerts_stop_at_a_bad_metric_witness :
  exists alertas msg,
    Pipeline.gerar_alertas_gestao Pipeline.format_exemplo
      [("receita_total", PInt 500); ("total_reservas", PNone)] []
    = (inr alertas, [(Pipeline.ERROR, msg)]) /\
    Pipeline.tipos alertas = [Some (PStr "receita_baixa")].
Proof.
  apply (alerts_stop_at_a_bad_metric Pipeline.format_exemplo
           [("receita_total", PInt 500); ("total_reservas", PNone)] []
           (Num.I 500)).
  - reflexivity.
  - intros _. eexists. reflexivity.
  - reflexivity.
Defined.
